(** * Budget app: allocation, ledger aggregation, transfers and collections

    A shallow embedding of the business logic of the budgeting web
    application (Home page, Dashboard page, Savings page,
    [lib/collections.ts] and its collect button) together with the
    properties stated about it.

    Conventions of the embedding.
    - A finite JavaScript [number] is an exact rational ([Q]); equations
      between amounts are stated with [==].  [Math.round x] is
      [floor (x + 1/2)], the ECMAScript definition.  Binary floating point
      error is not modelled.
    - A value produced from user text by [Number(...)] may also be [NaN] or
      infinite ([JS.number]).  A text field is kept with its conversion
      ([Input.t]); the money helpers are written once, over the
      arithmetic of either kind of number ([JS.Arith]).
    - Strings are sequences of 8-bit code units; [toLowerCase] and [trim]
      act on the Latin-1 range.  A date is its day number.
    - A [Map<string, number>] that is only looked up and updated is a
      [gmap string Q]; the one whose iteration order is used is an
      insertion-ordered association list.  A [Set<string>] is a
      [gset string].
    - The hosted store is a record of tables, each a list of rows in
      creation order.  A handler is a function from the store, the log of
      writes and the page state to their new values; the session, the
      clock and the failures of the store are its environment ([Env.t]).
      Reads are taken to succeed. *)

From Stdlib Require Import ZArith QArith Qround Qminmax Qabs Lia Lqa.
From Stdlib Require Import String Ascii List Sorted.
From stdpp Require Import gmap strings list fin_maps.
Import ListNotations.

Local Open Scope Q_scope.
Local Open Scope string_scope.

(** ** JavaScript built-ins used by the application *)

Module JS.

(** *** Strings *)

Definition code (c : ascii) : nat := nat_of_ascii c.

(** [String.prototype.toLowerCase], on the Latin-1 range: A-Z and the
    accented capitals (except the multiplication sign) move up by 32. *)
Definition lower_char (c : ascii) : ascii :=
  let n := code c in
  if ((65 <=? n) && (n <=? 90))%nat then ascii_of_nat (n + 32)
  else if ((192 <=? n) && (n <=? 222) && negb (n =? 215))%nat
       then ascii_of_nat (n + 32)
  else c.

Fixpoint toLowerCase (s : string) : string :=
  match s with
  | EmptyString => EmptyString
  | String c r => String (lower_char c) (toLowerCase r)
  end.

(** White space and line terminators removed by [trim]: TAB, LF, VT, FF,
    CR, SPACE and NBSP. *)
Definition is_white (c : ascii) : bool :=
  let n := code c in
  (((9 <=? n) && (n <=? 13)) || (n =? 32) || (n =? 160))%nat.

Fixpoint trimStart (s : string) : string :=
  match s with
  | EmptyString => EmptyString
  | String c r => if is_white c then trimStart r else s
  end.

(** [trimEnd] keeps a character when it is not white space or when
    something remains after it. *)
Fixpoint trimEnd (s : string) : string :=
  match s with
  | EmptyString => EmptyString
  | String c r =>
      match trimEnd r with
      | EmptyString => if is_white c then EmptyString else String c EmptyString
      | r' => String c r'
      end
  end.

Definition trim (s : string) : string := trimEnd (trimStart s).

Definition startsWith (s p : string) : bool := String.prefix p s.

(** [s.indexOf(p)]: [None] stands for [-1]. *)
Definition indexOf (s p : string) : option nat := String.index 0 p s.

Definition includes (s p : string) : bool :=
  match indexOf s p with Some _ => true | None => false end.

(** [s.slice(i, j)] and [s.slice(i)] for indices inside the string. *)
Definition slice (s : string) (i j : nat) : string := String.substring i (j - i) s.
Definition sliceFrom (s : string) (i : nat) : string :=
  String.substring i (String.length s - i) s.

(** A string is truthy when it is not empty. *)
Definition truthy (s : string) : bool :=
  match s with EmptyString => false | _ => true end.

(** *** Numbers *)

(** [Math.round] on a finite number: the nearest integer, halves going
    up. *)
Definition Qround (x : Q) : Q := inject_Z (Qfloor (x + (1 # 2))).

(** The [number]s a text field can produce through [Number(...)]. *)
Inductive number : Type :=
| Fin (q : Q)
| PInf
| NInf
| NaN.

Definition isNaN (n : number) : bool :=
  match n with NaN => true | _ => false end.

Definition isFinite (n : number) : bool :=
  match n with Fin _ => true | _ => false end.

(** [n <= 0] and [n > 0]: every comparison with [NaN] is false. *)
Definition le0 (n : number) : bool :=
  match n with
  | Fin q => Qle_bool q 0
  | NInf => true
  | PInf | NaN => false
  end.

(** The sign of a finite number, used by the rules for infinities. *)
Definition sgn (q : Q) : comparison := Qcompare q 0.

Definition neg (n : number) : number :=
  match n with
  | Fin q => Fin (- q)
  | PInf => NInf
  | NInf => PInf
  | NaN => NaN
  end.

Definition nadd (a b : number) : number :=
  match a, b with
  | NaN, _ | _, NaN => NaN
  | Fin x, Fin y => Fin (x + y)
  | PInf, NInf | NInf, PInf => NaN
  | PInf, _ | _, PInf => PInf
  | NInf, _ | _, NInf => NInf
  end.

Definition nsub (a b : number) : number := nadd a (neg b).

Definition nmul (a b : number) : number :=
  match a, b with
  | NaN, _ | _, NaN => NaN
  | Fin x, Fin y => Fin (x * y)
  | Fin x, PInf | PInf, Fin x =>
      match sgn x with Gt => PInf | Lt => NInf | Eq => NaN end
  | Fin x, NInf | NInf, Fin x =>
      match sgn x with Gt => NInf | Lt => PInf | Eq => NaN end
  | PInf, PInf | NInf, NInf => PInf
  | PInf, NInf | NInf, PInf => NInf
  end.

(** Division; a zero divisor counts as [+0]. *)
Definition ndiv (a b : number) : number :=
  match a, b with
  | NaN, _ | _, NaN => NaN
  | Fin x, Fin y =>
      match sgn y with
      | Eq => match sgn x with Gt => PInf | Lt => NInf | Eq => NaN end
      | _ => Fin (x / y)
      end
  | Fin _, (PInf | NInf) => Fin 0
  | PInf, Fin y => match sgn y with Lt => NInf | _ => PInf end
  | NInf, Fin y => match sgn y with Lt => PInf | _ => NInf end
  | (PInf | NInf), (PInf | NInf) => NaN
  end.

Definition nround (a : number) : number :=
  match a with
  | Fin x => Fin (Qround x)
  | other => other
  end.

(** The arithmetic the money helpers are written with.  They run on
    values read back from the store, which are finite, and on the income
    typed by the user, which need not be. *)
Class Arith (num : Type) : Type := {
  lit : Q -> num;
  add : num -> num -> num;
  sub : num -> num -> num;
  mul : num -> num -> num;
  div : num -> num -> num;
  Math_round : num -> num
}.

#[global] Instance Q_Arith : Arith Q := {|
  lit q := q;
  add := Qplus;
  sub := Qminus;
  mul := Qmult;
  div := Qdiv;
  Math_round := Qround
|}.

#[global] Instance number_Arith : Arith number := {|
  lit := Fin;
  add := nadd;
  sub := nsub;
  mul := nmul;
  div := ndiv;
  Math_round := nround
|}.

(** *** [Map] with its insertion order *)

Section OrderedMap.
Context {V : Type}.

Fixpoint Map_get (m : list (string * V)) (k : string) : option V :=
  match m with
  | [] => None
  | (k', v) :: r => if String.eqb k' k then Some v else Map_get r k
  end.

(** [set] overwrites in place when the key exists and appends
    otherwise. *)
Fixpoint Map_set (m : list (string * V)) (k : string) (v : V) : list (string * V) :=
  match m with
  | [] => [(k, v)]
  | (k', v') :: r =>
      if String.eqb k' k then (k', v) :: r else (k', v') :: Map_set r k v
  end.

Definition Map_values (m : list (string * V)) : list V := map snd m.
End OrderedMap.

End JS.

(** ** Money helpers *)

Section Money.
Context {num : Type} `{JS.Arith num}.

Definition clamp2 (n : num) : num :=
  JS.div (JS.Math_round (JS.mul n (JS.lit 100))) (JS.lit 100).

Definition toCents (n : num) : num :=
  JS.Math_round (JS.mul n (JS.lit 100)).

Definition centsToNumber (cents : num) : num :=
  JS.div (JS.Math_round cents) (JS.lit 100).
End Money.


(** ** Trackers *)

(** The four trackers of the savings and goal display; the string
    literal type [TrackerBucket] of the pages and [Bucket] of the
    library. *)
Inductive TrackerBucket : Type :=
| savings
| student_loans
| emergency
| extra_money.

(** ** Home page *)

Module Home.

Definition clamp (n min max : Q) : Q := Qmax min (Qmin max n).

(** Supports notes in the bucket label, like "student loans (gift)". *)
Definition trackerForRawBucket (raw : string) : TrackerBucket :=
  let x := JS.trim (JS.toLowerCase raw) in
  if JS.startsWith x "save" then savings
  else if JS.startsWith x "student loans" then student_loans
  else if JS.startsWith x "emergency" then emergency
  else extra_money.

(** [GoalDonutCard]: the percentage of the ring and the amount left. *)
Definition pct (current target : Q) : Q :=
  if Qle_bool target 0 then 0 else clamp ((current / target) * 100) 0 100.

Definition remaining (current target : Q) : Q := Qmax (target - current) 0.

End Home.

(** ** Savings page *)

Module Savings.

Definition trackerForRawBucket (raw : string) : TrackerBucket :=
  let x := JS.trim (JS.toLowerCase raw) in
  if String.eqb x "save" then savings
  else if String.eqb x "student loans" then student_loans
  else if String.eqb x "emergency" then emergency
  else extra_money.

(** Tracker to [bucket_collections.bucket], for adjustment rows. *)
Definition rawBucketForTracker (tracker : TrackerBucket) : string :=
  match tracker with
  | savings => "save"
  | student_loans => "student loans"
  | emergency => "emergency"
  | extra_money => "extra money"
  end.

(** The bucket label written by [adjustTrackerTotal]. *)
Definition adjustmentBucket (tracker : TrackerBucket) (adjNote : string) : string :=
  let baseBucket := rawBucketForTracker tracker in
  let note := JS.trim adjNote in
  if JS.truthy note then baseBucket ++ " (" ++ note ++ ")" else baseBucket.

End Savings.

(** ** Goal progress as the specification words it *)

Definition spec_clamp (x lo hi : Q) : Q :=
  if Qlt_le_dec x lo then lo else if Qlt_le_dec hi x then hi else x.

Definition spec_percent (c t : Q) : Q :=
  if Qlt_le_dec 0 t then spec_clamp (c / t * 100) 0 100 else 0.

Definition spec_remaining (c t : Q) : Q :=
  if Qlt_le_dec (t - c) 0 then 0 else t - c.

(** An ISO date [YYYY-MM-DD] is represented by its day number, so that
    [addDaysISO] is an addition and the order on dates is the order on
    integers. *)
Definition date : Type := Z.

Definition addDaysISO (iso : date) (days : Z) : date := (iso + days)%Z.

Definition isISOInRange (d start end_ : date) : bool :=
  ((start <=? d) && (d <=? end_))%Z.

(** ** Rows of the store *)

(** Columns that no modelled handler reads ([id], [created_at],
    [description]) are left out; a table lists its rows in the order of
    their creation. *)

Module Budget.
Record t (num : Type) : Type := mk {
  user_id : string;
  week_start : date;
  category : string;
  amount : num
}.
Arguments mk {num}.
Arguments user_id {num}.
Arguments week_start {num}.
Arguments category {num}.
Arguments amount {num}.
End Budget.

Module Transaction.
Record t : Type := mk {
  user_id : string;
  date_ : date;
  amount : Q;
  category : string
}.
End Transaction.

Module CategoryMapRow.
Record t : Type := mk {
  user_id : string;
  raw_category : string;
  bucket : string
}.
End CategoryMapRow.

Module BucketTransfer.
Record t : Type := mk {
  user_id : string;
  week_start : date;
  from_bucket : string;
  to_bucket : string;
  amount : Q
}.
End BucketTransfer.

Module BucketCollectionRow.
Record t : Type := mk {
  user_id : string;
  week_start : date;
  bucket : string;
  amount : Q
}.
End BucketCollectionRow.

Module WeeklyIncome.
Record t : Type := mk {
  user_id : string;
  week_start : date;
  amount : Q
}.
End WeeklyIncome.

(** ** The store and the session *)

(** A text field together with its conversion [Number(text)], which is
    a built-in of the language. *)
Module Input.
Record t : Type := mk {
  text : string;
  asNumber : JS.number
}.
End Input.

(** A row of the [collections] table of [lib/collections.ts]. *)
Module CollectionRow.
Record t : Type := mk {
  id : nat;
  user_id : string;
  week_id : string;
  category : string;
  bucket : TrackerBucket;
  amount : Q;
  undone_at : option Z
}.
End CollectionRow.

Module Store.
Record t : Type := mk {
  weekly_income : list WeeklyIncome.t;
  budgets : list (Budget.t Q);
  transactions : list Transaction.t;
  category_map : list CategoryMapRow.t;
  bucket_transfers : list BucketTransfer.t;
  bucket_collections : list BucketCollectionRow.t;
  collections : list CollectionRow.t
}.

Definition empty : t := mk [] [] [] [] [] [] [].
End Store.

(** The writes the modelled handlers send to the store. *)
Inductive Request : Type :=
| UpsertWeeklyIncome (uid : string) (ws : date) (amount : JS.number)
| DeleteBudgets (uid : string) (ws : date)
| DeleteTransfers (uid : string) (ws : date)
| InsertBudgets (inserts : list (Budget.t JS.number))
| InsertTransfer (row : BucketTransfer.t)
| InsertBucketCollection (row : BucketCollectionRow.t)
| DeleteBucketCollections (uid : string) (ws : date) (bucket : string)
| InsertCollection (uid week_id category : string) (bucket : TrackerBucket) (amount : Q)
| MarkCollectionUndone (id : nat) (undone_at : Z)
| InsertTransaction (uid : string) (d : date) (amount : JS.number) (category : string).

(** A number travels to the store as JSON, where [NaN] and the
    infinities become [null]; a [null] amount reads back through
    [Number(...)] as 0. *)
Definition storedAmount (n : JS.number) : Q :=
  match n with
  | JS.Fin q => q
  | _ => 0
  end.

Definition sameWeek (uid : string) (ws : date) (uid' : string) (ws' : date) : bool :=
  String.eqb uid' uid && (ws' =? ws)%Z.

(** The effect of a write that the store accepts.  The weekly income
    has one row per user and week, which an upsert replaces. *)
Definition apply (r : Request) (st : Store.t) : Store.t :=
  let '(Store.mk wi bu tx cm tr bc co) := st in
  match r with
  | UpsertWeeklyIncome uid ws amount =>
      let hit x := sameWeek uid ws (WeeklyIncome.user_id x) (WeeklyIncome.week_start x) in
      let row := WeeklyIncome.mk uid ws (storedAmount amount) in
      if existsb hit wi
      then Store.mk (map (fun x => if hit x then row else x) wi) bu tx cm tr bc co
      else Store.mk (wi ++ [row]) bu tx cm tr bc co
  | DeleteBudgets uid ws =>
      Store.mk wi
        (List.filter
           (fun x => negb (sameWeek uid ws (Budget.user_id x) (Budget.week_start x))) bu)
        tx cm tr bc co
  | DeleteTransfers uid ws =>
      Store.mk wi bu tx cm
        (List.filter
           (fun x => negb (sameWeek uid ws (BucketTransfer.user_id x)
                             (BucketTransfer.week_start x))) tr)
        bc co
  | InsertBudgets inserts =>
      Store.mk wi
        (bu ++ map (fun x => Budget.mk (Budget.user_id x) (Budget.week_start x)
                               (Budget.category x) (storedAmount (Budget.amount x)))
                 inserts)
        tx cm tr bc co
  | InsertTransfer row => Store.mk wi bu tx cm (tr ++ [row]) bc co
  | InsertBucketCollection row => Store.mk wi bu tx cm tr (bc ++ [row]) co
  | DeleteBucketCollections uid ws bucket =>
      Store.mk wi bu tx cm tr
        (List.filter
           (fun x => negb (sameWeek uid ws (BucketCollectionRow.user_id x)
                             (BucketCollectionRow.week_start x)
                           && String.eqb (BucketCollectionRow.bucket x) bucket)) bc)
        co
  | InsertCollection uid week_id category bucket amount =>
      Store.mk wi bu tx cm tr bc
        (co ++ [CollectionRow.mk (List.length co) uid week_id category bucket amount None])
  | MarkCollectionUndone id undone_at =>
      Store.mk wi bu tx cm tr bc
        (map (fun x =>
                if (CollectionRow.id x =? id)%nat
                then CollectionRow.mk (CollectionRow.id x) (CollectionRow.user_id x)
                       (CollectionRow.week_id x) (CollectionRow.category x)
                       (CollectionRow.bucket x) (CollectionRow.amount x) (Some undone_at)
                else x) co)
  | InsertTransaction uid d amount category =>
      Store.mk wi bu (tx ++ [Transaction.mk uid d (storedAmount amount) category])
        cm tr bc co
  end.

(** What the handlers cannot control: the session, the signed-in user,
    the clock, and which writes the store refuses. *)
Module Env.
Record t : Type := mk {
  session : bool;
  user : option string;
  today : date;
  now : Z;
  fails : Request -> bool
}.
End Env.

(** The store together with the log of the writes attempted so far. *)
Module World.
Record t : Type := mk {
  store : Store.t;
  log : list Request
}.
End World.

(** Send one write; the result is [true] when the store reports an
    error, in which case nothing changes but the log. *)
Definition request (env : Env.t) (r : Request) (w : World.t) : bool * World.t :=
  if Env.fails env r
  then (true, World.mk (World.store w) (World.log w ++ [r]))
  else (false, World.mk (apply r (World.store w)) (World.log w ++ [r])).

(** ** [lib/collections.ts] *)

Module Collections.

Definition bucketForCategory (category : string) : TrackerBucket :=
  let c := JS.toLowerCase category in
  if JS.includes c "student" then student_loans
  else if JS.includes c "saving" then savings
  else if JS.includes c "emerg" then emergency
  else if JS.includes c "want" || JS.includes c "expense" then extra_money
  else extra_money.

(** A call either returns or throws. *)
Inductive Outcome (A : Type) : Type :=
| Returned (a : A)
| Thrown (msg : string).
Arguments Returned {A}.
Arguments Thrown {A}.

Definition getUserIdOrThrow (env : Env.t) : Outcome string :=
  match Env.user env with
  | Some userId => Returned userId
  | None => Thrown "Not logged in"
  end.

(** The rows of a week and category that are not undone, oldest
    first. *)
Definition active (userId weekId category : string) (co : list CollectionRow.t)
  : list CollectionRow.t :=
  List.filter
    (fun x => String.eqb (CollectionRow.user_id x) userId
              && String.eqb (CollectionRow.week_id x) weekId
              && String.eqb (CollectionRow.category x) category
              && match CollectionRow.undone_at x with None => true | Some _ => false end)
    co.

(** Creates a collection row and returns it; [null] when there is
    nothing to collect. *)
Definition collectLeftover
    (env : Env.t) (weekId category : string) (amount : Q) (w : World.t)
  : Outcome (option CollectionRow.t) * World.t :=
  if Qeq_bool amount 0 || Qle_bool amount 0 then (Returned None, w)
  else
    match getUserIdOrThrow env with
    | Thrown msg => (Thrown msg, w)
    | Returned userId =>
        let bucket := bucketForCategory category in
        let '(error, w) :=
          request env (InsertCollection userId weekId category bucket amount) w in
        if error then (Thrown "store error", w)
        else (Returned (last (Store.collections (World.store w))), w)
    end.

(** Marks the most recent collection of that week and category that is
    not undone as undone. *)
Definition undoCollect
    (env : Env.t) (weekId category : string) (w : World.t)
  : Outcome (option CollectionRow.t) * World.t :=
  match getUserIdOrThrow env with
  | Thrown msg => (Thrown msg, w)
  | Returned userId =>
      let existing :=
        last (active userId weekId category (Store.collections (World.store w))) in
      match existing with
      | None => (Returned None, w)
      | Some row =>
          let '(error, w) :=
            request env (MarkCollectionUndone (CollectionRow.id row) (Env.now env)) w in
          if error then (Thrown "store error", w)
          else
            (Returned
               (Some (CollectionRow.mk (CollectionRow.id row) (CollectionRow.user_id row)
                        (CollectionRow.week_id row) (CollectionRow.category row)
                        (CollectionRow.bucket row) (CollectionRow.amount row)
                        (Some (Env.now env)))), w)
      end
  end.

End Collections.

(** ** The collect button built on the library *)

Module CollectButton.

Record State : Type := mk {
  loading : bool;
  isCollected : bool
}.

Definition disabled (st : State) (remaining : Q) : bool :=
  loading st || (negb (isCollected st) && Qle_bool remaining 0).

(** A click collects the remaining amount, or undoes the collection
    once collected; an exception leaves the flag as it was. *)
Definition onClick
    (env : Env.t) (weekId category : string) (remaining : Q)
    (w : World.t) (st : State) : World.t * State :=
  if disabled st remaining then (w, st)
  else if negb (isCollected st) then
    match Collections.collectLeftover env weekId category remaining w with
    | (Collections.Returned _, w) => (w, mk false true)
    | (Collections.Thrown _, w) => (w, mk false (isCollected st))
    end
  else
    match Collections.undoCollect env weekId category w with
    | (Collections.Returned _, w) => (w, mk false false)
    | (Collections.Thrown _, w) => (w, mk false (isCollected st))
    end.

End CollectButton.

(** ** Dashboard page: constants and pure helpers *)

Module Dashboard.

Module Row.
Record t : Type := mk {
  category : string;
  budgeted : Q;
  spent : Q;
  variance : Q
}.
End Row.

Definition ALLOCATIONS : list (string * Q) :=
  [ ("save", 0.15);
    ("wants", 0.15);
    ("emergency", 0.1);
    ("student loans", 0.25);
    ("expenses", 0.3) ].

Definition BUCKETS : list string := map fst ALLOCATIONS.

Section Allocation.
Context {num : Type} `{JS.Arith num}.

(** Build budgets in cents so that the total equals the income: round
    each bucket, then add the leftover cents to "expenses". *)
Definition buildBudgetInsertsExactTotal
    (userId : string) (weekStart : date) (income : num) : list (Budget.t num) :=
  let incomeCents := toCents income in
  let centsByBucket :=
    fold_left
      (fun m a =>
         JS.Map_set m (fst a) (JS.Math_round (JS.mul incomeCents (JS.lit (snd a)))))
      ALLOCATIONS [] in
  let sumCents :=
    fold_left (fun s c => JS.add s c) (JS.Map_values centsByBucket) (JS.lit 0) in
  let leftover := JS.sub incomeCents sumCents in
  let centsByBucket :=
    JS.Map_set centsByBucket "expenses"
      (JS.add (default (JS.lit 0) (JS.Map_get centsByBucket "expenses")) leftover) in
  map
    (fun bucket =>
       Budget.mk userId weekStart bucket
         (centsToNumber (default (JS.lit 0) (JS.Map_get centsByBucket bucket))))
    BUCKETS.
End Allocation.

(** *** Bucket-locked transaction categories *)

Definition TX_BUCKET_DELIM : string := "::".

Definition makeStoredCategory (bucket raw : string) : string :=
  bucket ++ TX_BUCKET_DELIM ++ raw.

Module Parsed.
Record t : Type := mk {
  bucket : option string;
  raw : string
}.
End Parsed.

Definition splitStoredCategory (category : string) : Parsed.t :=
  match JS.indexOf category TX_BUCKET_DELIM with
  | Some idx =>
      if (0 <? idx)%nat then
        let b := JS.trim (JS.slice category 0 idx) in
        let raw := JS.trim (JS.sliceFrom category (idx + String.length TX_BUCKET_DELIM)) in
        if existsb (String.eqb b) BUCKETS && JS.truthy raw
        then Parsed.mk (Some b) raw
        else Parsed.mk None category
      else Parsed.mk None category
  | None => Parsed.mk None category
  end.

(** *** Derived values of the page *)

Definition mapDict (categoryMap : list CategoryMapRow.t) : gmap string string :=
  fold_left
    (fun d row => <[CategoryMapRow.raw_category row := CategoryMapRow.bucket row]> d)
    categoryMap ∅.

(** The three maps that the [rows] memo fills, and [m.get(k) ?? 0]. *)
Definition get0 (m : gmap string Q) (k : string) : Q := default 0 (m !! k).

Definition baseBudgetByBucket (budgets : list (Budget.t Q)) : gmap string Q :=
  fold_left
    (fun m b => <[Budget.category b := get0 m (Budget.category b) + Budget.amount b]> m)
    budgets ∅.

Definition spentByBucket
    (transactions : list Transaction.t) (mapDict : gmap string string) : gmap string Q :=
  fold_left
    (fun m t =>
       if Qle_bool 0 (Transaction.amount t) then m
       else
         let parsed := splitStoredCategory (Transaction.category t) in
         let bucket :=
           match Parsed.bucket parsed with
           | Some b => Some b
           | None => mapDict !! Transaction.category t
           end in
         match bucket with
         | Some bucket =>
             if JS.truthy bucket
             then <[bucket := get0 m bucket + Qabs (Transaction.amount t)]> m
             else m
         | None => m
         end)
    transactions ∅.

Definition deltaByBucket (transfers : list BucketTransfer.t) : gmap string Q :=
  fold_left
    (fun m tr =>
       let amt := BucketTransfer.amount tr in
       let m := <[BucketTransfer.from_bucket tr :=
                    get0 m (BucketTransfer.from_bucket tr) - amt]> m in
       <[BucketTransfer.to_bucket tr := get0 m (BucketTransfer.to_bucket tr) + amt]> m)
    transfers ∅.

Definition rows
    (budgets : list (Budget.t Q)) (transactions : list Transaction.t)
    (mapDict : gmap string string) (transfers : list BucketTransfer.t) : list Row.t :=
  let baseBudgetByBucket := baseBudgetByBucket budgets in
  let spentByBucket := spentByBucket transactions mapDict in
  let deltaByBucket := deltaByBucket transfers in
  map
    (fun bucket =>
       let base := get0 baseBudgetByBucket bucket in
       let delta := get0 deltaByBucket bucket in
       let budgeted := clamp2 (base + delta) in
       let spent := clamp2 (get0 spentByBucket bucket) in
       Row.mk bucket budgeted spent (clamp2 (budgeted - spent)))
    BUCKETS.

Definition findRow (rows : list Row.t) (bucket : string) : option Row.t :=
  find (fun x => String.eqb (Row.category x) bucket) rows.

Definition availableFromBucket
    (rows : list Row.t) (collectedSet : gset string) (bucket : string) : Q :=
  match findRow rows bucket with
  | None => 0
  | Some r =>
      if decide (bucket ∈ collectedSet) then 0
      else Qmax 0 (clamp2 (Row.variance r))
  end.

(** *** Date helpers *)

(** Day of the week of a date, 0 for Sunday; day 0 is a Thursday. *)
Definition getDay (d : date) : Z := ((d + 4) mod 7)%Z.

Definition mostRecentDowISO (d : date) (targetDow : Z) : date :=
  let diff := Z.rem (getDay d - targetDow + 7) 7 in
  (d - diff)%Z.

Definition nextDowISO (d : date) (targetDow : Z) : date :=
  let diff := Z.rem (targetDow - getDay d + 7) 7 in
  (d + diff)%Z.

Definition weekStartForIncomeEntryISO
    (entryDate : date) (paydayDow : Z) (noticeDow : option Z) : date :=
  let entryDow := getDay entryDate in
  match noticeDow with
  | Some n => if (entryDow =? n)%Z then nextDowISO entryDate paydayDow
              else mostRecentDowISO entryDate paydayDow
  | None => mostRecentDowISO entryDate paydayDow
  end.

(** *** State of the page *)

(** The state that the modelled handlers read or write; the busy flags,
    the open and edited cards and the fields of the transaction form
    are left out. *)
Module State.
Record t : Type := mk {
  weekStart : option date;
  budgets : list (Budget.t Q);
  transactions : list Transaction.t;
  weeklyIncome : option WeeklyIncome.t;
  categoryMap : list CategoryMapRow.t;
  transfers : list BucketTransfer.t;
  collectedSet : gset string;
  errorMsg : option string;
  coverSource : gmap string string;
  coverAmount : gmap string Input.t;
  incomeInput : Input.t;
  newWeekStartDate : option date;
  paydayDow : Z;
  noticeDow : option Z
}.

(** The state on first render; the week-start field of the add-week
    form shows today. *)
Definition initial (today : date) : t :=
  mk None [] [] None [] [] ∅ None ∅ ∅ (Input.mk "" (JS.Fin 0)) (Some today) 5
    (Some 4%Z).
End State.

Definition setWeekStart (v : option date) (s : State.t) : State.t :=
  State.mk v (State.budgets s) (State.transactions s) (State.weeklyIncome s)
    (State.categoryMap s) (State.transfers s) (State.collectedSet s)
    (State.errorMsg s) (State.coverSource s) (State.coverAmount s)
    (State.incomeInput s) (State.newWeekStartDate s) (State.paydayDow s)
    (State.noticeDow s).

Definition setBudgets (v : list (Budget.t Q)) (s : State.t) : State.t :=
  State.mk (State.weekStart s) v (State.transactions s) (State.weeklyIncome s)
    (State.categoryMap s) (State.transfers s) (State.collectedSet s)
    (State.errorMsg s) (State.coverSource s) (State.coverAmount s)
    (State.incomeInput s) (State.newWeekStartDate s) (State.paydayDow s)
    (State.noticeDow s).

Definition setTransactions (v : list Transaction.t) (s : State.t) : State.t :=
  State.mk (State.weekStart s) (State.budgets s) v (State.weeklyIncome s)
    (State.categoryMap s) (State.transfers s) (State.collectedSet s)
    (State.errorMsg s) (State.coverSource s) (State.coverAmount s)
    (State.incomeInput s) (State.newWeekStartDate s) (State.paydayDow s)
    (State.noticeDow s).

Definition setWeeklyIncome (v : option WeeklyIncome.t) (s : State.t) : State.t :=
  State.mk (State.weekStart s) (State.budgets s) (State.transactions s) v
    (State.categoryMap s) (State.transfers s) (State.collectedSet s)
    (State.errorMsg s) (State.coverSource s) (State.coverAmount s)
    (State.incomeInput s) (State.newWeekStartDate s) (State.paydayDow s)
    (State.noticeDow s).

Definition setCategoryMap (v : list CategoryMapRow.t) (s : State.t) : State.t :=
  State.mk (State.weekStart s) (State.budgets s) (State.transactions s)
    (State.weeklyIncome s) v (State.transfers s) (State.collectedSet s)
    (State.errorMsg s) (State.coverSource s) (State.coverAmount s)
    (State.incomeInput s) (State.newWeekStartDate s) (State.paydayDow s)
    (State.noticeDow s).

Definition setTransfers (v : list BucketTransfer.t) (s : State.t) : State.t :=
  State.mk (State.weekStart s) (State.budgets s) (State.transactions s)
    (State.weeklyIncome s) (State.categoryMap s) v (State.collectedSet s)
    (State.errorMsg s) (State.coverSource s) (State.coverAmount s)
    (State.incomeInput s) (State.newWeekStartDate s) (State.paydayDow s)
    (State.noticeDow s).

Definition setCollectedSet (v : gset string) (s : State.t) : State.t :=
  State.mk (State.weekStart s) (State.budgets s) (State.transactions s)
    (State.weeklyIncome s) (State.categoryMap s) (State.transfers s) v
    (State.errorMsg s) (State.coverSource s) (State.coverAmount s)
    (State.incomeInput s) (State.newWeekStartDate s) (State.paydayDow s)
    (State.noticeDow s).

Definition setErrorMsg (v : option string) (s : State.t) : State.t :=
  State.mk (State.weekStart s) (State.budgets s) (State.transactions s)
    (State.weeklyIncome s) (State.categoryMap s) (State.transfers s)
    (State.collectedSet s) v (State.coverSource s) (State.coverAmount s)
    (State.incomeInput s) (State.newWeekStartDate s) (State.paydayDow s)
    (State.noticeDow s).

Definition setCoverSource (v : gmap string string) (s : State.t) : State.t :=
  State.mk (State.weekStart s) (State.budgets s) (State.transactions s)
    (State.weeklyIncome s) (State.categoryMap s) (State.transfers s)
    (State.collectedSet s) (State.errorMsg s) v (State.coverAmount s)
    (State.incomeInput s) (State.newWeekStartDate s) (State.paydayDow s)
    (State.noticeDow s).

Definition setCoverAmount (v : gmap string Input.t) (s : State.t) : State.t :=
  State.mk (State.weekStart s) (State.budgets s) (State.transactions s)
    (State.weeklyIncome s) (State.categoryMap s) (State.transfers s)
    (State.collectedSet s) (State.errorMsg s) (State.coverSource s) v
    (State.incomeInput s) (State.newWeekStartDate s) (State.paydayDow s)
    (State.noticeDow s).

Definition setIncomeInput (v : Input.t) (s : State.t) : State.t :=
  State.mk (State.weekStart s) (State.budgets s) (State.transactions s)
    (State.weeklyIncome s) (State.categoryMap s) (State.transfers s)
    (State.collectedSet s) (State.errorMsg s) (State.coverSource s)
    (State.coverAmount s) v (State.newWeekStartDate s) (State.paydayDow s)
    (State.noticeDow s).

(** The empty text field; [Number("")] is 0. *)
Definition blank : Input.t := Input.mk "" (JS.Fin 0).

(** The message of an error reported by the store or the session. *)
Definition storeError : string := "store error".
Definition noUser : string := "No user found.".

(** The rows shown for the current state. *)
Definition rowsOf (s : State.t) : list Row.t :=
  rows (State.budgets s) (State.transactions s)
    (mapDict (State.categoryMap s)) (State.transfers s).

(** *** Loaders *)

Definition ensureSignedIn (env : Env.t) : bool := Env.session env.

(** [order("date", { ascending: false })], as a stable insertion. *)
Fixpoint insertByDateDesc (t : Transaction.t) (l : list Transaction.t) : list Transaction.t :=
  match l with
  | [] => [t]
  | x :: r =>
      if (Transaction.date_ x <? Transaction.date_ t)%Z then t :: l
      else x :: insertByDateDesc t r
  end.

Definition orderByDateDesc (l : list Transaction.t) : list Transaction.t :=
  fold_right insertByDateDesc [] l.

(** Reads are taken to succeed. *)
Definition loadWeekAll (env : Env.t) (ws : date) (st : Store.t) (s : State.t) : State.t :=
  let s := setErrorMsg None s in
  if negb (ensureSignedIn env) then s
  else
    match Env.user env with
    | None => setErrorMsg (Some noUser) s
    | Some uid =>
        let we := addDaysISO ws 6 in
        let s :=
          setCategoryMap
            (List.filter (fun x => String.eqb (CategoryMapRow.user_id x) uid)
               (Store.category_map st)) s in
        let s :=
          setWeeklyIncome
            (find (fun x => sameWeek uid ws (WeeklyIncome.user_id x)
                              (WeeklyIncome.week_start x))
               (Store.weekly_income st)) s in
        let b :=
          List.filter (fun x => sameWeek uid ws (Budget.user_id x) (Budget.week_start x))
            (Store.budgets st) in
        let s := setWeekStart (Some ws) s in
        match b with
        | [] => setTransfers [] (setCollectedSet ∅ (setTransactions [] (setBudgets [] s)))
        | _ =>
            let s := setBudgets b s in
            let s :=
              setTransactions
                (orderByDateDesc
                   (List.filter
                      (fun x => String.eqb (Transaction.user_id x) uid
                                && isISOInRange (Transaction.date_ x) ws we)
                      (Store.transactions st))) s in
            let s :=
              setCollectedSet
                (list_to_set
                   (map BucketCollectionRow.bucket
                      (List.filter
                         (fun x => sameWeek uid ws (BucketCollectionRow.user_id x)
                                     (BucketCollectionRow.week_start x))
                         (Store.bucket_collections st)))) s in
            setTransfers
              (List.filter
                 (fun x => sameWeek uid ws (BucketTransfer.user_id x)
                             (BucketTransfer.week_start x))
                 (Store.bucket_transfers st)) s
        end
    end.

(** *** Mutations *)

Definition rebuildBudgetsForWeek
    (env : Env.t) (ws : date) (income : JS.number) (w : World.t) (s : State.t)
  : bool * World.t * State.t :=
  if negb (ensureSignedIn env) then (false, w, s)
  else
    match Env.user env with
    | None => (false, w, setErrorMsg (Some noUser) s)
    | Some uid =>
        let '(incErr, w) := request env (UpsertWeeklyIncome uid ws (clamp2 income)) w in
        if incErr then (false, w, setErrorMsg (Some storeError) s)
        else
          let '(_, w) := request env (DeleteBudgets uid ws) w in
          let '(_, w) := request env (DeleteTransfers uid ws) w in
          let inserts := buildBudgetInsertsExactTotal uid ws income in
          let '(insErr, w) := request env (InsertBudgets inserts) w in
          if insErr then (false, w, setErrorMsg (Some storeError) s)
          else (true, w, s)
    end.

Definition addNewWeekFromIncome (env : Env.t) (w : World.t) (s : State.t)
  : World.t * State.t :=
  let s := setErrorMsg None s in
  let income := Input.asNumber (State.incomeInput s) in
  if negb (JS.truthy (Input.text (State.incomeInput s)))
     || JS.isNaN income || JS.le0 income
  then (w, setErrorMsg (Some "Income must be a number greater than 0.") s)
  else
    let ws :=
      match State.newWeekStartDate s with
      | Some d => d
      | None =>
          weekStartForIncomeEntryISO (Env.today env)
            (State.paydayDow s) (State.noticeDow s)
      end in
    let '(ok, w, s) := rebuildBudgetsForWeek env ws income w s in
    if negb ok then (w, s)
    else
      let s := setIncomeInput blank s in
      (w, loadWeekAll env ws (World.store w) s).

Definition collectBucket
    (env : Env.t) (bucket : string) (amount : Q) (w : World.t) (s : State.t)
  : World.t * State.t :=
  let s := setErrorMsg None s in
  if Qle_bool amount 0 then (w, s)
  else if negb (ensureSignedIn env) then (w, s)
  else
    match Env.user env with
    | None => (w, setErrorMsg (Some noUser) s)
    | Some uid =>
        match State.weekStart s with
        | None => (w, setErrorMsg (Some "No active week to collect from.") s)
        | Some weekStart =>
            let rounded := clamp2 amount in
            let '(error, w) :=
              request env
                (InsertBucketCollection
                   (BucketCollectionRow.mk uid weekStart bucket rounded)) w in
            if error then (w, setErrorMsg (Some storeError) s)
            else (w, setCollectedSet (State.collectedSet s ∪ {[bucket]}) s)
        end
    end.

Definition undoCollect
    (env : Env.t) (bucket : string) (w : World.t) (s : State.t)
  : World.t * State.t :=
  let s := setErrorMsg None s in
  if negb (ensureSignedIn env) then (w, s)
  else
    match Env.user env with
    | None => (w, setErrorMsg (Some noUser) s)
    | Some uid =>
        match State.weekStart s with
        | None => (w, setErrorMsg (Some "No active week to undo from.") s)
        | Some weekStart =>
            let '(error, w) :=
              request env (DeleteBucketCollections uid weekStart bucket) w in
            if error then (w, setErrorMsg (Some storeError) s)
            else (w, setCollectedSet (State.collectedSet s ∖ {[bucket]}) s)
        end
    end.

(** [Number(wantStr)] ignores surrounding white space, so the conversion
    of the trimmed text is the conversion of the text. *)
Definition coverOverspend
    (env : Env.t) (targetBucket : string) (w : World.t) (s : State.t)
  : World.t * State.t :=
  let s := setErrorMsg None s in
  match State.weekStart s with
  | None => (w, setErrorMsg (Some "No active week.") s)
  | Some weekStart =>
      match findRow (rowsOf s) targetBucket with
      | None => (w, s)
      | Some targetRow =>
          if Qle_bool 0 (Row.variance targetRow) then (w, s)
          else
            let remainingOver := clamp2 (Qabs (Row.variance targetRow)) in
            let from := JS.trim (default "" (State.coverSource s !! targetBucket)) in
            if negb (JS.truthy from)
            then (w, setErrorMsg (Some "Choose a source bucket to cover from.") s)
            else if String.eqb from targetBucket
            then (w, setErrorMsg (Some "Source and target can't be the same.") s)
            else
              let available := availableFromBucket (rowsOf s) (State.collectedSet s) from in
              if Qle_bool available 0
              then (w, setErrorMsg (Some "That source bucket has no available money.") s)
              else
                let want := default blank (State.coverAmount s !! targetBucket) in
                let wantStr := JS.trim (Input.text want) in
                let amt :=
                  if JS.truthy wantStr then Input.asNumber want
                  else JS.Fin (Qmin remainingOver available) in
                match amt with
                | JS.Fin amt =>
                    if Qle_bool amt 0
                    then (w, setErrorMsg (Some "Enter a valid cover amount.") s)
                    else
                      let amt := clamp2 (Qmin (Qmin amt remainingOver) available) in
                      if negb (ensureSignedIn env) then (w, s)
                      else
                        match Env.user env with
                        | None => (w, setErrorMsg (Some noUser) s)
                        | Some uid =>
                            let '(error, w) :=
                              request env
                                (InsertTransfer
                                   (BucketTransfer.mk uid weekStart from targetBucket amt))
                                w in
                            if error then (w, setErrorMsg (Some storeError) s)
                            else
                              let s :=
                                setCoverAmount
                                  (<[targetBucket := blank]> (State.coverAmount s)) s in
                              (w, loadWeekAll env weekStart (World.store w) s)
                        end
                | _ => (w, setErrorMsg (Some "Enter a valid cover amount.") s)
                end
      end
  end.

(** *** The buttons of a bucket card *)

(** The cards are rendered once a week is selected, one per row.  The
    Collect button is rendered while the bucket is not collected and is
    disabled unless its variance is positive. *)
Definition clickCollect
    (env : Env.t) (bucket : string) (w : World.t) (s : State.t) : World.t * State.t :=
  match State.weekStart s, findRow (rowsOf s) bucket with
  | Some _, Some r =>
      let collected := bool_decide (Row.category r ∈ State.collectedSet s) in
      let canCollect := negb (Qle_bool (Row.variance r) 0) in
      if collected then (w, s)
      else if canCollect then collectBucket env (Row.category r) (Row.variance r) w s
      else (w, s)
  | _, _ => (w, s)
  end.

(** The Undo button takes its place once the bucket is collected. *)
Definition clickUndo
    (env : Env.t) (bucket : string) (w : World.t) (s : State.t) : World.t * State.t :=
  match State.weekStart s, findRow (rowsOf s) bucket with
  | Some _, Some r =>
      if bool_decide (Row.category r ∈ State.collectedSet s)
      then undoCollect env (Row.category r) w s
      else (w, s)
  | _, _ => (w, s)
  end.

(** What the user can do on the cards of the displayed week. *)
Inductive Event : Type :=
| ChooseCoverSource (target value : string)
| TypeCoverAmount (target : string) (value : Input.t)
| ClickCover (target : string)
| ClickCollect (bucket : string)
| ClickUndo (bucket : string).

Definition step (env : Env.t) (e : Event) (ws : World.t * State.t) : World.t * State.t :=
  let '(w, s) := ws in
  match e with
  | ChooseCoverSource target value =>
      (w, setCoverSource (<[target := value]> (State.coverSource s)) s)
  | TypeCoverAmount target value =>
      (w, setCoverAmount (<[target := value]> (State.coverAmount s)) s)
  | ClickCover target => coverOverspend env target w s
  | ClickCollect bucket => clickCollect env bucket w s
  | ClickUndo bucket => clickUndo env bucket w s
  end.

Definition run (env : Env.t) (es : list Event) (ws : World.t * State.t)
  : World.t * State.t :=
  fold_left (fun acc e => step env e acc) es ws.

(** *** Other derived values of the page *)

(** A [Set<string>] that is iterated, with its insertion order. *)
Definition Set_add (set : list string) (x : string) : list string :=
  if existsb (String.eqb x) set then set else (set ++ [x])%list.

(** [Array.prototype.sort()] without a comparator orders strings by
    their code units. *)
Fixpoint sortInsert (x : string) (l : list string) : list string :=
  match l with
  | [] => [x]
  | y :: r => if String.leb x y then x :: l else y :: sortInsert x r
  end.

Definition sort (l : list string) : list string := fold_right sortInsert [] l.

(** The legacy categories of the week that count for no bucket yet. *)
Definition unmappedCategories
    (transactions : list Transaction.t) (mapDict : gmap string string) : list string :=
  let set :=
    fold_left
      (fun set t =>
         let parsed := splitStoredCategory (Transaction.category t) in
         match Parsed.bucket parsed with
         | Some _ => set
         | None =>
             match mapDict !! Transaction.category t with
             | Some _ => set
             | None => Set_add set (Transaction.category t)
             end
         end)
      transactions [] in
  sort set.

Module Totals.
Record t : Type := mk {
  totalBudgeted : Q;
  totalSpent : Q;
  totalVariance : Q
}.
End Totals.

Definition totals (rows : list Row.t) : Totals.t :=
  let totalBudgeted := fold_left (fun s r => s + Row.budgeted r) rows 0 in
  let totalSpent := fold_left (fun s r => s + Row.spent r) rows 0 in
  Totals.mk (clamp2 totalBudgeted) (clamp2 totalSpent)
    (clamp2 (totalBudgeted - totalSpent)).

(** The sources offered in the cover menu of a card. *)
Definition coverOptions
    (rows : list Row.t) (collectedSet : gset string) (r : Row.t) : list string :=
  List.filter
    (fun b => negb (String.eqb b (Row.category r))
              && negb (Qle_bool (availableFromBucket rows collectedSet b) 0))
    BUCKETS.

(** *** Adding a transaction and moving between weeks *)

(** The fields of the add-transaction form when it is submitted. *)
Module TxForm.
Record t : Type := mk {
  txDate : option date;
  isExpense : bool;
  txAmount : Input.t;
  txRawCategory : string
}.
End TxForm.

Definition addTransactionForBucket
    (env : Env.t) (bucket : string) (form : TxForm.t) (w : World.t) (s : State.t)
  : World.t * State.t :=
  let s := setErrorMsg None s in
  match State.weekStart s with
  | None => (w, setErrorMsg (Some "Choose or create a week first.") s)
  | Some weekStart =>
      if negb (ensureSignedIn env) then (w, s)
      else
        let raw := JS.trim (TxForm.txRawCategory form) in
        let amt := Input.asNumber (TxForm.txAmount form) in
        if negb (JS.truthy raw)
        then (w, setErrorMsg (Some "Category name is required (ex: Crumbl, Gas, Rent).") s)
        else if negb (JS.truthy (Input.text (TxForm.txAmount form)))
                || JS.isNaN amt || JS.le0 amt
        then (w, setErrorMsg (Some "Amount must be a number greater than 0.") s)
        else
          match TxForm.txDate form with
          | None => (w, setErrorMsg (Some "Date is required.") s)
          | Some txDate =>
              let weekEnd := addDaysISO weekStart 6 in
              if negb (isISOInRange txDate weekStart weekEnd)
              then (w, setErrorMsg (Some "That date is not in this week.") s)
              else
                match Env.user env with
                | None => (w, setErrorMsg (Some noUser) s)
                | Some uid =>
                    let signedAmount := if TxForm.isExpense form then JS.neg amt else amt in
                    let storedCategory := makeStoredCategory bucket raw in
                    let '(error, w) :=
                      request env (InsertTransaction uid txDate signedAmount storedCategory)
                        w in
                    if error then (w, setErrorMsg (Some storeError) s)
                    else (w, loadWeekAll env weekStart (World.store w) s)
                end
          end
  end.

(** What the user can do on the page. *)
Inductive Action : Type :=
| Card (e : Event)
| TypeIncome (value : Input.t)
| ClickAddWeek
| SubmitTransaction (bucket : string) (form : TxForm.t)
| ViewWeek (viewWeekInput : date)
| RefreshAll.

Definition act (env : Env.t) (a : Action) (ws : World.t * State.t) : World.t * State.t :=
  let '(w, s) := ws in
  match a with
  | Card e => step env e (w, s)
  | TypeIncome value => (w, setIncomeInput value s)
  | ClickAddWeek => addNewWeekFromIncome env w s
  | SubmitTransaction bucket form => addTransactionForBucket env bucket form w s
  | ViewWeek viewWeekInput => (w, loadWeekAll env viewWeekInput (World.store w) s)
  | RefreshAll =>
      match State.weekStart s with
      | Some weekStart => (w, loadWeekAll env weekStart (World.store w) s)
      | None =>
          (w, loadWeekAll env (mostRecentDowISO (Env.today env) (State.paydayDow s))
                (World.store w) s)
      end
  end.

Definition session (env : Env.t) (acts : list Action) (ws : World.t * State.t)
  : World.t * State.t :=
  fold_left (fun acc a => act env a acc) acts ws.

End Dashboard.

(** ** The ledger as the specification words it *)

Definition sumQ (l : list Q) : Q := fold_right Qplus 0 l.

(** The bucket a transaction counts for: the locked bucket if present,
    otherwise the bucket its raw text is mapped to, if any. *)
Definition spec_bucket (mapDict : gmap string string) (t : Transaction.t) : option string :=
  match Dashboard.Parsed.bucket (Dashboard.splitStoredCategory (Transaction.category t)) with
  | Some b => Some b
  | None => mapDict !! Transaction.category t
  end.

Definition is_expense_of
    (mapDict : gmap string string) (bucket : string) (t : Transaction.t) : bool :=
  negb (Qle_bool 0 (Transaction.amount t))
  && match spec_bucket mapDict t with
     | Some b => String.eqb b bucket
     | None => false
     end.

(** sum(abs(transaction.amount) for this bucket where amount < 0) *)
Definition spec_spent
    (transactions : list Transaction.t) (mapDict : gmap string string) (bucket : string) : Q :=
  sumQ (map (fun t => Qabs (Transaction.amount t))
          (List.filter (is_expense_of mapDict bucket) transactions)).

(** sum(Budget.amount for this bucket) + sum(transfer.amount where
    to_bucket=this) - sum(transfer.amount where from_bucket=this) *)
Definition spec_budgeted
    (budgets : list (Budget.t Q)) (transfers : list BucketTransfer.t) (bucket : string) : Q :=
  sumQ (map Budget.amount
          (List.filter (fun b => String.eqb (Budget.category b) bucket) budgets))
  + sumQ (map BucketTransfer.amount
            (List.filter (fun tr => String.eqb (BucketTransfer.to_bucket tr) bucket) transfers))
  - sumQ (map BucketTransfer.amount
            (List.filter (fun tr => String.eqb (BucketTransfer.from_bucket tr) bucket) transfers)).

(** An amount that is a whole number of cents. *)
Definition whole_cents (x : Q) : Prop := clamp2 x == x.

(** ** Amounts in whole cents *)

Definition cents_store (st : Store.t) : Prop :=
  Forall (fun b => whole_cents (Budget.amount b)) (Store.budgets st) /\
  Forall (fun t => whole_cents (BucketTransfer.amount t)) (Store.bucket_transfers st).

Definition cents_state (s : Dashboard.State.t) : Prop :=
  Forall (fun b => whole_cents (Budget.amount b)) (Dashboard.State.budgets s) /\
  Forall (fun t => whole_cents (BucketTransfer.amount t)) (Dashboard.State.transfers s).

(** ** The displayed week and the store *)

(** The page shows a week of the signed-in user that has budgets, and
    what it shows is what [loadWeekAll] would load from the store now. *)
Definition synced (env : Env.t) (w : World.t) (s : Dashboard.State.t) : Prop :=
  Dashboard.ensureSignedIn env = true /\
  exists uid ws,
    Env.user env = Some uid /\
    Dashboard.State.weekStart s = Some ws /\
    Dashboard.State.budgets s <> [] /\
    let l := Dashboard.loadWeekAll env ws (World.store w) s in
    Dashboard.State.budgets s = Dashboard.State.budgets l /\
    Dashboard.State.transactions s = Dashboard.State.transactions l /\
    Dashboard.State.categoryMap s = Dashboard.State.categoryMap l /\
    Dashboard.State.transfers s = Dashboard.State.transfers l /\
    Dashboard.State.collectedSet s = Dashboard.State.collectedSet l.

(** The variance shown for a bucket, 0 when it has no row. *)
Definition varianceOf (s : Dashboard.State.t) (bucket : string) : Q :=
  match Dashboard.findRow (Dashboard.rowsOf s) bucket with
  | Some r => Dashboard.Row.variance r
  | None => 0
  end.

(** ** A concrete week *)

(** A signed-in user and a store that accepts every write. *)
Definition env_u : Env.t := Env.mk true (Some "u") 0%Z 0%Z (fun _ => false).

(** Week 1 of user "u": an income of 100, so wants is budgeted 15 and
    expenses 35, and one expense of 50 locked to expenses, which leaves
    expenses 15 over budget. *)
Definition store_week1 : Store.t :=
  Store.mk
    [WeeklyIncome.mk "u" 1%Z 100]
    (Dashboard.buildBudgetInsertsExactTotal "u" 1%Z 100)
    [Transaction.mk "u" 2%Z (-50) "expenses::rent"]
    [] [] [] [].

Definition state_week1 : Dashboard.State.t :=
  Dashboard.State.mk (Some 1%Z)
    (Dashboard.buildBudgetInsertsExactTotal "u" 1%Z 100)
    [Transaction.mk "u" 2%Z (-50) "expenses::rent"]
    (Some (WeeklyIncome.mk "u" 1%Z 100))
    [] [] ∅ None ∅ ∅ Dashboard.blank None 5 (Some 4%Z).

(** A first session of user "u" on an empty store: an income of 100 is
    entered, a rent of 50 is recorded under expenses, and the overspend
    is covered from wants. *)
Definition rent_form (d : date) : Dashboard.TxForm.t :=
  Dashboard.TxForm.mk (Some d) true (Input.mk "50" (JS.Fin 50)) "rent".

Definition first_session (d : date) : list Dashboard.Action :=
  [Dashboard.TypeIncome (Input.mk "100" (JS.Fin 100));
   Dashboard.ClickAddWeek;
   Dashboard.SubmitTransaction "expenses" (rent_form d);
   Dashboard.Card (Dashboard.ChooseCoverSource "expenses" "wants");
   Dashboard.Card (Dashboard.ClickCover "expenses")].

(** ** Dates as the browser computes them *)

(** The date helpers of the Dashboard go through [Date] objects: a date
    text is read as local midnight, moved by whole days in local time
    and written back with [toISOString], which is in UTC.  An instant is
    its number of milliseconds since the epoch, and [tz] is the offset
    of local time from UTC in milliseconds, taken to be the same at
    every instant involved (no daylight-saving change in between). *)
Module Clock.

Definition msPerDay : Z := 86400000.

(** [d.toISOString().slice(0, 10)] *)
Definition toISODate (d : Z) : date := (d / msPerDay)%Z.

(** [new Date(iso + "T00:00:00")] *)
Definition localMidnight (tz : Z) (iso : date) : Z := (iso * msPerDay - tz)%Z.

(** The calendar day of an instant in local time. *)
Definition localDay (tz : Z) (d : Z) : date := ((d + tz) / msPerDay)%Z.

(** [d.setHours(0, 0, 0, 0)] *)
Definition setHours0 (tz : Z) (d : Z) : Z := localMidnight tz (localDay tz d).

(** [d.getDay()] *)
Definition getDay (tz : Z) (d : Z) : Z := Dashboard.getDay (localDay tz d).

(** [d.setDate(d.getDate() + days)] *)
Definition addDays (d : Z) (days : Z) : Z := (d + days * msPerDay)%Z.

Definition addDaysISO (tz : Z) (iso : date) (days : Z) : date :=
  let d := localMidnight tz iso in
  toISODate (addDays d days).

Definition todayISO (now : Z) : date := toISODate now.

Definition mostRecentDowISO (tz : Z) (date_ : Z) (targetDow : Z) : date :=
  let d := setHours0 tz date_ in
  let diff := Z.rem (getDay tz d - targetDow + 7) 7 in
  toISODate (addDays d (- diff)).

Definition nextDowISO (tz : Z) (date_ : Z) (targetDow : Z) : date :=
  let d := setHours0 tz date_ in
  let diff := Z.rem (targetDow - getDay tz d + 7) 7 in
  toISODate (addDays d diff).

Definition weekStartForIncomeEntryISO
    (tz : Z) (entryDate : Z) (paydayDow : Z) (noticeDow : option Z) : date :=
  let entryDow := getDay tz entryDate in
  match noticeDow with
  | Some n => if (entryDow =? n)%Z then nextDowISO tz entryDate paydayDow
              else mostRecentDowISO tz entryDate paydayDow
  | None => mostRecentDowISO tz entryDate paydayDow
  end.

End Clock.

(** ** Weeks as the add-week handler leaves them *)

(** A budget row as the store keeps it. *)
Definition stored (b : Budget.t JS.number) : Budget.t Q :=
  Budget.mk (Budget.user_id b) (Budget.week_start b) (Budget.category b)
    (storedAmount (Budget.amount b)).

(** The store after the four writes of [rebuildBudgetsForWeek], when
    all of them are accepted. *)
Definition rebuilt (uid : string) (ws : date) (income : JS.number) (st : Store.t) : Store.t :=
  apply (InsertBudgets (Dashboard.buildBudgetInsertsExactTotal uid ws income))
    (apply (DeleteTransfers uid ws)
       (apply (DeleteBudgets uid ws)
          (apply (UpsertWeeklyIncome uid ws (clamp2 income)) st))).

(** Transfers between the five buckets. *)
Definition known_transfers (l : list BucketTransfer.t) : Prop :=
  Forall (fun t => In (BucketTransfer.from_bucket t) Dashboard.BUCKETS /\
                   In (BucketTransfer.to_bucket t) Dashboard.BUCKETS) l.

(** The budgets of a week are either absent or the five rows built from
    the income that the week's income row holds. *)
Definition week_built
    (budgets : list (Budget.t Q)) (inc : option WeeklyIncome.t) : Prop :=
  budgets = [] \/
  exists uid ws income,
    budgets = map stored (Dashboard.buildBudgetInsertsExactTotal uid ws income) /\
    inc = Some (WeeklyIncome.mk uid ws (storedAmount (clamp2 income))).

Definition ledger_store (st : Store.t) : Prop :=
  cents_store st /\ known_transfers (Store.bucket_transfers st) /\
  forall uid ws,
    week_built
      (List.filter (fun x => sameWeek uid ws (Budget.user_id x) (Budget.week_start x))
         (Store.budgets st))
      (find (fun x => sameWeek uid ws (WeeklyIncome.user_id x) (WeeklyIncome.week_start x))
         (Store.weekly_income st)).

Definition ledger_state (s : Dashboard.State.t) : Prop :=
  cents_state s /\ known_transfers (Dashboard.State.transfers s) /\
  week_built (Dashboard.State.budgets s) (Dashboard.State.weeklyIncome s).

(** ** Totals by tracker, on the Home and Savings pages *)

(** [Record<TrackerBucket, number>] *)
Module TrackerTotals.
Record t : Type := mk {
  savings_ : Q;
  student_loans_ : Q;
  emergency_ : Q;
  extra_money_ : Q
}.

Definition zero : t := mk 0 0 0 0.

Definition get (tot : t) (k : TrackerBucket) : Q :=
  match k with
  | savings => savings_ tot
  | student_loans => student_loans_ tot
  | emergency => emergency_ tot
  | extra_money => extra_money_ tot
  end.

(** [t[k] += x] *)
Definition add (tot : t) (k : TrackerBucket) (x : Q) : t :=
  match k with
  | savings =>
      mk (savings_ tot + x) (student_loans_ tot) (emergency_ tot) (extra_money_ tot)
  | student_loans =>
      mk (savings_ tot) (student_loans_ tot + x) (emergency_ tot) (extra_money_ tot)
  | emergency =>
      mk (savings_ tot) (student_loans_ tot) (emergency_ tot + x) (extra_money_ tot)
  | extra_money =>
      mk (savings_ tot) (student_loans_ tot) (emergency_ tot) (extra_money_ tot + x)
  end.
End TrackerTotals.

Definition tracker_eqb (a b : TrackerBucket) : bool :=
  match a, b with
  | savings, savings | student_loans, student_loans
  | emergency, emergency | extra_money, extra_money => true
  | _, _ => false
  end.

(** ** Home page: totals and goals *)

Module HomePage.

Definition totals (rows : list BucketCollectionRow.t) : TrackerTotals.t :=
  fold_left
    (fun t r =>
       let k := Home.trackerForRawBucket (BucketCollectionRow.bucket r) in
       TrackerTotals.add t k (BucketCollectionRow.amount r))
    rows TrackerTotals.zero.

(** A row of [user_goals]; the columns that the cards read. *)
Module UserGoalRow.
Record t : Type := mk {
  id : string;
  key : TrackerBucket;
  title : string;
  target : Q;
  ring_color : string;
  sort_order : Z;
  is_active : bool
}.
End UserGoalRow.

Definition defaultSavingsGoal : Q := 500.
Definition defaultLoansGoal : Q := 2000.

(** [new Map<TrackerBucket, UserGoalRow>()] filled with [m.set(g.key, g)]:
    a later row with the same key replaces an earlier one. *)
Definition goalByKey (goals : list UserGoalRow.t) : TrackerBucket -> option UserGoalRow.t :=
  fold_left
    (fun m g => fun k => if tracker_eqb k (UserGoalRow.key g) then Some g else m k)
    goals (fun _ => None).

Definition savingsTarget (goals : list UserGoalRow.t) : Q :=
  match goalByKey goals savings with
  | Some g => UserGoalRow.target g
  | None => defaultSavingsGoal
  end.

Definition loansTarget (goals : list UserGoalRow.t) : Q :=
  match goalByKey goals student_loans with
  | Some g => UserGoalRow.target g
  | None => defaultLoansGoal
  end.

(** [sort((a, b) => a.sort_order - b.sort_order)]; the sort is stable. *)
Fixpoint sortInsert (g : UserGoalRow.t) (l : list UserGoalRow.t) : list UserGoalRow.t :=
  match l with
  | [] => [g]
  | h :: r =>
      if (UserGoalRow.sort_order g <=? UserGoalRow.sort_order h)%Z then g :: l
      else h :: sortInsert g r
  end.

Definition sortBySortOrder (l : list UserGoalRow.t) : list UserGoalRow.t :=
  fold_right sortInsert [] l.

Definition notFixedGoal (g : UserGoalRow.t) : bool :=
  negb (tracker_eqb (UserGoalRow.key g) savings)
  && negb (tracker_eqb (UserGoalRow.key g) student_loans).

Definition extraGoals (goals : list UserGoalRow.t) : list UserGoalRow.t :=
  sortBySortOrder (List.filter UserGoalRow.is_active (List.filter notFixedGoal goals)).

End HomePage.

(** ** Savings page: totals, weeks and adjustments *)

Module SavingsPage.

Definition totals (rows : list BucketCollectionRow.t) : TrackerTotals.t :=
  fold_left
    (fun t r =>
       let k := Savings.trackerForRawBucket (BucketCollectionRow.bucket r) in
       TrackerTotals.add t k (BucketCollectionRow.amount r))
    rows TrackerTotals.zero.

Module Week.
Record t : Type := mk {
  weekStart : date;
  list_ : list BucketCollectionRow.t;
  sums : TrackerTotals.t
}.
End Week.

(** [if (!m.has(k)) m.set(k, []); m.get(k).push(r)] on a [Map] with its
    insertion order. *)
Fixpoint Map_push (m : list (date * list BucketCollectionRow.t)) (k : date)
    (r : BucketCollectionRow.t) : list (date * list BucketCollectionRow.t) :=
  match m with
  | [] => [(k, [r])]
  | (k', l) :: rest =>
      if (k' =? k)%Z then (k', (l ++ [r])%list) :: rest
      else (k', l) :: Map_push rest k r
  end.

(** [arr.sort((a, b) => b.weekStart.localeCompare(a.weekStart))]: the
    latest week first. *)
Fixpoint sortInsert (x : Week.t) (l : list Week.t) : list Week.t :=
  match l with
  | [] => [x]
  | y :: r =>
      if (Week.weekStart y <=? Week.weekStart x)%Z then x :: l
      else y :: sortInsert x r
  end.

Definition sortLatestFirst (l : list Week.t) : list Week.t := fold_right sortInsert [] l.

(** Every stored row has a week start, so the test [!r.week_start]
    never skips one. *)
Definition byWeek (rows : list BucketCollectionRow.t) : list Week.t :=
  let m := fold_left (fun m r => Map_push m (BucketCollectionRow.week_start r) r) rows [] in
  let arr := map (fun '(weekStart, list) => Week.mk weekStart list (totals list)) m in
  sortLatestFirst arr.

Definition selected (rows : list BucketCollectionRow.t) (selectedWeek : option date)
  : option Week.t :=
  match selectedWeek with
  | None => None
  | Some ws => find (fun w => (Week.weekStart w =? ws)%Z) (byWeek rows)
  end.

Definition weekOptions (rows : list BucketCollectionRow.t) : list date :=
  map Week.weekStart (byWeek rows).

(** The state of the page that [load] and [adjustTrackerTotal] use. *)
Module State.
Record t : Type := mk {
  rows : list BucketCollectionRow.t;
  errorMsg : option string;
  selectedWeek : option date;
  adjOpen : bool;
  adjTracker : TrackerBucket;
  subtract : bool;
  adjAmount : Input.t;
  adjNote : string
}.
End State.

(** [order("week_start", { ascending: false }).order("created_at",
    { ascending: false })] on rows kept in the order of their
    creation. *)
Fixpoint orderInsert (x : BucketCollectionRow.t) (l : list BucketCollectionRow.t)
  : list BucketCollectionRow.t :=
  match l with
  | [] => [x]
  | y :: r =>
      if (BucketCollectionRow.week_start y <=? BucketCollectionRow.week_start x)%Z
      then x :: l
      else y :: orderInsert x r
  end.

Definition ordered (l : list BucketCollectionRow.t) : list BucketCollectionRow.t :=
  fold_right orderInsert [] (rev l).

(** Reads are taken to succeed. *)
Definition load (env : Env.t) (st : Store.t) (s : State.t) : State.t :=
  if negb (Env.session env)
  then State.mk [] None (State.selectedWeek s) (State.adjOpen s) (State.adjTracker s)
         (State.subtract s) (State.adjAmount s) (State.adjNote s)
  else
    let nextRows := ordered (Store.bucket_collections st) in
    let mostRecentWeek :=
      match nextRows with
      | [] => None
      | r :: _ => Some (BucketCollectionRow.week_start r)
      end in
    State.mk nextRows None
      (match State.selectedWeek s with Some w => Some w | None => mostRecentWeek end)
      (State.adjOpen s) (State.adjTracker s) (State.subtract s) (State.adjAmount s)
      (State.adjNote s).

Definition withError (e : option string) (s : State.t) : State.t :=
  State.mk (State.rows s) e (State.selectedWeek s) (State.adjOpen s) (State.adjTracker s)
    (State.subtract s) (State.adjAmount s) (State.adjNote s).

Definition adjustTrackerTotal (env : Env.t) (w : World.t) (s : State.t)
  : World.t * State.t :=
  let s := withError None s in
  if negb (Env.session env) then (w, s)
  else
    match State.selectedWeek s with
    | None => (w, withError (Some "Pick a week before adjusting totals.") s)
    | Some selectedWeek =>
        let amt := Input.asNumber (State.adjAmount s) in
        match amt with
        | JS.Fin amt =>
            if negb (JS.truthy (Input.text (State.adjAmount s))) || Qle_bool amt 0
            then (w, withError (Some "Enter an amount greater than 0.") s)
            else
              match Env.user env with
              | None => (w, withError (Some "No user found.") s)
              | Some uid =>
                  let signed := if State.subtract s then - amt else amt in
                  let bucket := Savings.adjustmentBucket (State.adjTracker s) (State.adjNote s) in
                  let '(error, w) :=
                    request env
                      (InsertBucketCollection
                         (BucketCollectionRow.mk uid selectedWeek bucket signed)) w in
                  if error then (w, withError (Some "store error") s)
                  else
                    let s :=
                      State.mk (State.rows s) (State.errorMsg s) (State.selectedWeek s)
                        false (State.adjTracker s) (State.subtract s)
                        (Input.mk "" (JS.Fin 0)) "" in
                    (w, load env (World.store w) s)
              end
        | _ => (w, withError (Some "Enter an amount greater than 0.") s)
        end
    end.

End SavingsPage.

(** * Properties *)

(** ** Rounding *)

Lemma Qround_inject_Z (z : Z) : JS.Qround (inject_Z z) = inject_Z z.
Proof.
  unfold JS.Qround. f_equal.
  unfold Qfloor, Qplus, inject_Z; simpl.
  rewrite Z.mul_1_r.
  replace (z * 2 + 1)%Z with (1 + z * 2)%Z by lia.
  rewrite Z.div_add by lia. reflexivity.
Qed.

#[global] Instance Qround_comp : Proper (Qeq ==> eq) JS.Qround.
Proof. intros x y Hxy. unfold JS.Qround. f_equal. apply Qfloor_comp. rewrite Hxy. reflexivity. Qed.

Lemma Qround_integer (x : Q) (z : Z) : x == inject_Z z -> JS.Qround x = inject_Z z.
Proof. intros ->. apply Qround_inject_Z. Qed.

(** Rounding an integer number of cents times a fraction, in integers. *)
Lemma Qround_frac (n p : Z) (d : positive) :
  JS.Qround (inject_Z n * (p # d)) =
  inject_Z ((2 * (n * p) + Z.pos d) / (2 * Z.pos d)).
Proof.
  unfold JS.Qround. f_equal.
  unfold Qfloor, Qplus, Qmult, inject_Z; simpl.
  f_equal; lia.
Qed.

(** ** Rounding to cents *)

Lemma clamp2_unfold (x : Q) :
  clamp2 x = inject_Z (Qfloor (x * 100 + (1 # 2))) / 100.
Proof. reflexivity. Qed.

#[global] Instance clamp2_comp : Proper (Qeq ==> Qeq) (clamp2 (num := Q)).
Proof.
  intros x y Hxy. rewrite !clamp2_unfold.
  rewrite (Qfloor_comp (x * 100 + (1 # 2)) (y * 100 + (1 # 2))); [reflexivity|].
  rewrite Hxy. reflexivity.
Qed.

Lemma clamp2_cents (z : Z) : clamp2 (inject_Z z / 100) == inject_Z z / 100.
Proof.
  rewrite clamp2_unfold.
  rewrite (Qfloor_comp (inject_Z z / 100 * 100 + (1 # 2)) (inject_Z z + (1 # 2)))
    by (field).
  change (inject_Z (Qfloor (inject_Z z + (1 # 2)))) with (JS.Qround (inject_Z z)).
  rewrite Qround_inject_Z. reflexivity.
Qed.

Lemma whole_cents_iff (x : Q) : whole_cents x <-> exists z : Z, x == inject_Z z / 100.
Proof.
  unfold whole_cents. split.
  - intros Hx. exists (Qfloor (x * 100 + (1 # 2))). rewrite <- clamp2_unfold.
    symmetry. exact Hx.
  - intros [z Hz]. rewrite Hz. apply clamp2_cents.
Qed.

Lemma whole_cents_clamp2 (x : Q) : whole_cents (clamp2 x).
Proof. apply whole_cents_iff. eexists. rewrite clamp2_unfold. reflexivity. Qed.

#[global] Instance whole_cents_comp : Proper (Qeq ==> iff) whole_cents.
Proof. intros x y Hxy. unfold whole_cents. rewrite Hxy. reflexivity. Qed.

Lemma whole_cents_0 : whole_cents 0.
Proof. apply whole_cents_iff. exists 0%Z. reflexivity. Qed.

Lemma whole_cents_plus (x y : Q) : whole_cents x -> whole_cents y -> whole_cents (x + y).
Proof.
  rewrite !whole_cents_iff. intros [a Ha] [b Hb]. exists (a + b)%Z.
  rewrite Ha, Hb, inject_Z_plus. field.
Qed.

Lemma whole_cents_opp (x : Q) : whole_cents x -> whole_cents (- x).
Proof.
  rewrite !whole_cents_iff. intros [a Ha]. exists (- a)%Z.
  rewrite Ha, inject_Z_opp. field.
Qed.

Lemma whole_cents_minus (x y : Q) : whole_cents x -> whole_cents y -> whole_cents (x - y).
Proof. intros Hx Hy. apply whole_cents_plus; [exact Hx | apply whole_cents_opp, Hy]. Qed.

Lemma whole_cents_sumQ (l : list Q) : Forall whole_cents l -> whole_cents (sumQ l).
Proof.
  induction 1 as [|x l Hx _ IH]; cbn [sumQ fold_right].
  - apply whole_cents_0.
  - apply whole_cents_plus; assumption.
Qed.

Lemma clamp2_mono (x y : Q) : x <= y -> clamp2 x <= clamp2 y.
Proof.
  intros Hxy. rewrite !clamp2_unfold.
  apply Qmult_le_compat_r; [|discriminate].
  rewrite <- Zle_Qle. apply Qfloor_resp_le. lra.
Qed.

(** Rounding moves an amount by at most half a cent. *)
Lemma clamp2_near (x : Q) : x - (1 # 200) < clamp2 x /\ clamp2 x <= x + (1 # 200).
Proof.
  rewrite clamp2_unfold.
  pose proof (Qfloor_le (x * 100 + (1 # 2))) as Hlo.
  pose proof (Qlt_floor (x * 100 + (1 # 2))) as Hhi.
  rewrite inject_Z_plus in Hhi. change (inject_Z 1) with 1 in Hhi.
  set (f := inject_Z (Qfloor (x * 100 + (1 # 2)))) in *.
  split.
  - apply Qlt_shift_div_l; [reflexivity|]. lra.
  - apply Qle_shift_div_r; [reflexivity|]. lra.
Qed.

Lemma clamp2_le_cents (x c : Q) : whole_cents c -> x <= c -> clamp2 x <= c.
Proof.
  intros Hc Hxc. unfold whole_cents in Hc.
  apply Qle_trans with (clamp2 c); [apply clamp2_mono, Hxc|].
  rewrite Hc. apply Qle_refl.
Qed.

Lemma clamp2_ge_cents (x c : Q) : whole_cents c -> c <= x -> c <= clamp2 x.
Proof.
  intros Hc Hxc. unfold whole_cents in Hc.
  apply Qle_trans with (clamp2 c); [|apply clamp2_mono, Hxc].
  rewrite Hc. apply Qle_refl.
Qed.

Lemma whole_cents_Qabs (x : Q) : whole_cents x -> whole_cents (Qabs x).
Proof.
  intros Hx. apply Qabs_case; intros _; [exact Hx | apply whole_cents_opp, Hx].
Qed.

Lemma whole_cents_Qmax (x y : Q) : whole_cents x -> whole_cents y -> whole_cents (Qmax x y).
Proof.
  intros Hx Hy. destruct (Q.max_dec x y) as [E|E]; rewrite E; assumption.
Qed.

Lemma Qfloor_plus_Z (y : Q) (z : Z) : Qfloor (y + inject_Z z) = (Qfloor y + z)%Z.
Proof.
  pose proof (Qfloor_le y) as Hlo. pose proof (Qlt_floor y) as Hhi.
  pose proof (Qfloor_le (y + inject_Z z)) as Hlo'.
  pose proof (Qlt_floor (y + inject_Z z)) as Hhi'.
  rewrite inject_Z_plus in Hhi, Hhi'. change (inject_Z 1) with 1 in Hhi, Hhi'.
  assert (H1 : inject_Z (Qfloor (y + inject_Z z)) < inject_Z (Qfloor y + z + 1)).
  { rewrite !inject_Z_plus. change (inject_Z 1) with 1. lra. }
  assert (H2 : inject_Z (Qfloor y + z) < inject_Z (Qfloor (y + inject_Z z) + 1)).
  { rewrite !inject_Z_plus. change (inject_Z 1) with 1. lra. }
  rewrite <- Zlt_Qlt in H1, H2. lia.
Qed.

(** Rounding commutes with adding a whole number of cents. *)
Lemma clamp2_plus_cents (x k : Q) : whole_cents k -> clamp2 (x + k) == clamp2 x + k.
Proof.
  intros Hk. apply whole_cents_iff in Hk. destruct Hk as [z Hz].
  rewrite Hz at 2. rewrite !clamp2_unfold.
  rewrite (Qfloor_comp ((x + k) * 100 + (1 # 2)) (x * 100 + (1 # 2) + inject_Z z))
    by (rewrite Hz; field).
  rewrite Qfloor_plus_Z, inject_Z_plus. field.
Qed.

(** ** Allocation builder *)

Section BuilderShape.
Context {num : Type} `{JS.Arith num}.

(** The five map updates and the final lookups, carried out. *)
Lemma build_shape (u : string) (w : date) (income : num) :
  let I := toCents income in
  let r p := JS.Math_round (JS.mul I (JS.lit p)) in
  let s := JS.add (JS.add (JS.add (JS.add (JS.add (JS.lit 0) (r 0.15)) (r 0.15)) (r 0.1)) (r 0.25)) (r 0.3) in
  Dashboard.buildBudgetInsertsExactTotal u w income =
  [ Budget.mk u w "save" (centsToNumber (r 0.15));
    Budget.mk u w "wants" (centsToNumber (r 0.15));
    Budget.mk u w "emergency" (centsToNumber (r 0.1));
    Budget.mk u w "student loans" (centsToNumber (r 0.25));
    Budget.mk u w "expenses" (centsToNumber (JS.add (r 0.3) (JS.sub I s))) ].
Proof. reflexivity. Qed.
End BuilderShape.

(** On a finite income the builder computes the same amounts in the
    arithmetic with [NaN] and infinities, which is the one the add-week
    handler runs it in. *)
Lemma build_finite (u : string) (w : date) (income : Q) :
  Dashboard.buildBudgetInsertsExactTotal u w (JS.Fin income)
  = map (fun b => Budget.mk (Budget.user_id b) (Budget.week_start b)
                    (Budget.category b) (JS.Fin (Budget.amount b)))
      (Dashboard.buildBudgetInsertsExactTotal u w income).
Proof. rewrite !build_shape. reflexivity. Qed.

(** Integer cents of each bucket for an income of [n] cents. *)
Lemma build_cents (u : string) (w : date) (income : Q) :
  let n := Qfloor (income * 100 + (1 # 2)) in
  let z p d := ((2 * (n * p) + d) / (2 * d))%Z in
  Dashboard.buildBudgetInsertsExactTotal u w income =
  [ Budget.mk u w "save" (inject_Z (z 15%Z 100%Z) / 100);
    Budget.mk u w "wants" (inject_Z (z 15%Z 100%Z) / 100);
    Budget.mk u w "emergency" (inject_Z (z 1%Z 10%Z) / 100);
    Budget.mk u w "student loans" (inject_Z (z 25%Z 100%Z) / 100);
    Budget.mk u w "expenses"
      (inject_Z (n - (z 15%Z 100%Z + z 15%Z 100%Z + z 1%Z 10%Z + z 25%Z 100%Z)) / 100) ].
Proof.
  intros n z. rewrite build_shape.
  unfold centsToNumber, toCents.
  cbn [JS.Math_round JS.mul JS.lit JS.add JS.sub JS.div JS.Q_Arith].
  change (JS.Qround (income * 100)) with (inject_Z n).
  rewrite !Qround_frac, !Qround_inject_Z.
  repeat f_equal.
  apply Qround_integer.
  unfold Z.sub. rewrite !inject_Z_plus, inject_Z_opp, !inject_Z_plus.
  subst z. cbv beta. ring.
Qed.

Lemma toCents_nonneg (income : Q) :
  0 < income -> (0 <= Qfloor (income * 100 + (1 # 2)))%Z.
Proof.
  intros Hpos.
  change 0%Z with (Qfloor (inject_Z 0)).
  apply Qfloor_resp_le. change (inject_Z 0) with 0. lra.
Qed.

(** The four rounded shares never exceed the income in cents. *)
Lemma leftover_nonneg (n : Z) :
  (0 <= n ->
   0 <= n - ((2 * (n * 15) + 100) / (2 * 100) + (2 * (n * 15) + 100) / (2 * 100)
             + (2 * (n * 1) + 10) / (2 * 10) + (2 * (n * 25) + 100) / (2 * 100)))%Z.
Proof.
  intros Hn.
  assert (n = 0 \/ n = 1 \/ n = 2 \/ n = 3 \/ n = 4 \/ n = 5 \/ 6 <= n)%Z
    as [->|[->|[->|[->|[->|[->|Hbig]]]]]] by lia;
    try (vm_compute; congruence).
  Z.div_mod_to_equations. lia.
Qed.

Lemma Qdiv100_nonneg (z : Z) : (0 <= z)%Z -> 0 <= inject_Z z / 100.
Proof.
  intros Hz. apply Qle_shift_div_l; [reflexivity|].
  rewrite Qmult_0_l. change 0 with (inject_Z 0). rewrite <- Zle_Qle. exact Hz.
Qed.





(** ** Goal progress *)

Lemma clamp_spec (x lo hi : Q) : lo <= hi -> Home.clamp x lo hi == spec_clamp x lo hi.
Proof.
  intros Hlh. unfold Home.clamp, spec_clamp.
  destruct (Qlt_le_dec x lo) as [Hlt|Hge].
  - apply Q.max_l. apply Q.min_le_iff. right. lra.
  - destruct (Qlt_le_dec hi x) as [Hhi|Hin].
    + rewrite (Q.min_l hi x) by lra. apply Q.max_r. exact Hlh.
    + rewrite (Q.min_r hi x) by lra. apply Q.max_r. exact Hge.
Qed.

(** C7. The ring percentage is 0 for a target of 0 or less and otherwise
    the ratio current/target*100 clamped to the range 0..100; the
    remaining amount is target - current, or 0 when that is negative.
    A target of 500 with 625 collected shows 100 percent and nothing
    left. *)
Theorem goal_progress (c t : Q) :
  Home.pct c t == spec_percent c t /\
  Home.remaining c t == spec_remaining c t /\
  0 <= Home.pct c t <= 100 /\
  0 <= Home.remaining c t /\
  Home.pct 625 500 == 100 /\
  Home.remaining 625 500 == 0.
Proof.
  assert (Hp : Home.pct c t == spec_percent c t).
  { unfold Home.pct, spec_percent.
    destruct (Qle_bool t 0) eqn:Ht; destruct (Qlt_le_dec 0 t) as [Hpos|Hnp].
    - apply Qle_bool_iff in Ht. lra.
    - reflexivity.
    - apply clamp_spec. lra.
    - apply Qle_bool_iff in Hnp. congruence. }
  assert (Hr : Home.remaining c t == spec_remaining c t).
  { unfold Home.remaining, spec_remaining.
    destruct (Qlt_le_dec (t - c) 0); [apply Q.max_r | apply Q.max_l]; lra. }
  repeat split; try assumption; try reflexivity.
  - rewrite Hp. unfold spec_percent, spec_clamp.
    repeat destruct (Qlt_le_dec _ _); lra.
  - rewrite Hp. unfold spec_percent, spec_clamp.
    repeat destruct (Qlt_le_dec _ _); lra.
  - rewrite Hr. unfold spec_remaining. destruct (Qlt_le_dec _ _); lra.
Qed.

(** ** Tracker classifiers *)

Lemma eqb_startsWith (x p : string) : String.eqb x p = true -> JS.startsWith x p = true.
Proof.
  intros Heq. apply String.eqb_eq in Heq. subst x.
  unfold JS.startsWith. apply prefix_correct.
  induction p as [|c p IH]; [reflexivity|].
  cbn [String.length substring]. f_equal. exact IH.
Qed.



(** A label with a note, as the Savings page writes it for an
    adjustment, on the two pages. *)
Example noted_label_on_the_pages :
  Savings.adjustmentBucket student_loans "gift" = "student loans (gift)" /\
  Home.trackerForRawBucket "student loans (gift)" = student_loans /\
  Savings.trackerForRawBucket "student loans (gift)" = extra_money.
Proof. repeat split; reflexivity. Qed.

(** ** Ledger aggregation *)

Lemma sumQ_cons (x : Q) (l : list Q) : sumQ (x :: l) = x + sumQ l.
Proof. reflexivity. Qed.

Lemma get0_insert (m : gmap string Q) (k b : string) (v : Q) :
  Dashboard.get0 (<[k := v]> m) b = if decide (k = b) then v else Dashboard.get0 m b.
Proof.
  unfold Dashboard.get0. rewrite lookup_insert.
  destruct (decide (k = b)); reflexivity.
Qed.

Lemma eqb_decide (k b : string) :
  String.eqb k b = if decide (k = b) then true else false.
Proof.
  destruct (decide (k = b)) as [->|Hne].
  - apply String.eqb_refl.
  - apply String.eqb_neq. exact Hne.
Qed.

Lemma base_lookup (budgets : list (Budget.t Q)) (m : gmap string Q) (b : string) :
  Dashboard.get0
    (fold_left
       (fun m x => <[Budget.category x :=
                       Dashboard.get0 m (Budget.category x) + Budget.amount x]> m)
       budgets m) b
  == Dashboard.get0 m b
     + sumQ (map Budget.amount
               (List.filter (fun x => String.eqb (Budget.category x) b) budgets)).
Proof.
  revert m. induction budgets as [|x l IH]; intros m; cbn [fold_left List.filter].
  - cbn. ring.
  - rewrite IH, get0_insert, eqb_decide.
    destruct (decide (Budget.category x = b)) as [->|Hne];
      cbn [map]; rewrite ?sumQ_cons; ring.
Qed.

Lemma delta_lookup (transfers : list BucketTransfer.t) (m : gmap string Q) (b : string) :
  Dashboard.get0
    (fold_left
       (fun m tr =>
          let amt := BucketTransfer.amount tr in
          let m := <[BucketTransfer.from_bucket tr :=
                       Dashboard.get0 m (BucketTransfer.from_bucket tr) - amt]> m in
          <[BucketTransfer.to_bucket tr :=
              Dashboard.get0 m (BucketTransfer.to_bucket tr) + amt]> m)
       transfers m) b
  == Dashboard.get0 m b
     + sumQ (map BucketTransfer.amount
               (List.filter (fun tr => String.eqb (BucketTransfer.to_bucket tr) b) transfers))
     - sumQ (map BucketTransfer.amount
               (List.filter (fun tr => String.eqb (BucketTransfer.from_bucket tr) b) transfers)).
Proof.
  revert m. induction transfers as [|x l IH]; intros m; cbn [fold_left List.filter].
  - cbn. ring.
  - rewrite IH. cbv zeta. rewrite !get0_insert, !eqb_decide.
    destruct (decide (BucketTransfer.to_bucket x = b)) as [Et|Et];
      destruct (decide (BucketTransfer.from_bucket x = b)) as [Ef|Ef];
      cbn [map]; rewrite ?sumQ_cons; try rewrite Et; try rewrite Ef;
      try rewrite get0_insert;
      repeat match goal with |- context [decide (?a = ?c)] => destruct (decide (a = c)) end;
      try congruence; ring.
Qed.

Lemma truthy_nonempty (b : string) : b <> "" -> JS.truthy b = true.
Proof. destruct b; [congruence | reflexivity]. Qed.

Lemma spent_lookup
    (transactions : list Transaction.t) (md : gmap string string)
    (m : gmap string Q) (b : string) :
  b <> "" ->
  Dashboard.get0
    (fold_left
       (fun m t =>
          if Qle_bool 0 (Transaction.amount t) then m
          else
            let parsed := Dashboard.splitStoredCategory (Transaction.category t) in
            let bucket :=
              match Dashboard.Parsed.bucket parsed with
              | Some b => Some b
              | None => md !! Transaction.category t
              end in
            match bucket with
            | Some bucket =>
                if JS.truthy bucket
                then <[bucket := Dashboard.get0 m bucket + Qabs (Transaction.amount t)]> m
                else m
            | None => m
            end)
       transactions m) b
  == Dashboard.get0 m b + spec_spent transactions md b.
Proof.
  intros Hb. unfold spec_spent.
  revert m. induction transactions as [|t l IH]; intros m; cbn [fold_left List.filter].
  - cbn. ring.
  - rewrite IH. unfold is_expense_of at 2. unfold spec_bucket. cbv zeta.
    destruct (Qle_bool 0 (Transaction.amount t)); cbn [negb andb]; [reflexivity|].
    destruct (match Dashboard.Parsed.bucket _ with Some b0 => Some b0 | None => _ end)
      as [bk|]; [|reflexivity].
    rewrite eqb_decide.
    destruct (decide (bk = b)) as [->|Hne].
    + rewrite (truthy_nonempty b Hb), get0_insert.
      destruct (decide (b = b)); [|congruence]. cbn [map]. rewrite sumQ_cons. ring.
    + destruct (JS.truthy bk); [|reflexivity].
      rewrite get0_insert. destruct (decide (bk = b)); [congruence|]. reflexivity.
Qed.

Lemma get0_empty (b : string) : Dashboard.get0 ∅ b = 0.
Proof. unfold Dashboard.get0. rewrite lookup_empty. reflexivity. Qed.

Lemma find_map_bucket (f : string -> Dashboard.Row.t) (l : list string) (b : string) :
  (forall x, Dashboard.Row.category (f x) = x) ->
  In b l ->
  Dashboard.findRow (map f l) b = Some (f b).
Proof.
  intros Hcat. unfold Dashboard.findRow.
  induction l as [|x l IH]; intros Hin; [destruct Hin|].
  cbn [map find]. rewrite Hcat, eqb_decide.
  destruct (decide (x = b)) as [->|Hne]; [reflexivity|].
  destruct Hin as [->|Hin]; [congruence|]. apply IH, Hin.
Qed.

Lemma bucket_nonempty (b : string) : In b Dashboard.BUCKETS -> b <> "".
Proof.
  intros Hin ->. cbn in Hin. intuition discriminate.
Qed.

(** The row of a bucket, with each field as a rounded sum. *)
Lemma row_of_bucket
    (budgets : list (Budget.t Q)) (transactions : list Transaction.t)
    (md : gmap string string) (transfers : list BucketTransfer.t) (b : string) :
  In b Dashboard.BUCKETS ->
  exists r,
    Dashboard.findRow (Dashboard.rows budgets transactions md transfers) b = Some r /\
    Dashboard.Row.category r = b /\
    Dashboard.Row.budgeted r == clamp2 (spec_budgeted budgets transfers b) /\
    Dashboard.Row.spent r == clamp2 (spec_spent transactions md b) /\
    Dashboard.Row.variance r = clamp2 (Dashboard.Row.budgeted r - Dashboard.Row.spent r).
Proof.
  intros Hin. unfold Dashboard.rows.
  eexists. split; [apply find_map_bucket; [reflexivity | exact Hin]|].
  cbn [Dashboard.Row.category Dashboard.Row.budgeted Dashboard.Row.spent
       Dashboard.Row.variance].
  split; [reflexivity|]. split; [|split; [|reflexivity]].
  - apply clamp2_comp. unfold Dashboard.baseBudgetByBucket, Dashboard.deltaByBucket.
    rewrite base_lookup, delta_lookup, !get0_empty. unfold spec_budgeted. ring.
  - apply clamp2_comp. unfold Dashboard.spentByBucket.
    rewrite spent_lookup by (apply bucket_nonempty, Hin).
    rewrite get0_empty. ring.
Qed.

Lemma spent_skips
    (md : gmap string string) (pre post : list Transaction.t) (t : Transaction.t) :
  0 <= Transaction.amount t \/ spec_bucket md t = None ->
  Dashboard.spentByBucket (pre ++ t :: post)%list md
  = Dashboard.spentByBucket (pre ++ post)%list md.
Proof.
  intros Hskip. unfold Dashboard.spentByBucket.
  rewrite !fold_left_app. cbn [fold_left]. f_equal.
  destruct Hskip as [Hpos|Hnone].
  - apply Qle_bool_iff in Hpos. rewrite Hpos. reflexivity.
  - unfold spec_bucket in Hnone. cbv zeta. rewrite Hnone.
    destruct (Qle_bool 0 (Transaction.amount t)); reflexivity.
Qed.

(** C5, as the code has it.  For every bucket, spent is the sum of the
    absolute values of the bucket's transactions with a strictly
    negative amount, rounded to two decimals; a transaction whose amount
    is not negative, or that is neither locked to a bucket nor mapped to
    one, changes no row. *)
Theorem spent_is_rounded_sum_of_expenses
    (budgets : list (Budget.t Q)) (transactions : list Transaction.t)
    (md : gmap string string) (transfers : list BucketTransfer.t) (b : string) :
  In b Dashboard.BUCKETS ->
  (exists r,
     Dashboard.findRow (Dashboard.rows budgets transactions md transfers) b = Some r /\
     Dashboard.Row.spent r == clamp2 (spec_spent transactions md b)) /\
  (forall (pre post : list Transaction.t) (t : Transaction.t),
     transactions = (pre ++ t :: post)%list ->
     0 <= Transaction.amount t \/ spec_bucket md t = None ->
     Dashboard.rows budgets transactions md transfers
     = Dashboard.rows budgets (pre ++ post)%list md transfers).
Proof.
  intros Hin. split.
  - destruct (row_of_bucket budgets transactions md transfers b Hin)
      as (r & Hfind & _ & _ & Hspent & _).
    exists r. split; assumption.
  - intros pre post t -> Hskip. unfold Dashboard.rows.
    rewrite (spent_skips md pre post t Hskip). reflexivity.
Qed.

Lemma spent_is_rounded_sum_of_expenses_witness :
  In "wants" Dashboard.BUCKETS /\
  exists r,
    Dashboard.findRow
      (Dashboard.rows [] [Transaction.mk "u" 0%Z (-4.5) "wants::coffee"] ∅ []) "wants"
    = Some r /\
    Dashboard.Row.spent r
    == clamp2 (spec_spent [Transaction.mk "u" 0%Z (-4.5) "wants::coffee"] ∅ "wants").
Proof.
  assert (Hin : In "wants" Dashboard.BUCKETS) by (cbn; tauto).
  split; [exact Hin|].
  apply (spent_is_rounded_sum_of_expenses
           [] [Transaction.mk "u" 0%Z (-4.5) "wants::coffee"] ∅ [] "wants" Hin).
Defined.

(** An expense of 0.126 locked to wants: spent shows 0.13, not the sum
    0.126. *)
Lemma spent_differs_from_unrounded_sum :
  let txs := [Transaction.mk "u" 0%Z (-0.126) "wants::coffee"] in
  exists r,
    Dashboard.findRow (Dashboard.rows [] txs ∅ []) "wants" = Some r /\
    Dashboard.Row.spent r == 0.13 /\
    spec_spent txs ∅ "wants" == 0.126 /\
    ~ Dashboard.Row.spent r == spec_spent txs ∅ "wants".
Proof.
  eexists. split; [vm_compute; reflexivity|].
  split; [vm_compute; reflexivity|].
  split; [vm_compute; reflexivity|].
  vm_compute. discriminate.
Qed.

(** ** Adding a week *)

(** An income that is missing, not a number, or not greater than 0 is
    refused with a message before anything is sent to the store. *)
Lemma add_week_rejects (env : Env.t) (w : World.t) (s : Dashboard.State.t) :
  let income := Input.asNumber (Dashboard.State.incomeInput s) in
  Input.text (Dashboard.State.incomeInput s) = ""
  \/ income = JS.NaN
  \/ income = JS.NInf
  \/ (exists q, income = JS.Fin q /\ q <= 0) ->
  Dashboard.addNewWeekFromIncome env w s
  = (w, Dashboard.setErrorMsg (Some "Income must be a number greater than 0.")
          (Dashboard.setErrorMsg None s)).
Proof.
  intros income Hbad. unfold Dashboard.addNewWeekFromIncome.
  cbn [Dashboard.State.incomeInput Dashboard.setErrorMsg]. fold income.
  destruct Hbad as [Htext|[Hnan|[Hninf|(q & Hq & Hle)]]].
  - rewrite Htext. reflexivity.
  - rewrite Hnan. rewrite orb_true_r. reflexivity.
  - rewrite Hninf. rewrite !orb_true_r. reflexivity.
  - rewrite Hq. cbn [JS.le0 JS.isNaN]. apply Qle_bool_iff in Hle. rewrite Hle.
    rewrite !orb_true_r. reflexivity.
Qed.

(** C9 at the income text "Infinity".  [Number("Infinity")] is neither
    [NaN] nor at most 0, so the request is not refused: with a signed-in
    user the weekly income is upserted, the budgets and transfers of the
    week are deleted and five budgets are inserted. *)
Theorem add_week_accepts_infinite_income :
  let s :=
    Dashboard.setIncomeInput (Input.mk "Infinity" JS.PInf) (Dashboard.State.initial 1%Z) in
  let w' := fst (Dashboard.addNewWeekFromIncome env_u (World.mk store_week1 []) s) in
  JS.isFinite (Input.asNumber (Dashboard.State.incomeInput s)) = false /\
  World.log w'
  = [ UpsertWeeklyIncome "u" 1%Z JS.PInf;
      DeleteBudgets "u" 1%Z;
      DeleteTransfers "u" 1%Z;
      InsertBudgets
        [ Budget.mk "u" 1%Z "save" JS.PInf;
          Budget.mk "u" 1%Z "wants" JS.PInf;
          Budget.mk "u" 1%Z "emergency" JS.PInf;
          Budget.mk "u" 1%Z "student loans" JS.PInf;
          Budget.mk "u" 1%Z "expenses" JS.NaN ] ] /\
  map Budget.amount (Store.budgets store_week1) = [15.00; 15.00; 10.00; 25.00; 35.00] /\
  map Budget.amount (Store.budgets (World.store w')) = [0; 0; 0; 0; 0].
Proof. repeat split; vm_compute; reflexivity. Qed.

(** ** Rows of the displayed week *)

Lemma findRow_Some (rws : list Dashboard.Row.t) (b : string) (r : Dashboard.Row.t) :
  Dashboard.findRow rws b = Some r -> In r rws /\ Dashboard.Row.category r = b.
Proof.
  unfold Dashboard.findRow. intros Hfind. apply find_some in Hfind.
  destruct Hfind as [Hin Heq]. split; [exact Hin|]. apply String.eqb_eq, Heq.
Qed.

Lemma rows_In
    (budgets : list (Budget.t Q)) (transactions : list Transaction.t)
    (md : gmap string string) (transfers : list BucketTransfer.t) (r : Dashboard.Row.t) :
  In r (Dashboard.rows budgets transactions md transfers) ->
  In (Dashboard.Row.category r) Dashboard.BUCKETS /\
  whole_cents (Dashboard.Row.budgeted r) /\
  whole_cents (Dashboard.Row.spent r) /\
  whole_cents (Dashboard.Row.variance r).
Proof.
  unfold Dashboard.rows. intros Hin. apply in_map_iff in Hin.
  destruct Hin as (b & <- & Hb).
  cbn [Dashboard.Row.category Dashboard.Row.budgeted Dashboard.Row.spent
       Dashboard.Row.variance].
  split; [exact Hb|].
  split; [apply whole_cents_clamp2|].
  split; apply whole_cents_clamp2.
Qed.

Lemma findRow_cents (s : Dashboard.State.t) (b : string) (r : Dashboard.Row.t) :
  Dashboard.findRow (Dashboard.rowsOf s) b = Some r ->
  Dashboard.Row.category r = b /\ In b Dashboard.BUCKETS /\
  whole_cents (Dashboard.Row.variance r).
Proof.
  intros Hfind.
  destruct (findRow_Some _ _ _ Hfind) as [Hin Hcat].
  unfold Dashboard.rowsOf in Hin.
  destruct (rows_In _ _ _ _ _ Hin) as (Hb & _ & _ & Hv).
  rewrite Hcat in Hb.
  split; [exact Hcat|]. split; [exact Hb | exact Hv].
Qed.

Lemma Qle_bool_false (x y : Q) : Qle_bool x y = false <-> y < x.
Proof.
  split.
  - intros Hf. apply Qnot_le_lt. intros Hle. apply Qle_bool_iff in Hle. congruence.
  - intros Hlt. destruct (Qle_bool x y) eqn:E; [|reflexivity].
    apply Qle_bool_iff in E. lra.
Qed.

(** ** Collecting a bucket *)

(** What a click on Collect does, case by case. *)
Lemma clickCollect_cases
    (env : Env.t) (bucket : string) (w : World.t) (s : Dashboard.State.t) :
  (exists e, Dashboard.clickCollect env bucket w s = (w, Dashboard.setErrorMsg e s))
  \/ Dashboard.clickCollect env bucket w s = (w, s)
  \/ exists r uid ws,
       Dashboard.ensureSignedIn env = true /\ Env.user env = Some uid /\
       Dashboard.State.weekStart s = Some ws /\
       (bucket ∉ Dashboard.State.collectedSet s) /\
       Dashboard.findRow (Dashboard.rowsOf s) bucket = Some r /\
       0 < Dashboard.Row.variance r /\
       whole_cents (Dashboard.Row.variance r) /\
       let req :=
         InsertBucketCollection
           (BucketCollectionRow.mk uid ws bucket (clamp2 (Dashboard.Row.variance r))) in
       Dashboard.clickCollect env bucket w s
       = if Env.fails env req
         then (World.mk (World.store w) (World.log w ++ [req]),
               Dashboard.setErrorMsg (Some Dashboard.storeError)
                 (Dashboard.setErrorMsg None s))
         else (World.mk (apply req (World.store w)) (World.log w ++ [req]),
               Dashboard.setCollectedSet (Dashboard.State.collectedSet s ∪ {[bucket]})
                 (Dashboard.setErrorMsg None s)).
Proof.
  unfold Dashboard.clickCollect.
  destruct (Dashboard.State.weekStart s) as [ws|] eqn:Hws; [|right; left; reflexivity].
  destruct (Dashboard.findRow (Dashboard.rowsOf s) bucket) as [r|] eqn:Hfind;
    [|right; left; reflexivity].
  destruct (findRow_cents s bucket r Hfind) as (Hcat & Hb & Hcents).
  rewrite Hcat.
  destruct (bool_decide (bucket ∈ Dashboard.State.collectedSet s)) eqn:Hcol;
    [right; left; reflexivity|].
  apply bool_decide_eq_false in Hcol.
  destruct (Qle_bool (Dashboard.Row.variance r) 0) eqn:Hvar;
    cbn [negb]; [right; left; reflexivity|].
  unfold Dashboard.collectBucket. rewrite Hvar.
  apply Qle_bool_false in Hvar.
  destruct (Dashboard.ensureSignedIn env) eqn:Hsess; cbn [negb];
    [|left; exists None; reflexivity].
  destruct (Env.user env) as [uid|] eqn:Huser;
    [|left; exists (Some Dashboard.noUser); reflexivity].
  cbn [Dashboard.State.weekStart Dashboard.setErrorMsg]. rewrite Hws.
  right; right. exists r, uid, ws.
  repeat (split; [first [reflexivity | assumption]|]).
  cbv zeta. unfold request.
  destruct (Env.fails env _); reflexivity.
Qed.

Lemma clickUndo_not_collected
    (env : Env.t) (bucket : string) (w : World.t) (s : Dashboard.State.t) :
  bucket ∉ Dashboard.State.collectedSet s ->
  Dashboard.clickUndo env bucket w s = (w, s).
Proof.
  intros Hcol. unfold Dashboard.clickUndo.
  destruct (Dashboard.State.weekStart s); [|reflexivity].
  destruct (Dashboard.findRow (Dashboard.rowsOf s) bucket) as [r|] eqn:Hfind; [|reflexivity].
  destruct (findRow_cents s bucket r Hfind) as (-> & _ & _).
  rewrite bool_decide_eq_false_2 by exact Hcol. reflexivity.
Qed.



(** ** Covering an overspend *)

Lemma deficit_at_least_a_cent (v : Q) :
  whole_cents v -> v < 0 -> (1 # 100) <= Qabs v.
Proof.
  intros Hcents Hneg. apply whole_cents_iff in Hcents. destruct Hcents as [z Hz].
  rewrite Hz in Hneg |- *.
  assert (Hzneg : (z <= -1)%Z).
  { destruct (Z_lt_le_dec z 0) as [Hlt|Hge]; [lia|].
    pose proof (Qdiv100_nonneg z Hge). lra. }
  rewrite Qabs_neg by lra.
  assert (Hle : inject_Z 1 <= - inject_Z z).
  { rewrite <- inject_Z_opp, <- Zle_Qle. lia. }
  change (inject_Z 1) with 1 in Hle.
  assert (Hdiv : inject_Z z / 100 == inject_Z z * (1 # 100)) by field.
  lra.
Qed.

(** What a click on Cover does, case by case. *)
Lemma coverOverspend_cases
    (env : Env.t) (target : string) (w : World.t) (s : Dashboard.State.t) :
  (exists e, Dashboard.coverOverspend env target w s = (w, Dashboard.setErrorMsg e s))
  \/ exists targetRow ws uid requested,
       Dashboard.State.weekStart s = Some ws /\
       Dashboard.ensureSignedIn env = true /\ Env.user env = Some uid /\
       Dashboard.findRow (Dashboard.rowsOf s) target = Some targetRow /\
       Dashboard.Row.variance targetRow < 0 /\
       let remainingOver := clamp2 (Qabs (Dashboard.Row.variance targetRow)) in
       let from := JS.trim (default "" (Dashboard.State.coverSource s !! target)) in
       let available :=
         Dashboard.availableFromBucket (Dashboard.rowsOf s)
           (Dashboard.State.collectedSet s) from in
       let want := default Dashboard.blank (Dashboard.State.coverAmount s !! target) in
       from <> target /\ 0 < available /\ 0 < requested /\
       (if JS.truthy (JS.trim (Input.text want))
        then Input.asNumber want = JS.Fin requested
        else requested = Qmin remainingOver available) /\
       let amt := clamp2 (Qmin (Qmin requested remainingOver) available) in
       let req := InsertTransfer (BucketTransfer.mk uid ws from target amt) in
       Dashboard.coverOverspend env target w s
       = if Env.fails env req
         then (World.mk (World.store w) (World.log w ++ [req]),
               Dashboard.setErrorMsg (Some Dashboard.storeError) s)
         else (World.mk (apply req (World.store w)) (World.log w ++ [req]),
               Dashboard.loadWeekAll env ws (apply req (World.store w))
                 (Dashboard.setCoverAmount
                    (<[target := Dashboard.blank]> (Dashboard.State.coverAmount s))
                    (Dashboard.setErrorMsg None s))).
Proof.
  unfold Dashboard.coverOverspend.
  cbn [Dashboard.State.weekStart Dashboard.State.coverSource Dashboard.State.coverAmount
       Dashboard.State.collectedSet Dashboard.setErrorMsg].
  change (Dashboard.rowsOf (Dashboard.setErrorMsg None s)) with (Dashboard.rowsOf s).
  destruct (Dashboard.State.weekStart s) as [ws|] eqn:Hws;
    [|left; eexists; reflexivity].
  destruct (Dashboard.findRow (Dashboard.rowsOf s) target) as [targetRow|] eqn:Hfind;
    [|left; eexists; reflexivity].
  destruct (Qle_bool 0 (Dashboard.Row.variance targetRow)) eqn:Hvar;
    [left; eexists; reflexivity|].
  apply Qle_bool_false in Hvar.
  set (remainingOver := clamp2 (Qabs (Dashboard.Row.variance targetRow))).
  set (from := JS.trim (default "" (Dashboard.State.coverSource s !! target))).
  destruct (JS.truthy from) eqn:Hfrom; cbn [negb]; [|left; eexists; reflexivity].
  destruct (String.eqb from target) eqn:Hsame; [left; eexists; reflexivity|].
  apply String.eqb_neq in Hsame.
  set (available := Dashboard.availableFromBucket (Dashboard.rowsOf s)
                      (Dashboard.State.collectedSet s) from).
  destruct (Qle_bool available 0) eqn:Havail; [left; eexists; reflexivity|].
  apply Qle_bool_false in Havail.
  set (want := default Dashboard.blank (Dashboard.State.coverAmount s !! target)).
  assert (Hdefault : 0 < Qmin remainingOver available).
  { apply Q.min_glb_lt; [|exact Havail].
    apply Qlt_le_trans with (clamp2 (1 # 100)); [reflexivity|].
    apply clamp2_mono.
    destruct (findRow_cents s target targetRow Hfind) as (_ & _ & Hcents).
    apply (deficit_at_least_a_cent _ Hcents Hvar). }
  destruct (JS.truthy (JS.trim (Input.text want))) eqn:Htext.
  - destruct (Input.asNumber want) as [q| | |] eqn:Hnum;
      try (left; eexists; reflexivity).
    destruct (Qle_bool q 0) eqn:Hq; [left; eexists; reflexivity|].
    apply Qle_bool_false in Hq.
    destruct (Dashboard.ensureSignedIn env) eqn:Hsess; cbn [negb];
      [|left; eexists; reflexivity].
    destruct (Env.user env) as [uid|] eqn:Huser; [|left; eexists; reflexivity].
    right. exists targetRow, ws, uid, q.
    repeat (split; [first [reflexivity | assumption]|]).
    cbv zeta. unfold request. destruct (Env.fails env _); reflexivity.
  - destruct (Qle_bool (Qmin remainingOver available) 0) eqn:Hq.
    { apply Qle_bool_iff in Hq. lra. }
    destruct (Dashboard.ensureSignedIn env) eqn:Hsess; cbn [negb];
      [|left; eexists; reflexivity].
    destruct (Env.user env) as [uid|] eqn:Huser; [|left; eexists; reflexivity].
    right. exists targetRow, ws, uid, (Qmin remainingOver available).
    repeat (split; [first [reflexivity | assumption]|]).
    cbv zeta. unfold request. destruct (Env.fails env _); reflexivity.
Qed.

Lemma available_nonneg (rws : list Dashboard.Row.t) (cs : gset string) (b : string) :
  0 <= Dashboard.availableFromBucket rws cs b.
Proof.
  unfold Dashboard.availableFromBucket.
  destruct (Dashboard.findRow rws b); [|apply Qle_refl].
  destruct (decide (b ∈ cs)); [apply Qle_refl | apply Q.le_max_l].
Qed.

Lemma available_cents (rws : list Dashboard.Row.t) (cs : gset string) (b : string) :
  whole_cents (Dashboard.availableFromBucket rws cs b).
Proof.
  unfold Dashboard.availableFromBucket.
  destruct (Dashboard.findRow rws b); [|apply whole_cents_0].
  destruct (decide (b ∈ cs)); [apply whole_cents_0|].
  apply whole_cents_Qmax; [apply whole_cents_0 | apply whole_cents_clamp2].
Qed.

(** The amount of a transfer, from the request, the deficit and what the
    source has available. *)
Lemma cover_amount_bounds (requested deficit available : Q) :
  0 < requested -> 0 < deficit -> 0 < available ->
  whole_cents deficit -> whole_cents available ->
  let amt := clamp2 (Qmin (Qmin requested deficit) available) in
  0 <= amt /\ amt <= deficit /\ amt <= available /\
  amt <= requested + (1 # 200) /\
  (whole_cents requested -> amt <= requested).
Proof.
  intros Hr Hd Ha Hdc Hac amt. subst amt.
  pose proof (Q.le_min_l (Qmin requested deficit) available) as H1.
  pose proof (Q.le_min_r (Qmin requested deficit) available) as H2.
  pose proof (Q.le_min_l requested deficit) as H3.
  pose proof (Q.le_min_r requested deficit) as H4.
  assert (H0 : 0 <= Qmin (Qmin requested deficit) available).
  { apply Q.min_glb; [apply Q.min_glb|]; lra. }
  split; [apply clamp2_ge_cents; [apply whole_cents_0 | exact H0]|].
  split; [apply clamp2_le_cents; [exact Hdc | lra]|].
  split; [apply clamp2_le_cents; [exact Hac | lra]|].
  split.
  - pose proof (clamp2_near (Qmin (Qmin requested deficit) available)) as [_ Hn]. lra.
  - intros Hrc. apply clamp2_le_cents; [exact Hrc | lra].
Qed.

(** ** Budgeted amounts after transfers *)

Lemma Forall_filter_bool {A : Type} (P : A -> Prop) (f : A -> bool) (l : list A) :
  Forall P l -> Forall P (List.filter f l).
Proof.
  intros Hall. apply List.Forall_forall. intros x Hx.
  apply filter_In in Hx. destruct Hx as [Hx _].
  rewrite List.Forall_forall in Hall. apply Hall, Hx.
Qed.

Lemma loadWeekAll_cents (env : Env.t) (ws : date) (st : Store.t) (s : Dashboard.State.t) :
  cents_store st -> cents_state s -> cents_state (Dashboard.loadWeekAll env ws st s).
Proof.
  intros [Hsb Hst] [Hb Ht]. unfold Dashboard.loadWeekAll.
  destruct (Dashboard.ensureSignedIn env); cbn [negb]; [|split; assumption].
  destruct (Env.user env) as [uid|]; [|split; assumption].
  pose proof (Forall_filter_bool _
                (fun x => sameWeek uid ws (Budget.user_id x) (Budget.week_start x))
                _ Hsb) as Hfb.
  destruct (List.filter _ (Store.budgets st)) as [|b0 bs] eqn:Hfilter.
  - split; constructor.
  - split; [exact Hfb|]. apply Forall_filter_bool, Hst.
Qed.

Lemma apply_keeps_cents (r : Request) (st : Store.t) :
  match r with
  | InsertBudgets inserts =>
      Forall (fun b => whole_cents (storedAmount (Budget.amount b))) inserts
  | InsertTransfer row => whole_cents (BucketTransfer.amount row)
  | _ => True
  end ->
  cents_store st -> cents_store (apply r st).
Proof.
  destruct st as [wi bu tx cm tr bc co]. intros Hr [Hb Ht].
  cbn [Store.budgets Store.bucket_transfers] in Hb, Ht.
  destruct r; cbn [apply]; try (split; assumption).
  - destruct (existsb _ wi); split; assumption.
  - split; [apply Forall_filter_bool, Hb | exact Ht].
  - split; [exact Hb | apply Forall_filter_bool, Ht].
  - split; [|exact Ht]. cbn [Store.budgets]. apply Forall_app. split; [exact Hb|].
    apply Forall_map. eapply Forall_impl; [exact Hr|]. intros b Hbc. exact Hbc.
  - split; [exact Hb|]. cbn [Store.bucket_transfers]. apply Forall_app.
    split; [exact Ht|]. constructor; [exact Hr | constructor].
Qed.

Lemma clickUndo_cases
    (env : Env.t) (bucket : string) (w : World.t) (s : Dashboard.State.t) :
  (exists e, Dashboard.clickUndo env bucket w s = (w, Dashboard.setErrorMsg e s))
  \/ Dashboard.clickUndo env bucket w s = (w, s)
  \/ exists uid ws,
       Dashboard.ensureSignedIn env = true /\ Env.user env = Some uid /\
       Dashboard.State.weekStart s = Some ws /\
       bucket ∈ Dashboard.State.collectedSet s /\
       let req := DeleteBucketCollections uid ws bucket in
       Dashboard.clickUndo env bucket w s
       = if Env.fails env req
         then (World.mk (World.store w) (World.log w ++ [req]),
               Dashboard.setErrorMsg (Some Dashboard.storeError) s)
         else (World.mk (apply req (World.store w)) (World.log w ++ [req]),
               Dashboard.setCollectedSet (Dashboard.State.collectedSet s ∖ {[bucket]})
                 (Dashboard.setErrorMsg None s)).
Proof.
  unfold Dashboard.clickUndo.
  destruct (Dashboard.State.weekStart s) as [ws|] eqn:Hws; [|right; left; reflexivity].
  destruct (Dashboard.findRow (Dashboard.rowsOf s) bucket) as [r|] eqn:Hfind;
    [|right; left; reflexivity].
  destruct (findRow_cents s bucket r Hfind) as (-> & _ & _).
  destruct (bool_decide (bucket ∈ Dashboard.State.collectedSet s)) eqn:Hcol;
    [|right; left; reflexivity].
  apply bool_decide_eq_true in Hcol.
  unfold Dashboard.undoCollect.
  destruct (Dashboard.ensureSignedIn env) eqn:Hsess; cbn [negb];
    [|left; exists None; reflexivity].
  destruct (Env.user env) as [uid|] eqn:Huser;
    [|left; exists (Some Dashboard.noUser); reflexivity].
  cbn [Dashboard.State.weekStart Dashboard.setErrorMsg]. rewrite Hws.
  right; right. exists uid, ws.
  repeat (split; [first [reflexivity | assumption]|]).
  cbv zeta. unfold request. destruct (Env.fails env _); reflexivity.
Qed.

(** Every click keeps the budgets and transfers in whole cents. *)
Lemma step_keeps_cents (env : Env.t) (e : Dashboard.Event) (w : World.t) (s : Dashboard.State.t) :
  cents_store (World.store w) -> cents_state s ->
  cents_store (World.store (fst (Dashboard.step env e (w, s)))) /\
  cents_state (snd (Dashboard.step env e (w, s))).
Proof.
  intros Hst Hs. destruct e as [target value|target value|target|bucket|bucket];
    cbn [Dashboard.step].
  - split; [exact Hst | exact Hs].
  - split; [exact Hst | exact Hs].
  - destruct (coverOverspend_cases env target w s)
      as [[e ->]|(targetRow & ws & uid & requested & _ & _ & _ & _ & _ & _ & _ & _ & _ & ->)];
      [split; [exact Hst | exact Hs]|].
    destruct (Env.fails env _); cbn [fst snd World.store];
      [split; [exact Hst | exact Hs]|].
    assert (Hst' : cents_store
                     (apply (InsertTransfer
                               (BucketTransfer.mk uid ws
                                  (JS.trim (default "" (Dashboard.State.coverSource s !! target)))
                                  target
                                  (clamp2 (Qmin (Qmin requested
                                     (clamp2 (Qabs (Dashboard.Row.variance targetRow))))
                                     (Dashboard.availableFromBucket (Dashboard.rowsOf s)
                                        (Dashboard.State.collectedSet s)
                                        (JS.trim (default ""
                                           (Dashboard.State.coverSource s !! target))))))))
                        (World.store w))).
    { apply apply_keeps_cents; [apply whole_cents_clamp2 | exact Hst]. }
    split; [exact Hst'|].
    apply loadWeekAll_cents; [exact Hst' | exact Hs].
  - destruct (clickCollect_cases env bucket w s)
      as [[e ->]|[->|(r & uid & ws & _ & _ & _ & _ & _ & _ & _ & ->)]];
      try (split; [exact Hst | exact Hs]).
    destruct (Env.fails env _); cbn [fst snd World.store];
      [split; [exact Hst | exact Hs]|].
    split; [apply apply_keeps_cents; [exact I | exact Hst] | exact Hs].
  - destruct (clickUndo_cases env bucket w s)
      as [[e ->]|[->|(uid & ws & _ & _ & _ & _ & ->)]];
      try (split; [exact Hst | exact Hs]).
    destruct (Env.fails env _); cbn [fst snd World.store];
      [split; [exact Hst | exact Hs]|].
    split; [apply apply_keeps_cents; [exact I | exact Hst] | exact Hs].
Qed.

Lemma run_keeps_cents (env : Env.t) (es : list Dashboard.Event) (w : World.t) (s : Dashboard.State.t) :
  cents_store (World.store w) -> cents_state s ->
  cents_store (World.store (fst (Dashboard.run env es (w, s)))) /\
  cents_state (snd (Dashboard.run env es (w, s))).
Proof.
  revert w s. induction es as [|e es IH]; intros w s Hst Hs.
  - split; [exact Hst | exact Hs].
  - unfold Dashboard.run. cbn [fold_left].
    destruct (step_keeps_cents env e w s Hst Hs) as [Hst' Hs'].
    destruct (Dashboard.step env e (w, s)) as [w1 s1]. cbn [fst snd] in Hst', Hs'.
    apply (IH w1 s1 Hst' Hs').
Qed.

(** ** Adding a week keeps amounts in whole cents *)

Lemma centsToNumber_Fin (x : Q) :
  centsToNumber (JS.Fin x) = JS.Fin (JS.Qround x / 100).
Proof. reflexivity. Qed.

Lemma whole_cents_Qround_div (x : Q) : whole_cents (JS.Qround x / 100).
Proof. apply whole_cents_iff. eexists. unfold JS.Qround. reflexivity. Qed.

(** What the builder sends is stored in whole cents, also for an income
    that is not finite. *)
Lemma build_stored_cents (u : string) (w : date) (income : JS.number) :
  Forall (fun b => whole_cents (storedAmount (Budget.amount b)))
    (Dashboard.buildBudgetInsertsExactTotal u w income).
Proof.
  rewrite build_shape.
  destruct income as [q| | |].
  - unfold toCents.
    cbn [JS.Math_round JS.mul JS.lit JS.add JS.sub JS.number_Arith
         JS.nround JS.nmul JS.nadd JS.nsub JS.neg].
    rewrite !centsToNumber_Fin.
    repeat constructor; cbn [Budget.amount storedAmount]; apply whole_cents_Qround_div.
  - vm_compute. repeat constructor.
  - vm_compute. repeat constructor.
  - vm_compute. repeat constructor.
Qed.

Lemma request_keeps_cents (env : Env.t) (r : Request) (w : World.t) :
  match r with
  | InsertBudgets inserts =>
      Forall (fun b => whole_cents (storedAmount (Budget.amount b))) inserts
  | InsertTransfer row => whole_cents (BucketTransfer.amount row)
  | _ => True
  end ->
  cents_store (World.store w) ->
  cents_store (World.store (snd (request env r w))).
Proof.
  intros Hr Hst. unfold request.
  destruct (Env.fails env r); cbn [snd World.store]; [exact Hst|].
  apply apply_keeps_cents; assumption.
Qed.

Lemma rebuild_keeps_cents
    (env : Env.t) (ws : date) (income : JS.number) (w : World.t) (s : Dashboard.State.t) :
  cents_store (World.store w) -> cents_state s ->
  cents_store (World.store (snd (fst (Dashboard.rebuildBudgetsForWeek env ws income w s)))) /\
  cents_state (snd (Dashboard.rebuildBudgetsForWeek env ws income w s)).
Proof.
  intros Hst Hs. unfold Dashboard.rebuildBudgetsForWeek.
  destruct (Dashboard.ensureSignedIn env); cbn [negb]; [|split; assumption].
  destruct (Env.user env) as [uid|]; [|split; assumption].
  pose proof (request_keeps_cents env (UpsertWeeklyIncome uid ws (clamp2 income)) w I Hst)
    as H1.
  destruct (request env (UpsertWeeklyIncome uid ws (clamp2 income)) w) as [incErr w1].
  cbn [snd] in H1. destruct incErr; [split; assumption|].
  pose proof (request_keeps_cents env (DeleteBudgets uid ws) w1 I H1) as H2.
  destruct (request env (DeleteBudgets uid ws) w1) as [e2 w2]. cbn [snd] in H2.
  pose proof (request_keeps_cents env (DeleteTransfers uid ws) w2 I H2) as H3.
  destruct (request env (DeleteTransfers uid ws) w2) as [e3 w3]. cbn [snd] in H3.
  pose proof (request_keeps_cents env
                (InsertBudgets (Dashboard.buildBudgetInsertsExactTotal uid ws income)) w3
                (build_stored_cents uid ws income) H3) as H4.
  destruct (request env (InsertBudgets _) w3) as [insErr w4]. cbn [snd] in H4.
  destruct insErr; split; assumption.
Qed.

Lemma add_week_keeps_cents (env : Env.t) (w : World.t) (s : Dashboard.State.t) :
  cents_store (World.store w) -> cents_state s ->
  cents_store (World.store (fst (Dashboard.addNewWeekFromIncome env w s))) /\
  cents_state (snd (Dashboard.addNewWeekFromIncome env w s)).
Proof.
  intros Hst Hs. unfold Dashboard.addNewWeekFromIncome.
  destruct (_ || _); [split; assumption|].
  match goal with
  | |- context [Dashboard.rebuildBudgetsForWeek env ?ws ?income w ?s0] =>
      pose proof (rebuild_keeps_cents env ws income w s0 Hst Hs) as [H1 H2];
      destruct (Dashboard.rebuildBudgetsForWeek env ws income w s0) as [[ok w1] s1]
  end.
  cbn [fst snd] in H1, H2.
  destruct ok; cbn [negb fst snd]; [|split; assumption].
  split; [exact H1|]. apply loadWeekAll_cents; [exact H1 | exact H2].
Qed.

Lemma add_transaction_keeps_cents
    (env : Env.t) (bucket : string) (form : Dashboard.TxForm.t)
    (w : World.t) (s : Dashboard.State.t) :
  cents_store (World.store w) -> cents_state s ->
  cents_store (World.store (fst (Dashboard.addTransactionForBucket env bucket form w s))) /\
  cents_state (snd (Dashboard.addTransactionForBucket env bucket form w s)).
Proof.
  intros Hst Hs. unfold Dashboard.addTransactionForBucket.
  cbn [Dashboard.State.weekStart Dashboard.setErrorMsg].
  destruct (Dashboard.State.weekStart s) as [weekStart|]; [|split; assumption].
  destruct (Dashboard.ensureSignedIn env); cbn [negb]; [|split; assumption].
  destruct (negb (JS.truthy _)); [split; assumption|].
  destruct (_ || _); [split; assumption|].
  destruct (Dashboard.TxForm.txDate form) as [txDate|]; [|split; assumption].
  destruct (negb (isISOInRange _ _ _)); [split; assumption|].
  destruct (Env.user env) as [uid|]; [|split; assumption].
  match goal with
  | |- context [request env ?r w] =>
      pose proof (request_keeps_cents env r w I Hst) as H1;
      destruct (request env r w) as [error w1]
  end.
  cbn [snd] in H1. destruct error; cbn [fst snd]; [split; assumption|].
  split; [exact H1|]. apply loadWeekAll_cents; [exact H1 | exact Hs].
Qed.

(** Whatever the user does on the page, budgets and transfers stay in
    whole cents. *)
Lemma act_keeps_cents (env : Env.t) (a : Dashboard.Action) (w : World.t) (s : Dashboard.State.t) :
  cents_store (World.store w) -> cents_state s ->
  cents_store (World.store (fst (Dashboard.act env a (w, s)))) /\
  cents_state (snd (Dashboard.act env a (w, s))).
Proof.
  intros Hst Hs.
  destruct a as [e|value| |bucket form|viewWeekInput| ]; cbn [Dashboard.act].
  - apply step_keeps_cents; assumption.
  - split; [exact Hst | exact Hs].
  - apply add_week_keeps_cents; assumption.
  - apply add_transaction_keeps_cents; assumption.
  - split; [exact Hst|]. apply loadWeekAll_cents; assumption.
  - destruct (Dashboard.State.weekStart s) as [weekStart|];
      (split; [exact Hst|]; apply loadWeekAll_cents; assumption).
Qed.

Lemma session_keeps_cents
    (env : Env.t) (acts : list Dashboard.Action) (w : World.t) (s : Dashboard.State.t) :
  cents_store (World.store w) -> cents_state s ->
  cents_store (World.store (fst (Dashboard.session env acts (w, s)))) /\
  cents_state (snd (Dashboard.session env acts (w, s))).
Proof.
  revert w s. induction acts as [|a acts IH]; intros w s Hst Hs.
  - split; [exact Hst | exact Hs].
  - unfold Dashboard.session. cbn [fold_left].
    destruct (act_keeps_cents env a w s Hst Hs) as [Hst' Hs'].
    destruct (Dashboard.act env a (w, s)) as [w1 s1]. cbn [fst snd] in Hst', Hs'.
    apply (IH w1 s1 Hst' Hs').
Qed.

(** A store in which no week has been added yet is trivially in whole
    cents, and so is the page before its first load. *)
Lemma cents_store_fresh (st : Store.t) :
  Store.budgets st = [] -> Store.bucket_transfers st = [] -> cents_store st.
Proof. intros Hb Ht. split; [rewrite Hb | rewrite Ht]; constructor. Qed.

Lemma cents_state_initial (today : date) : cents_state (Dashboard.State.initial today).
Proof. split; constructor. Qed.

Lemma spec_budgeted_cents
    (budgets : list (Budget.t Q)) (transfers : list BucketTransfer.t) (b : string) :
  Forall (fun x => whole_cents (Budget.amount x)) budgets ->
  Forall (fun t => whole_cents (BucketTransfer.amount t)) transfers ->
  whole_cents (spec_budgeted budgets transfers b).
Proof.
  intros Hb Ht. unfold spec_budgeted.
  apply whole_cents_minus; [apply whole_cents_plus|];
    apply whole_cents_sumQ, Forall_map, Forall_filter_bool; assumption.
Qed.

(** C2. Starting from budgets and transfers in whole cents, in
    particular from a store in which no week has been added yet, after
    any session on the page (adding weeks from an income, recording
    transactions, covering overspends, collecting, undoing, changing
    week) the budgeted value of each of the five buckets is the sum of
    its budget rows plus the transfers into it minus the transfers out
    of it, and its variance is budgeted minus spent, rounded to two
    decimals. *)
Theorem budgeted_after_transfers
    (env : Env.t) (acts : list Dashboard.Action) (w : World.t) (s : Dashboard.State.t)
    (b : string) :
  cents_store (World.store w) -> cents_state s ->
  In b Dashboard.BUCKETS ->
  let s' := snd (Dashboard.session env acts (w, s)) in
  exists r,
    Dashboard.findRow (Dashboard.rowsOf s') b = Some r /\
    Dashboard.Row.budgeted r
    == spec_budgeted (Dashboard.State.budgets s') (Dashboard.State.transfers s') b /\
    Dashboard.Row.variance r
    == clamp2 (Dashboard.Row.budgeted r - Dashboard.Row.spent r).
Proof.
  intros Hst Hs Hin s'.
  destruct (session_keeps_cents env acts w s Hst Hs) as [_ [Hb Ht]]. fold s' in Hb, Ht.
  destruct (row_of_bucket (Dashboard.State.budgets s') (Dashboard.State.transactions s')
              (Dashboard.mapDict (Dashboard.State.categoryMap s'))
              (Dashboard.State.transfers s') b Hin)
    as (r & Hfind & _ & Hbud & _ & Hvar).
  exists r. split; [exact Hfind|]. split.
  - rewrite Hbud. apply (spec_budgeted_cents _ _ b Hb Ht).
  - rewrite Hvar. reflexivity.
Qed.

Lemma budgeted_after_transfers_witness :
  cents_store Store.empty /\ cents_state (Dashboard.State.initial 0%Z) /\
  In "expenses" Dashboard.BUCKETS /\
  let s' :=
    snd (Dashboard.session env_u (first_session 0%Z)
           (World.mk Store.empty [], Dashboard.State.initial 0%Z)) in
  exists r,
    Dashboard.findRow (Dashboard.rowsOf s') "expenses" = Some r /\
    Dashboard.Row.budgeted r
    == spec_budgeted (Dashboard.State.budgets s') (Dashboard.State.transfers s') "expenses" /\
    Dashboard.Row.variance r
    == clamp2 (Dashboard.Row.budgeted r - Dashboard.Row.spent r).
Proof.
  assert (Hst : cents_store Store.empty) by (split; constructor).
  assert (Hs : cents_state (Dashboard.State.initial 0%Z)) by (split; constructor).
  assert (Hin : In "expenses" Dashboard.BUCKETS) by (cbn; tauto).
  split; [exact Hst|]. split; [exact Hs|]. split; [exact Hin|].
  apply (budgeted_after_transfers env_u (first_session 0%Z)
           (World.mk Store.empty []) (Dashboard.State.initial 0%Z) "expenses" Hst Hs Hin).
Defined.

(** The premise holds in every session that starts before any week was
    added, whatever else the store holds. *)
Corollary cents_from_fresh_store
    (env : Env.t) (acts : list Dashboard.Action) (st : Store.t) (today : date) :
  Store.budgets st = [] -> Store.bucket_transfers st = [] ->
  let s' := snd (Dashboard.session env acts (World.mk st [], Dashboard.State.initial today)) in
  Forall (fun x => whole_cents (Budget.amount x)) (Dashboard.State.budgets s') /\
  Forall (fun t => whole_cents (BucketTransfer.amount t)) (Dashboard.State.transfers s').
Proof.
  intros Hb Ht s'.
  apply (session_keeps_cents env acts (World.mk st []) (Dashboard.State.initial today)
           (cents_store_fresh st Hb Ht) (cents_state_initial today)).
Qed.

(** In the first session the week is added with expenses at 35.00 and
    wants at 15.00; after the rent of 50 and the transfer of 15.00 the
    expenses row is budgeted 35.00 + 15.00 and wants 15.00 - 15.00. *)
Example budgeted_after_first_session :
  let s' :=
    snd (Dashboard.session env_u (first_session 0%Z)
           (World.mk Store.empty [], Dashboard.State.initial 0%Z)) in
  map Dashboard.Row.budgeted (Dashboard.rowsOf s') = [15.00; 0.00; 10.00; 25.00; 50.00]
  /\ map Dashboard.Row.variance (Dashboard.rowsOf s') = [15.00; 0.00; 10.00; 25.00; 0.00].
Proof. vm_compute. split; reflexivity. Qed.

(** After that transfer of 15.00 the expenses row is budgeted
    35.00 + 15.00 and wants 15.00 - 15.00. *)
Example budgeted_after_one_transfer :
  let s' :=
    snd (Dashboard.run env_u
           [Dashboard.ChooseCoverSource "expenses" "wants"; Dashboard.ClickCover "expenses"]
           (World.mk store_week1 [], state_week1)) in
  map Dashboard.Row.budgeted (Dashboard.rowsOf s') = [15.00; 0.00; 10.00; 25.00; 50.00].
Proof. vm_compute. reflexivity. Qed.

(** ** The displayed week and the store *)

Section Loaded.
Variables (env : Env.t) (uid : string) (ws : date) (st : Store.t).
Hypothesis Hsess : Dashboard.ensureSignedIn env = true.
Hypothesis Huser : Env.user env = Some uid.

Lemma load_weekStart (s : Dashboard.State.t) :
  Dashboard.State.weekStart (Dashboard.loadWeekAll env ws st s) = Some ws.
Proof.
  unfold Dashboard.loadWeekAll. rewrite Hsess, Huser. cbn [negb].
  destruct (List.filter _ (Store.budgets st)); reflexivity.
Qed.

(** What is loaded depends on the store, not on what was shown. *)
Lemma load_independent (s1 s2 : Dashboard.State.t) :
  let l1 := Dashboard.loadWeekAll env ws st s1 in
  let l2 := Dashboard.loadWeekAll env ws st s2 in
  Dashboard.State.budgets l1 = Dashboard.State.budgets l2 /\
  Dashboard.State.transactions l1 = Dashboard.State.transactions l2 /\
  Dashboard.State.categoryMap l1 = Dashboard.State.categoryMap l2 /\
  Dashboard.State.transfers l1 = Dashboard.State.transfers l2 /\
  Dashboard.State.collectedSet l1 = Dashboard.State.collectedSet l2.
Proof.
  cbv zeta. unfold Dashboard.loadWeekAll. rewrite Hsess, Huser. cbn [negb].
  destruct (List.filter _ (Store.budgets st)); repeat split; reflexivity.
Qed.

End Loaded.

(** ** A transfer as seen in the rows *)

Lemma sumQ_app (l1 l2 : list Q) : sumQ (l1 ++ l2) == sumQ l1 + sumQ l2.
Proof.
  induction l1 as [|x l1 IH]; cbn [app].
  - change (sumQ []) with 0. ring.
  - rewrite !sumQ_cons, IH. ring.
Qed.

Lemma spec_budgeted_snoc
    (budgets : list (Budget.t Q)) (transfers : list BucketTransfer.t)
    (row : BucketTransfer.t) (b : string) :
  spec_budgeted budgets (transfers ++ [row]) b
  == spec_budgeted budgets transfers b
     + (if String.eqb (BucketTransfer.to_bucket row) b then BucketTransfer.amount row else 0)
     - (if String.eqb (BucketTransfer.from_bucket row) b then BucketTransfer.amount row else 0).
Proof.
  unfold spec_budgeted. rewrite !List.filter_app, !List.map_app, !sumQ_app.
  cbn [List.filter].
  destruct (String.eqb (BucketTransfer.to_bucket row) b);
    destruct (String.eqb (BucketTransfer.from_bucket row) b);
    cbn [map]; rewrite ?sumQ_cons; change (sumQ []) with 0; ring.
Qed.

(** The variance of every bucket after one more transfer row. *)
Lemma variance_snoc
    (budgets : list (Budget.t Q)) (transactions : list Transaction.t)
    (md : gmap string string) (transfers : list BucketTransfer.t)
    (row : BucketTransfer.t) (b : string) (r r' : Dashboard.Row.t) :
  In b Dashboard.BUCKETS ->
  whole_cents (BucketTransfer.amount row) ->
  Dashboard.findRow (Dashboard.rows budgets transactions md transfers) b = Some r ->
  Dashboard.findRow (Dashboard.rows budgets transactions md (transfers ++ [row])) b
  = Some r' ->
  Dashboard.Row.variance r'
  == Dashboard.Row.variance r
     + (if String.eqb (BucketTransfer.to_bucket row) b then BucketTransfer.amount row else 0)
     - (if String.eqb (BucketTransfer.from_bucket row) b then BucketTransfer.amount row else 0).
Proof.
  intros Hin Hamt Hr Hr'.
  destruct (row_of_bucket budgets transactions md transfers b Hin)
    as (r0 & Hf & _ & Hbud & Hsp & Hvar).
  destruct (row_of_bucket budgets transactions md (transfers ++ [row]) b Hin)
    as (r1 & Hf' & _ & Hbud' & Hsp' & Hvar').
  rewrite Hr in Hf. injection Hf as <-. rewrite Hr' in Hf'. injection Hf' as <-.
  set (kin := if String.eqb (BucketTransfer.to_bucket row) b
              then BucketTransfer.amount row else 0).
  set (kout := if String.eqb (BucketTransfer.from_bucket row) b
               then BucketTransfer.amount row else 0).
  assert (Hk : whole_cents (kin - kout)).
  { apply whole_cents_minus; [unfold kin | unfold kout];
      match goal with |- context [String.eqb ?a b] => destruct (String.eqb a b) end;
      first [exact Hamt | apply whole_cents_0]. }
  assert (Hb' : Dashboard.Row.budgeted r' == Dashboard.Row.budgeted r + (kin - kout)).
  { rewrite Hbud', Hbud, <- (clamp2_plus_cents _ _ Hk).
    apply clamp2_comp. rewrite spec_budgeted_snoc. fold kin kout. ring. }
  rewrite Hvar', Hvar.
  transitivity (clamp2 (Dashboard.Row.budgeted r - Dashboard.Row.spent r) + (kin - kout));
    [|ring].
  rewrite <- (clamp2_plus_cents _ _ Hk). apply clamp2_comp.
  rewrite Hb', Hsp', Hsp. ring.
Qed.

Lemma synced_intro
    (env : Env.t) (uid : string) (ws : date) (w : World.t) (s s0 : Dashboard.State.t) :
  Dashboard.ensureSignedIn env = true ->
  Env.user env = Some uid ->
  Dashboard.State.weekStart s = Some ws ->
  Dashboard.State.budgets s <> [] ->
  (let l := Dashboard.loadWeekAll env ws (World.store w) s0 in
   Dashboard.State.budgets s = Dashboard.State.budgets l /\
   Dashboard.State.transactions s = Dashboard.State.transactions l /\
   Dashboard.State.categoryMap s = Dashboard.State.categoryMap l /\
   Dashboard.State.transfers s = Dashboard.State.transfers l /\
   Dashboard.State.collectedSet s = Dashboard.State.collectedSet l) ->
  synced env w s.
Proof.
  intros Hsess Huser Hws Hne (Hb & Ht & Hc & Htr & Hcs).
  split; [exact Hsess|]. exists uid, ws.
  split; [exact Huser|]. split; [exact Hws|]. split; [exact Hne|].
  destruct (load_independent env uid ws (World.store w) Hsess Huser s s0)
    as (Eb & Et & Ec & Etr & Ecs).
  cbv zeta. rewrite Eb, Et, Ec, Etr, Ecs. repeat split; assumption.
Qed.

(** Loading after a write that leaves the other tables alone. *)
Lemma load_after_transfer
    (env : Env.t) (uid : string) (ws : date) (st : Store.t)
    (row : BucketTransfer.t) (s : Dashboard.State.t) :
  Dashboard.ensureSignedIn env = true ->
  Env.user env = Some uid ->
  BucketTransfer.user_id row = uid ->
  BucketTransfer.week_start row = ws ->
  let l := Dashboard.loadWeekAll env ws st s in
  let l' := Dashboard.loadWeekAll env ws (apply (InsertTransfer row) st) s in
  Dashboard.State.budgets l <> [] ->
  Dashboard.State.budgets l' = Dashboard.State.budgets l /\
  Dashboard.State.transactions l' = Dashboard.State.transactions l /\
  Dashboard.State.categoryMap l' = Dashboard.State.categoryMap l /\
  Dashboard.State.transfers l' = (Dashboard.State.transfers l ++ [row])%list /\
  Dashboard.State.collectedSet l' = Dashboard.State.collectedSet l.
Proof.
  intros Hsess Huser Hu Hw. cbv zeta.
  destruct st as [wi bu tx cm tr bc co]. destruct row as [ru rw rf rt ra].
  cbn [BucketTransfer.user_id BucketTransfer.week_start] in Hu, Hw. subst ru rw.
  unfold Dashboard.loadWeekAll. rewrite Hsess, Huser.
  cbn [negb apply Store.budgets Store.transactions Store.category_map
       Store.bucket_transfers Store.bucket_collections Store.weekly_income].
  destruct (List.filter _ bu) as [|b0 bs]; [intros Hne; exfalso; apply Hne; reflexivity|].
  intros _.
  cbn [Dashboard.State.budgets Dashboard.State.transactions Dashboard.State.categoryMap
       Dashboard.State.transfers Dashboard.State.collectedSet
       Dashboard.setTransfers Dashboard.setCollectedSet Dashboard.setTransactions
       Dashboard.setBudgets Dashboard.setWeekStart Dashboard.setWeeklyIncome
       Dashboard.setCategoryMap Dashboard.setErrorMsg].
  repeat (split; [reflexivity|]). split; [|reflexivity].
  rewrite List.filter_app. cbn [List.filter BucketTransfer.user_id BucketTransfer.week_start].
  unfold sameWeek at 2. rewrite String.eqb_refl, Z.eqb_refl. reflexivity.
Qed.

Lemma available_positive (s : Dashboard.State.t) (b : string) :
  0 < Dashboard.availableFromBucket (Dashboard.rowsOf s) (Dashboard.State.collectedSet s) b ->
  In b Dashboard.BUCKETS /\
  Dashboard.availableFromBucket (Dashboard.rowsOf s) (Dashboard.State.collectedSet s) b
  == varianceOf s b.
Proof.
  unfold Dashboard.availableFromBucket, varianceOf.
  destruct (Dashboard.findRow (Dashboard.rowsOf s) b) as [r|] eqn:Hfind; [|intros H; lra].
  destruct (findRow_cents s b r Hfind) as (_ & Hb & Hcents).
  destruct (decide (b ∈ Dashboard.State.collectedSet s)); [intros H; lra|].
  intros Hpos. split; [exact Hb|].
  unfold whole_cents in Hcents. rewrite Hcents in Hpos |- *.
  apply Q.max_r. apply Q.max_lt_iff in Hpos. destruct Hpos as [H|H]; lra.
Qed.

(** What an accepted transfer does to the displayed week. *)
Lemma cover_effect
    (env : Env.t) (target : string) (w : World.t) (s : Dashboard.State.t) :
  synced env w s ->
  let w' := fst (Dashboard.coverOverspend env target w s) in
  let s' := snd (Dashboard.coverOverspend env target w s) in
  synced env w' s' /\
  Dashboard.State.collectedSet s' = Dashboard.State.collectedSet s /\
  (Dashboard.rowsOf s' = Dashboard.rowsOf s
   \/ exists from amt,
        from <> target /\ In from Dashboard.BUCKETS /\ In target Dashboard.BUCKETS /\
        0 <= amt /\ amt <= varianceOf s from /\ amt <= - varianceOf s target /\
        forall b, In b Dashboard.BUCKETS ->
          varianceOf s' b
          == varianceOf s b + (if String.eqb target b then amt else 0)
             - (if String.eqb from b then amt else 0)).
Proof.
  intros Hsync. cbv zeta.
  pose proof Hsync as (Hsess & uid & ws & Huser & Hws & Hne & Hb & Ht & Hc & Htr & Hcs).
  cbv zeta in Hb, Ht, Hc, Htr, Hcs.
  destruct (coverOverspend_cases env target w s)
    as [[e ->]|(targetRow & ws' & uid' & requested & Hws' & _ & Huser' & Hfind & Hvar
                & Hfrom & Havail & Hreq & _ & ->)].
  { cbn [fst snd]. split; [|split; [reflexivity | left; reflexivity]].
    apply (synced_intro env uid ws w _ s Hsess Huser Hws Hne).
    cbv zeta. repeat split; assumption. }
  rewrite Hws in Hws'. injection Hws' as <-. rewrite Huser in Huser'. injection Huser' as <-.
  set (from := JS.trim (default "" (Dashboard.State.coverSource s !! target))) in *.
  set (available := Dashboard.availableFromBucket (Dashboard.rowsOf s)
                      (Dashboard.State.collectedSet s) from) in *.
  set (remainingOver := clamp2 (Qabs (Dashboard.Row.variance targetRow))) in *.
  set (amt := clamp2 (Qmin (Qmin requested remainingOver) available)).
  set (row := BucketTransfer.mk uid ws from target amt).
  destruct (Env.fails env (InsertTransfer row)); cbn [fst snd World.store].
  { split; [|split; [reflexivity | left; reflexivity]].
    apply (synced_intro env uid ws _ _ s Hsess Huser Hws Hne).
    cbv zeta. cbn [World.store]. repeat split; assumption. }
  set (s0 := Dashboard.setCoverAmount _ _).
  assert (Hne' : Dashboard.State.budgets (Dashboard.loadWeekAll env ws (World.store w) s0)
                 <> []).
  { destruct (load_independent env uid ws (World.store w) Hsess Huser s0 s) as (E & _).
    rewrite E, <- Hb. exact Hne. }
  destruct (load_after_transfer env uid ws (World.store w) row s0 Hsess Huser
              eq_refl eq_refl Hne') as (Lb & Lt & Lc & Ltr & Lcs).
  destruct (load_independent env uid ws (World.store w) Hsess Huser s0 s)
    as (Eb & Et & Ec & Etr & Ecs).
  rewrite Eb, <- Hb in Lb. rewrite Et, <- Ht in Lt. rewrite Ec, <- Hc in Lc.
  rewrite Etr, <- Htr in Ltr. rewrite Ecs, <- Hcs in Lcs.
  set (s' := Dashboard.loadWeekAll env ws (apply (InsertTransfer row) (World.store w)) s0)
    in *.
  split.
  { apply (synced_intro env uid ws _ s' s' Hsess Huser).
    - apply (load_weekStart env uid ws _ Hsess Huser).
    - rewrite Lb. exact Hne.
    - cbv zeta. cbn [World.store].
      apply (load_independent env uid ws _ Hsess Huser s0 s'). }
  split; [exact Lcs|].
  right. exists from, amt.
  destruct (findRow_cents s target targetRow Hfind) as (_ & Htarget & Hcents).
  destruct (available_positive s from Havail) as [Hfromb Hav].
  fold available in Hav.
  assert (Hdc : whole_cents (Qabs (Dashboard.Row.variance targetRow)))
    by (apply whole_cents_Qabs, Hcents).
  assert (Hrem : remainingOver == - Dashboard.Row.variance targetRow).
  { unfold remainingOver. unfold whole_cents in Hdc. rewrite Hdc.
    apply Qabs_neg. lra. }
  assert (Hrpos : 0 < remainingOver) by (rewrite Hrem; lra).
  assert (Hrc : whole_cents remainingOver) by apply whole_cents_clamp2.
  pose proof (cover_amount_bounds requested remainingOver available Hreq Hrpos Havail
                Hrc (available_cents _ _ _)) as (B0 & B1 & B2 & _ & _).
  fold amt in B0, B1, B2.
  assert (Hvt : varianceOf s target = Dashboard.Row.variance targetRow)
    by (unfold varianceOf; rewrite Hfind; reflexivity).
  split; [exact Hfrom|]. split; [exact Hfromb|]. split; [exact Htarget|].
  split; [exact B0|]. split; [rewrite <- Hav; exact B2|].
  split; [rewrite Hvt, <- Hrem; exact B1|].
  intros b Hin. unfold varianceOf, Dashboard.rowsOf. rewrite Lb, Lt, Lc, Ltr.
  destruct (row_of_bucket (Dashboard.State.budgets s) (Dashboard.State.transactions s)
              (Dashboard.mapDict (Dashboard.State.categoryMap s))
              (Dashboard.State.transfers s) b Hin) as (r & Hr & _).
  destruct (row_of_bucket (Dashboard.State.budgets s) (Dashboard.State.transactions s)
              (Dashboard.mapDict (Dashboard.State.categoryMap s))
              (Dashboard.State.transfers s ++ [row]) b Hin) as (r' & Hr' & _).
  rewrite Hr, Hr'.
  apply (variance_snoc _ _ _ _ row b r r' Hin (whole_cents_clamp2 _) Hr Hr').
Qed.

Lemma load_after_collection
    (env : Env.t) (uid : string) (ws : date) (st : Store.t)
    (bucket : string) (amount : Q) (s : Dashboard.State.t) :
  Dashboard.ensureSignedIn env = true ->
  Env.user env = Some uid ->
  let l := Dashboard.loadWeekAll env ws st s in
  let l' :=
    Dashboard.loadWeekAll env ws
      (apply (InsertBucketCollection (BucketCollectionRow.mk uid ws bucket amount)) st) s in
  Dashboard.State.budgets l <> [] ->
  Dashboard.State.budgets l' = Dashboard.State.budgets l /\
  Dashboard.State.transactions l' = Dashboard.State.transactions l /\
  Dashboard.State.categoryMap l' = Dashboard.State.categoryMap l /\
  Dashboard.State.transfers l' = Dashboard.State.transfers l /\
  Dashboard.State.collectedSet l' = Dashboard.State.collectedSet l ∪ {[bucket]}.
Proof.
  intros Hsess Huser. cbv zeta.
  destruct st as [wi bu tx cm tr bc co].
  unfold Dashboard.loadWeekAll. rewrite Hsess, Huser.
  cbn [negb apply Store.budgets Store.transactions Store.category_map
       Store.bucket_transfers Store.bucket_collections Store.weekly_income].
  destruct (List.filter _ bu) as [|b0 bs]; [intros Hne; exfalso; apply Hne; reflexivity|].
  intros _.
  cbn [Dashboard.State.budgets Dashboard.State.transactions Dashboard.State.categoryMap
       Dashboard.State.transfers Dashboard.State.collectedSet
       Dashboard.setTransfers Dashboard.setCollectedSet Dashboard.setTransactions
       Dashboard.setBudgets Dashboard.setWeekStart Dashboard.setWeeklyIncome
       Dashboard.setCategoryMap Dashboard.setErrorMsg].
  repeat (split; [reflexivity|]).
  rewrite List.filter_app.
  cbn [List.filter BucketCollectionRow.user_id BucketCollectionRow.week_start].
  unfold sameWeek at 2. rewrite String.eqb_refl, Z.eqb_refl. cbn [andb].
  rewrite List.map_app, list_to_set_app_L. cbn [map BucketCollectionRow.bucket].
  f_equal. apply set_eq. intros x.
  rewrite elem_of_list_to_set, list_elem_of_In, elem_of_singleton. cbn [In].
  split; [intros [->|[]]; reflexivity | intros ->; left; reflexivity].
Qed.

Lemma load_after_uncollect
    (env : Env.t) (uid : string) (ws : date) (st : Store.t)
    (bucket : string) (s : Dashboard.State.t) :
  Dashboard.ensureSignedIn env = true ->
  Env.user env = Some uid ->
  let l := Dashboard.loadWeekAll env ws st s in
  let l' :=
    Dashboard.loadWeekAll env ws (apply (DeleteBucketCollections uid ws bucket) st) s in
  Dashboard.State.budgets l <> [] ->
  Dashboard.State.budgets l' = Dashboard.State.budgets l /\
  Dashboard.State.transactions l' = Dashboard.State.transactions l /\
  Dashboard.State.categoryMap l' = Dashboard.State.categoryMap l /\
  Dashboard.State.transfers l' = Dashboard.State.transfers l /\
  Dashboard.State.collectedSet l' = Dashboard.State.collectedSet l ∖ {[bucket]}.
Proof.
  intros Hsess Huser. cbv zeta.
  destruct st as [wi bu tx cm tr bc co].
  unfold Dashboard.loadWeekAll. rewrite Hsess, Huser.
  cbn [negb apply Store.budgets Store.transactions Store.category_map
       Store.bucket_transfers Store.bucket_collections Store.weekly_income].
  destruct (List.filter _ bu) as [|b0 bs]; [intros Hne; exfalso; apply Hne; reflexivity|].
  intros _.
  cbn [Dashboard.State.budgets Dashboard.State.transactions Dashboard.State.categoryMap
       Dashboard.State.transfers Dashboard.State.collectedSet
       Dashboard.setTransfers Dashboard.setCollectedSet Dashboard.setTransactions
       Dashboard.setBudgets Dashboard.setWeekStart Dashboard.setWeeklyIncome
       Dashboard.setCategoryMap Dashboard.setErrorMsg].
  repeat (split; [reflexivity|]).
  apply set_eq. intros x.
  rewrite elem_of_difference, !elem_of_list_to_set, !list_elem_of_In, !in_map_iff,
    elem_of_singleton.
  split.
  - intros (y & <- & Hy). apply filter_In in Hy. destruct Hy as [Hy Hwk].
    apply filter_In in Hy. destruct Hy as [Hy Hkeep].
    rewrite Hwk in Hkeep. cbn [andb] in Hkeep.
    split; [exists y; split; [reflexivity | apply filter_In; split; assumption]|].
    intros Heq. rewrite Heq, String.eqb_refl in Hkeep. discriminate Hkeep.
  - intros [(y & <- & Hy) Hneq]. apply filter_In in Hy. destruct Hy as [Hy Hwk].
    exists y. split; [reflexivity|]. apply filter_In. split; [|exact Hwk].
    apply filter_In. split; [exact Hy|]. rewrite Hwk. cbn [andb].
    apply negb_true_iff, String.eqb_neq, Hneq.
Qed.

(** Every click on a card keeps the page in step with the store, keeps
    a variance that is not negative from becoming negative, and removes
    a bucket from the collected set only through its Undo button. *)
Lemma step_synced
    (env : Env.t) (e : Dashboard.Event) (w : World.t) (s : Dashboard.State.t) :
  synced env w s ->
  let w' := fst (Dashboard.step env e (w, s)) in
  let s' := snd (Dashboard.step env e (w, s)) in
  synced env w' s' /\
  (forall b, In b Dashboard.BUCKETS -> 0 <= varianceOf s b -> 0 <= varianceOf s' b) /\
  (forall b, b ∈ Dashboard.State.collectedSet s -> e <> Dashboard.ClickUndo b ->
             b ∈ Dashboard.State.collectedSet s').
Proof.
  intros Hsync. cbv zeta.
  pose proof Hsync as (Hsess & uid & ws & Huser & Hws & Hne & Hb & Ht & Hc & Htr & Hcs).
  cbv zeta in Hb, Ht, Hc, Htr, Hcs.
  assert (Hkeep : forall (w1 : World.t) (s1 : Dashboard.State.t),
             World.store w1 = World.store w ->
             Dashboard.State.weekStart s1 = Dashboard.State.weekStart s ->
             Dashboard.State.budgets s1 = Dashboard.State.budgets s ->
             Dashboard.State.transactions s1 = Dashboard.State.transactions s ->
             Dashboard.State.categoryMap s1 = Dashboard.State.categoryMap s ->
             Dashboard.State.transfers s1 = Dashboard.State.transfers s ->
             Dashboard.State.collectedSet s1 = Dashboard.State.collectedSet s ->
             synced env w1 s1 /\
             (forall b, In b Dashboard.BUCKETS ->
                        0 <= varianceOf s b -> 0 <= varianceOf s1 b) /\
             (forall b, b ∈ Dashboard.State.collectedSet s -> e <> Dashboard.ClickUndo b ->
                        b ∈ Dashboard.State.collectedSet s1)).
  { intros w1 s1 Est Ews Eb Et Ec Etr Ecs. split; [|split].
    - apply (synced_intro env uid ws w1 s1 s Hsess Huser).
      + rewrite Ews. exact Hws.
      + rewrite Eb. exact Hne.
      + cbv zeta. rewrite Est, Eb, Et, Ec, Etr, Ecs. repeat split; assumption.
    - intros b _ Hv. unfold varianceOf, Dashboard.rowsOf in *.
      rewrite Eb, Et, Ec, Etr. exact Hv.
    - intros b Hin _. rewrite Ecs. exact Hin. }
  destruct e as [target value|target value|target|bucket|bucket]; cbn [Dashboard.step].
  - apply Hkeep; reflexivity.
  - apply Hkeep; reflexivity.
  - destruct (cover_effect env target w s Hsync) as (Hs' & Hcol & Hrows).
    cbv zeta in Hs', Hcol, Hrows.
    split; [exact Hs'|]. split; [|intros b Hin _; rewrite Hcol; exact Hin].
    intros b Hin Hv.
    destruct Hrows as [Hsame|(from & amt & Hft & _ & _ & Hamt & Hle & _ & Hvar)].
    + unfold varianceOf in *. rewrite Hsame. exact Hv.
    + rewrite (Hvar b Hin).
      destruct (String.eqb target b); destruct (String.eqb from b) eqn:Efrom;
        try lra; apply String.eqb_eq in Efrom; subst b; lra.
  - destruct (clickCollect_cases env bucket w s)
      as [[e ->]|[->|(r & uid' & ws' & _ & Huser' & Hws' & _ & _ & _ & _ & ->)]];
      cbn [fst snd]; try (apply Hkeep; reflexivity).
    rewrite Hws in Hws'. injection Hws' as <-.
    rewrite Huser in Huser'. injection Huser' as <-.
    destruct (Env.fails env _); cbn [fst snd]; [apply Hkeep; reflexivity|].
    split; [|split].
    + assert (Hne' : Dashboard.State.budgets
                       (Dashboard.loadWeekAll env ws (World.store w) s) <> [])
        by (rewrite <- Hb; exact Hne).
      destruct (load_after_collection env uid ws (World.store w) bucket
                  (clamp2 (Dashboard.Row.variance r)) s Hsess Huser Hne')
        as (Lb & Lt & Lc & Ltr & Lcs).
      apply (synced_intro env uid ws _ _ s Hsess Huser); [exact Hws | exact Hne|].
      cbv zeta. cbn [World.store]. rewrite Lb, Lt, Lc, Ltr, Lcs.
      cbn [Dashboard.State.budgets Dashboard.State.transactions
           Dashboard.State.categoryMap Dashboard.State.transfers
           Dashboard.State.collectedSet Dashboard.setCollectedSet Dashboard.setErrorMsg].
      rewrite <- Hcs. repeat split; assumption.
    + intros b _ Hv. exact Hv.
    + intros b Hin _. cbn [Dashboard.State.collectedSet Dashboard.setCollectedSet].
      apply elem_of_union_l, Hin.
  - destruct (clickUndo_cases env bucket w s)
      as [[e ->]|[->|(uid' & ws' & _ & Huser' & Hws' & _ & ->)]];
      cbn [fst snd]; try (apply Hkeep; reflexivity).
    rewrite Hws in Hws'. injection Hws' as <-.
    rewrite Huser in Huser'. injection Huser' as <-.
    destruct (Env.fails env _); cbn [fst snd]; [apply Hkeep; reflexivity|].
    split; [|split].
    + assert (Hne' : Dashboard.State.budgets
                       (Dashboard.loadWeekAll env ws (World.store w) s) <> [])
        by (rewrite <- Hb; exact Hne).
      destruct (load_after_uncollect env uid ws (World.store w) bucket s Hsess Huser Hne')
        as (Lb & Lt & Lc & Ltr & Lcs).
      apply (synced_intro env uid ws _ _ s Hsess Huser); [exact Hws | exact Hne|].
      cbv zeta. cbn [World.store]. rewrite Lb, Lt, Lc, Ltr, Lcs.
      cbn [Dashboard.State.budgets Dashboard.State.transactions
           Dashboard.State.categoryMap Dashboard.State.transfers
           Dashboard.State.collectedSet Dashboard.setCollectedSet Dashboard.setErrorMsg].
      rewrite <- Hcs. repeat split; assumption.
    + intros b _ Hv. exact Hv.
    + intros b Hin Hnot. cbn [Dashboard.State.collectedSet Dashboard.setCollectedSet].
      apply elem_of_difference. split; [exact Hin|].
      rewrite elem_of_singleton. intros ->. apply Hnot. reflexivity.
Qed.

Lemma run_synced
    (env : Env.t) (es : list Dashboard.Event) (w : World.t) (s : Dashboard.State.t) :
  synced env w s ->
  let w' := fst (Dashboard.run env es (w, s)) in
  let s' := snd (Dashboard.run env es (w, s)) in
  synced env w' s' /\
  (forall b, In b Dashboard.BUCKETS -> 0 <= varianceOf s b -> 0 <= varianceOf s' b) /\
  (forall b, b ∈ Dashboard.State.collectedSet s -> ~ In (Dashboard.ClickUndo b) es ->
             b ∈ Dashboard.State.collectedSet s').
Proof.
  revert w s. induction es as [|e es IH]; intros w s Hsync; cbv zeta.
  - split; [exact Hsync|]. split; [intros b _ H; exact H | intros b H _; exact H].
  - unfold Dashboard.run. cbn [fold_left].
    destruct (step_synced env e w s Hsync) as (Hs1 & Hv1 & Hc1). cbv zeta in Hs1, Hv1, Hc1.
    destruct (Dashboard.step env e (w, s)) as [w1 s1]. cbn [fst snd] in Hs1, Hv1, Hc1.
    destruct (IH w1 s1 Hs1) as (Hs2 & Hv2 & Hc2). cbv zeta in Hs2, Hv2, Hc2.
    split; [exact Hs2|]. split.
    + intros b Hin Hv. apply (Hv2 b Hin), (Hv1 b Hin), Hv.
    + intros b Hin Hnot. apply Hc2.
      * apply Hc1; [exact Hin|]. intros ->. apply Hnot. left. reflexivity.
      * intros Hes. apply Hnot. right. exact Hes.
Qed.

Lemma clickCollect_collected
    (env : Env.t) (bucket : string) (w : World.t) (s : Dashboard.State.t) :
  bucket ∈ Dashboard.State.collectedSet s ->
  Dashboard.clickCollect env bucket w s = (w, s).
Proof.
  intros Hcol. unfold Dashboard.clickCollect.
  destruct (Dashboard.State.weekStart s); [|reflexivity].
  destruct (Dashboard.findRow (Dashboard.rowsOf s) bucket) as [r|] eqn:Hfind; [|reflexivity].
  destruct (findRow_cents s bucket r Hfind) as (-> & _ & _).
  rewrite bool_decide_eq_true_2 by exact Hcol. reflexivity.
Qed.

(** ** The claims on collecting and covering *)






(** With no amount typed, covering expenses from wants moves
    min(15.00, 15.00) = 15.00 and brings both variances to 0. *)
Example cover_default_amount :
  let s := Dashboard.setCoverSource {[ "expenses" := "wants" ]} state_week1 in
  let s' := snd (Dashboard.coverOverspend env_u "expenses" (World.mk store_week1 []) s) in
  map BucketTransfer.amount (Dashboard.State.transfers s') = [15.00] /\
  map Dashboard.Row.variance (Dashboard.rowsOf s') = [15.00; 0.00; 10.00; 25.00; 0.00].
Proof. split; vm_compute; reflexivity. Qed.

(** ** The collections library *)

(** [collectLeftover] sends nothing for an amount that is not positive,
    and otherwise exactly one row with the amount it was given. *)
Lemma collectLeftover_guard
    (env : Env.t) (weekId category : string) (amount : Q) (w : World.t) :
  let w' := snd (Collections.collectLeftover env weekId category amount w) in
  (amount <= 0 -> w' = w) /\
  (0 < amount ->
   forall userId, Env.user env = Some userId ->
     let req :=
       InsertCollection userId weekId category
         (Collections.bucketForCategory category) amount in
     World.log w' = (World.log w ++ [req])%list /\
     (Env.fails env req = false ->
      Store.collections (World.store w')
      = (Store.collections (World.store w)
          ++ [CollectionRow.mk (List.length (Store.collections (World.store w)))
                userId weekId category (Collections.bucketForCategory category)
                amount None])%list)).
Proof.
  cbv zeta. unfold Collections.collectLeftover. split.
  - intros Hle. apply Qle_bool_iff in Hle. rewrite Hle, orb_true_r. reflexivity.
  - intros Hpos userId Huser.
    assert (Hz : Qeq_bool amount 0 = false).
    { destruct (Qeq_bool amount 0) eqn:E; [|reflexivity].
      apply Qeq_bool_iff in E. lra. }
    assert (Hl : Qle_bool amount 0 = false) by (apply Qle_bool_false, Hpos).
    rewrite Hz, Hl. cbn [orb]. unfold Collections.getUserIdOrThrow. rewrite Huser.
    unfold request. destruct (Env.fails env _) eqn:Hf; cbn [snd World.log World.store].
    + split; [reflexivity | discriminate].
    + split; [reflexivity|]. intros _.
      destruct (World.store w) as [wi bu tx cm tr bc co]. reflexivity.
Qed.

Lemma active_app (userId weekId category : string) (l1 l2 : list CollectionRow.t) :
  Collections.active userId weekId category (l1 ++ l2)
  = (Collections.active userId weekId category l1
      ++ Collections.active userId weekId category l2)%list.
Proof. unfold Collections.active. apply List.filter_app. Qed.

(** In the library, collecting and then undoing leaves the same rows
    active, when ids are the positions at which rows were created. *)
Lemma lib_collect_then_undo
    (env : Env.t) (userId weekId category : string) (amount : Q) (w : World.t) :
  Env.user env = Some userId ->
  (forall r, Env.fails env r = false) ->
  0 < amount ->
  Forall (fun x => (CollectionRow.id x < List.length (Store.collections (World.store w)))%nat)
    (Store.collections (World.store w)) ->
  let w1 := snd (Collections.collectLeftover env weekId category amount w) in
  let w2 := snd (Collections.undoCollect env weekId category w1) in
  Collections.active userId weekId category (Store.collections (World.store w2))
  = Collections.active userId weekId category (Store.collections (World.store w)).
Proof.
  intros Huser Hok Hpos Hids. cbv zeta.
  unfold Collections.collectLeftover.
  assert (Hz : Qeq_bool amount 0 = false).
  { destruct (Qeq_bool amount 0) eqn:E; [|reflexivity]. apply Qeq_bool_iff in E. lra. }
  assert (Hl : Qle_bool amount 0 = false) by (apply Qle_bool_false, Hpos).
  rewrite Hz, Hl. cbn [orb]. unfold Collections.getUserIdOrThrow. rewrite Huser.
  unfold request at 1. rewrite Hok. cbn [snd].
  destruct w as [[wi bu tx cm tr bc co] lg]. cbn [World.store Store.collections] in *.
  cbn [apply World.store Store.collections].
  unfold Collections.undoCollect, Collections.getUserIdOrThrow. rewrite Huser.
  cbn [World.store Store.collections].
  set (new := CollectionRow.mk (List.length co) userId weekId category
                (Collections.bucketForCategory category) amount None).
  assert (Hnew : Collections.active userId weekId category [new] = [new]).
  { unfold Collections.active, new. cbn [List.filter CollectionRow.user_id
      CollectionRow.week_id CollectionRow.category CollectionRow.undone_at].
    rewrite !String.eqb_refl. reflexivity. }
  rewrite active_app, Hnew, last_snoc.
  unfold request. rewrite Hok. cbn [snd World.store apply Store.collections].
  rewrite List.map_app. cbn [map CollectionRow.id new]. rewrite Nat.eqb_refl.
  rewrite active_app.
  assert (Hold : forall (n : nat) (l : list CollectionRow.t),
             Forall (fun x => (CollectionRow.id x < n)%nat) l ->
             map (fun x => if (CollectionRow.id x =? n)%nat
                           then CollectionRow.mk (CollectionRow.id x)
                                  (CollectionRow.user_id x) (CollectionRow.week_id x)
                                  (CollectionRow.category x) (CollectionRow.bucket x)
                                  (CollectionRow.amount x) (Some (Env.now env))
                           else x) l = l).
  { intros n l Hall. induction Hall as [|x l Hx _ IH]; [reflexivity|].
    cbn [map]. f_equal; [|exact IH].
    destruct (Nat.eqb_spec (CollectionRow.id x) n); [lia | reflexivity]. }
  rewrite (Hold _ _ Hids).
  unfold Collections.active at 2.
  cbn [List.filter CollectionRow.user_id CollectionRow.week_id CollectionRow.category
       CollectionRow.undone_at new].
  rewrite !String.eqb_refl. cbn [andb]. apply app_nil_r.
Qed.

(** The button sends no collection while it shows a collected bucket or
    while nothing remains to collect. *)
Lemma collect_button_guard
    (env : Env.t) (weekId category : string) (remaining : Q)
    (w : World.t) (st : CollectButton.State) :
  CollectButton.isCollected st = true \/ remaining <= 0 ->
  forall uid wk cat b a,
    ~ In (InsertCollection uid wk cat b a)
        (skipn (List.length (World.log w))
           (World.log (fst (CollectButton.onClick env weekId category remaining w st)))).
Proof.
  intros Hguard uid wk cat b a. unfold CollectButton.onClick.
  destruct (CollectButton.disabled st remaining) eqn:Hdis.
  { cbn [fst]. rewrite skipn_all. intros []. }
  destruct (CollectButton.isCollected st) eqn:Hcol.
  2:{ exfalso. destruct Hguard as [H|H]; [discriminate H|].
      unfold CollectButton.disabled in Hdis. rewrite Hcol in Hdis.
      apply Qle_bool_iff in H. rewrite H, orb_true_r in Hdis. discriminate Hdis. }
  cbn [negb]. unfold Collections.undoCollect.
  destruct (Collections.getUserIdOrThrow env) as [userId|msg].
  2:{ cbn [fst]. rewrite skipn_all. intros []. }
  destruct (last _) as [row|].
  2:{ cbn [fst]. rewrite skipn_all. intros []. }
  unfold request. destruct (Env.fails env _); cbn [fst World.log];
    rewrite skipn_app, skipn_all, Nat.sub_diag; cbn [skipn app In];
    intros [H|[]]; discriminate H.
Qed.

(** ** Examples *)

(** The incomes of the specification: 100.00, 33.33, 0.01 and
    1234.56. *)
Example allocation_of_100 :
  map (fun b => (Budget.category b, Budget.amount b))
    (Dashboard.buildBudgetInsertsExactTotal "u" 1%Z 100)
  = [("save", 15.00); ("wants", 15.00); ("emergency", 10.00);
     ("student loans", 25.00); ("expenses", 35.00)].
Proof. vm_compute. reflexivity. Qed.

Example allocation_of_33_33 :
  map Budget.amount (Dashboard.buildBudgetInsertsExactTotal "u" 1%Z 33.33)
  = [5.00; 5.00; 3.33; 8.33; 11.67].
Proof. vm_compute. reflexivity. Qed.

Example allocation_of_0_01 :
  map Budget.amount (Dashboard.buildBudgetInsertsExactTotal "u" 1%Z 0.01)
  = [0.00; 0.00; 0.00; 0.00; 0.01].
Proof. vm_compute. reflexivity. Qed.

Example allocation_of_1234_56 :
  map Budget.amount (Dashboard.buildBudgetInsertsExactTotal "u" 1%Z 1234.56)
  = [185.18; 185.18; 123.46; 308.64; 432.10].
Proof. vm_compute. reflexivity. Qed.

(** A week added from scratch: the income 100 typed for week 1. *)
Example add_week_from_scratch :
  let s := Dashboard.setIncomeInput (Input.mk "100" (JS.Fin 100)) (Dashboard.State.initial 1%Z) in
  let ws := Dashboard.addNewWeekFromIncome env_u (World.mk Store.empty []) s in
  map Budget.amount (Store.budgets (World.store (fst ws))) = [15.00; 15.00; 10.00; 25.00; 35.00] /\
  map Dashboard.Row.budgeted (Dashboard.rowsOf (snd ws)) = [15.00; 15.00; 10.00; 25.00; 35.00] /\
  Dashboard.State.weekStart (snd ws) = Some 1%Z.
Proof. repeat split; vm_compute; reflexivity. Qed.

(** A category locked at creation is read back with its bucket. *)
Example locked_category :
  Dashboard.splitStoredCategory (Dashboard.makeStoredCategory "wants" "Coffee")
  = Dashboard.Parsed.mk (Some "wants") "Coffee" /\
  Dashboard.splitStoredCategory "Coffee" = Dashboard.Parsed.mk None "Coffee" /\
  Dashboard.splitStoredCategory "snacks::Coffee" = Dashboard.Parsed.mk None "snacks::Coffee".
Proof. repeat split; reflexivity. Qed.
(** * Further properties of the code *)

(** ** Bucket-locked categories *)

Lemma substring_all (s : string) : String.substring 0 (String.length s) s = s.
Proof. induction s as [|c s IH]; [reflexivity|]. cbn. rewrite IH. reflexivity. Qed.

Lemma substring_app_l (b s : string) :
  String.substring 0 (String.length b) (b ++ s) = b.
Proof.
  induction b as [|c b IH]; [destruct s; reflexivity|].
  change (String c b ++ s) with (String c (b ++ s)). cbn. rewrite IH. reflexivity.
Qed.

Lemma substring_app_r (b s : string) (m : nat) :
  String.substring (String.length b) m (b ++ s) = String.substring 0 m s.
Proof.
  induction b as [|c b IH]; [reflexivity|].
  change (String c b ++ s) with (String c (b ++ s)). cbn. exact IH.
Qed.

Lemma string_length_app (b s : string) :
  String.length (b ++ s) = (String.length b + String.length s)%nat.
Proof.
  induction b as [|c b IH]; [reflexivity|].
  change (String c b ++ s) with (String c (b ++ s)). cbn. rewrite IH. reflexivity.
Qed.

Lemma string_app_assoc (a b c : string) : ((a ++ b) ++ c = a ++ (b ++ c))%string.
Proof.
  induction a as [|x a IH]; [reflexivity|].
  change ((String x a ++ b) ++ c) with (String x ((a ++ b) ++ c)).
  rewrite IH. reflexivity.
Qed.

(** The delimiter is found right after the name of a bucket. *)
Lemma index_after_bucket (b raw : string) :
  In b Dashboard.BUCKETS -> raw <> "" ->
  JS.indexOf (Dashboard.makeStoredCategory b raw) Dashboard.TX_BUCKET_DELIM
  = Some (String.length b) /\ JS.trim b = b /\ (0 <? String.length b)%nat = true.
Proof.
  intros Hin Hraw. destruct raw as [|c r]; [contradiction|]. cbn in Hin.
  destruct Hin as [<-|[<-|[<-|[<-|[<-|[]]]]]]; (split; [reflexivity|split; reflexivity]).
Qed.

Lemma locked_round_trip (bucket raw : string) :
  In bucket Dashboard.BUCKETS -> JS.truthy (JS.trim raw) = true ->
  Dashboard.splitStoredCategory (Dashboard.makeStoredCategory bucket raw)
  = Dashboard.Parsed.mk (Some bucket) (JS.trim raw).
Proof.
  intros Hin Hraw.
  assert (Hne : raw <> "") by (intros ->; discriminate Hraw).
  destruct (index_after_bucket bucket raw Hin Hne) as (Hidx & Htrim & Hpos).
  unfold Dashboard.splitStoredCategory. rewrite Hidx, Hpos.
  unfold JS.slice, JS.sliceFrom, Dashboard.makeStoredCategory.
  rewrite Nat.sub_0_r, substring_app_l, Htrim.
  replace (existsb (String.eqb bucket) Dashboard.BUCKETS) with true
    by (symmetry; apply existsb_exists; exists bucket;
        split; [exact Hin | apply String.eqb_refl]).
  replace (String.substring _ _ _) with raw; [rewrite Hraw; reflexivity|].
  rewrite string_length_app.
  replace (String.length bucket + String.length Dashboard.TX_BUCKET_DELIM)%nat
    with (String.length (bucket ++ Dashboard.TX_BUCKET_DELIM))
    by apply string_length_app.
  replace (bucket ++ Dashboard.TX_BUCKET_DELIM ++ raw)
    with ((bucket ++ Dashboard.TX_BUCKET_DELIM) ++ raw)
    by apply string_app_assoc.
  rewrite substring_app_r. symmetry.
  match goal with
  | |- String.substring 0 ?n raw = raw =>
      replace n with (String.length raw) by (rewrite !string_length_app; lia)
  end.
  apply substring_all.
Qed.

(** X1. A category written by [makeStoredCategory] for one of the five
    buckets is read back by [splitStoredCategory] with that bucket and
    the trimmed raw text, provided the raw text is not blank.  What the
    parser reports as a locked bucket is always one of the five buckets,
    with a raw text that is not empty; otherwise it hands back the
    category unchanged. *)
Theorem stored_category_round_trip :
  (forall bucket raw : string,
     In bucket Dashboard.BUCKETS -> JS.truthy (JS.trim raw) = true ->
     Dashboard.splitStoredCategory (Dashboard.makeStoredCategory bucket raw)
     = Dashboard.Parsed.mk (Some bucket) (JS.trim raw)) /\
  (forall category b : string,
     Dashboard.Parsed.bucket (Dashboard.splitStoredCategory category) = Some b ->
     In b Dashboard.BUCKETS /\
     Dashboard.Parsed.raw (Dashboard.splitStoredCategory category) <> "") /\
  (forall category : string,
     Dashboard.Parsed.bucket (Dashboard.splitStoredCategory category) = None ->
     Dashboard.Parsed.raw (Dashboard.splitStoredCategory category) = category).
Proof.
  split; [|split].
  - exact locked_round_trip.
  - intros category b. unfold Dashboard.splitStoredCategory.
    destruct (JS.indexOf category Dashboard.TX_BUCKET_DELIM) as [idx|]; [|discriminate].
    destruct (0 <? idx)%nat; [|discriminate].
    destruct (existsb _ Dashboard.BUCKETS) eqn:Hex; cbn [andb]; [|discriminate].
    destruct (JS.truthy _) eqn:Hraw; [|discriminate].
    cbn [Dashboard.Parsed.bucket Dashboard.Parsed.raw]. intros [= <-].
    apply existsb_exists in Hex. destruct Hex as (x & Hx & Heq).
    apply String.eqb_eq in Heq. subst x. split; [exact Hx|].
    intros Hempty. rewrite Hempty in Hraw. discriminate Hraw.
  - intros category. unfold Dashboard.splitStoredCategory.
    destruct (JS.indexOf category Dashboard.TX_BUCKET_DELIM) as [idx|]; [|reflexivity].
    destruct (0 <? idx)%nat; [|reflexivity].
    destruct (existsb _ Dashboard.BUCKETS && JS.truthy _); [discriminate | reflexivity].
Qed.

(** ** Shares of the allocation *)

(** The rounded share [z] of [n] cents at [p/d] is within half a cent of
    the exact share. *)
Lemma share_near (n p d : Z) :
  (0 < d)%Z ->
  let z := ((2 * (n * p) + d) / (2 * d))%Z in
  (- d < 2 * d * z - 2 * (n * p) <= d)%Z.
Proof. intros Hd z. subst z. Z.div_mod_to_equations. nia. Qed.

(** The cents left for expenses, against 35% of [n] cents. *)
Lemma expenses_near (n : Z) :
  let z p d := ((2 * (n * p) + d) / (2 * d))%Z in
  let e := (n - (z 15 100 + z 15 100 + z 1 10 + z 25 100))%Z in
  (-30 <= 20 * e - 7 * n <= 19)%Z.
Proof.
  intros z e. subst z e. cbv beta.
  pose proof (Z.div_mod n 20 ltac:(lia)) as Hdm.
  pose proof (Z.mod_pos_bound n 20 ltac:(lia)) as Hm.
  set (k := (n / 20)%Z) in *. set (m := (n mod 20)%Z) in *.
  rewrite Hdm. clearbody k m. clear Hdm n.
  assert (m = 0 \/ m = 1 \/ m = 2 \/ m = 3 \/ m = 4 \/ m = 5 \/ m = 6 \/ m = 7 \/ m = 8
          \/ m = 9 \/ m = 10 \/ m = 11 \/ m = 12 \/ m = 13 \/ m = 14 \/ m = 15 \/ m = 16
          \/ m = 17 \/ m = 18 \/ m = 19)%Z as Hcases by lia.
  repeat (destruct Hcases as [->|Hcases]); try subst m;
    (Z.div_mod_to_equations; lia).
Qed.

Lemma share_dev (n p d : Z) (q : Q) :
  (0 < d)%Z -> q == inject_Z p / inject_Z d ->
  let z := ((2 * (n * p) + d) / (2 * d))%Z in
  Qabs (inject_Z z / 100 - q * (inject_Z n / 100)) <= 1 # 200.
Proof.
  intros Hd Hq z. pose proof (share_near n p d Hd) as Hz. fold z in Hz. cbv zeta in Hz.
  destruct Hz as [Hlo Hhi].
  assert (Hdq : 0 < inject_Z d).
  { change 0 with (inject_Z 0). rewrite <- Zlt_Qlt. exact Hd. }
  assert (Hlo' : - inject_Z d <= 2 * inject_Z d * inject_Z z - 2 * (inject_Z n * inject_Z p)).
  { rewrite <- !inject_Z_mult, <- inject_Z_opp.
    change 2 with (inject_Z 2). rewrite <- !inject_Z_mult.
    unfold Qminus. rewrite <- inject_Z_opp, <- inject_Z_plus, <- Zle_Qle. lia. }
  assert (Hhi' : 2 * inject_Z d * inject_Z z - 2 * (inject_Z n * inject_Z p) <= inject_Z d).
  { rewrite <- !inject_Z_mult.
    change 2 with (inject_Z 2). rewrite <- !inject_Z_mult.
    unfold Qminus. rewrite <- inject_Z_opp, <- inject_Z_plus, <- Zle_Qle. lia. }
  set (Z' := inject_Z z) in *. set (N := inject_Z n) in *. set (P := inject_Z p) in *.
  set (D := inject_Z d) in *.
  assert (Heq : Z' / 100 - q * (N / 100) == (2 * D * Z' - 2 * (N * P)) / (200 * D)).
  { rewrite Hq. field. lra. }
  rewrite Heq. apply Qabs_Qle_condition. split.
  - apply Qle_shift_div_l; [lra|]. 
    assert (H1 : - (1 # 200) * (200 * D) == - D) by ring. rewrite H1. exact Hlo'.
  - apply Qle_shift_div_r; [lra|].
    assert (H1 : (1 # 200) * (200 * D) == D) by ring. rewrite H1. exact Hhi'.
Qed.


(** ** Dates and time zones *)

Lemma toISODate_shift (tz k : Z) :
  (- Clock.msPerDay < tz < Clock.msPerDay)%Z ->
  Clock.toISODate (k * Clock.msPerDay - tz) = if (tz <=? 0)%Z then k else (k - 1)%Z.
Proof.
  unfold Clock.toISODate, Clock.msPerDay. intros Htz.
  destruct (tz <=? 0)%Z eqn:Hle; [apply Z.leb_le in Hle | apply Z.leb_gt in Hle];
    Z.div_mod_to_equations; lia.
Qed.

Lemma localDay_midnight (tz k : Z) :
  Clock.localDay tz (Clock.localMidnight tz k) = k.
Proof.
  unfold Clock.localDay, Clock.localMidnight, Clock.msPerDay.
  replace (k * 86400000 - tz + tz)%Z with (k * 86400000)%Z by lia.
  apply Z.div_mul. lia.
Qed.

(** X3. [addDaysISO] adds the given number of days when local time is
    at or behind UTC; when local time is ahead of UTC the date it
    returns is one day earlier, because local midnight is still the
    previous day in UTC. *)
Theorem addDaysISO_time_zone (tz : Z) (iso : date) (days : Z) :
  (- Clock.msPerDay < tz < Clock.msPerDay)%Z ->
  Clock.addDaysISO tz iso days
  = if (tz <=? 0)%Z then addDaysISO iso days else (addDaysISO iso days - 1)%Z.
Proof.
  intros Htz. unfold Clock.addDaysISO, Clock.addDays, Clock.localMidnight, addDaysISO.
  replace (iso * Clock.msPerDay - tz + days * Clock.msPerDay)%Z
    with ((iso + days) * Clock.msPerDay - tz)%Z by lia.
  apply toISODate_shift, Htz.
Qed.

Lemma addDaysISO_time_zone_witness :
  (- Clock.msPerDay < 3600000 < Clock.msPerDay)%Z /\
  Clock.addDaysISO 3600000%Z 10%Z 6%Z = 15%Z /\
  Clock.addDaysISO (-18000000)%Z 10%Z 6%Z = 16%Z.
Proof.
  split; [vm_compute; split; reflexivity|]. split.
  - apply (addDaysISO_time_zone 3600000%Z 10%Z 6%Z). vm_compute. split; reflexivity.
  - reflexivity.
Defined.

Lemma getDay_range (d : date) : (0 <= Dashboard.getDay d < 7)%Z.
Proof. unfold Dashboard.getDay. apply Z.mod_pos_bound. lia. Qed.

Lemma mostRecent_days (d : date) (dow : Z) :
  (0 <= dow < 7)%Z ->
  let r := Dashboard.mostRecentDowISO d dow in
  Dashboard.getDay r = dow /\ (d - 6 <= r <= d)%Z.
Proof.
  intros Hdow r. subst r. unfold Dashboard.mostRecentDowISO.
  pose proof (getDay_range d) as Hg. cbv zeta.
  rewrite Z.rem_mod_nonneg by lia.
  unfold Dashboard.getDay in *. Z.div_mod_to_equations. lia.
Qed.

Lemma next_days (d : date) (dow : Z) :
  (0 <= dow < 7)%Z ->
  let r := Dashboard.nextDowISO d dow in
  Dashboard.getDay r = dow /\ (d <= r <= d + 6)%Z.
Proof.
  intros Hdow r. subst r. unfold Dashboard.nextDowISO.
  pose proof (getDay_range d) as Hg. cbv zeta.
  rewrite Z.rem_mod_nonneg by lia.
  unfold Dashboard.getDay in *. Z.div_mod_to_equations. lia.
Qed.

Lemma clock_mostRecent (tz now dow : Z) :
  (- Clock.msPerDay < tz < Clock.msPerDay)%Z ->
  Clock.mostRecentDowISO tz now dow
  = let r := Dashboard.mostRecentDowISO (Clock.localDay tz now) dow in
    if (tz <=? 0)%Z then r else (r - 1)%Z.
Proof.
  intros Htz. unfold Clock.mostRecentDowISO, Clock.getDay, Clock.setHours0, Clock.addDays.
  cbv zeta. rewrite localDay_midnight. unfold Clock.localMidnight.
  set (L := Clock.localDay tz now).
  set (diff := Z.rem (Dashboard.getDay L - dow + 7) 7).
  replace (L * Clock.msPerDay - tz + - diff * Clock.msPerDay)%Z
    with ((L - diff) * Clock.msPerDay - tz)%Z by lia.
  rewrite toISODate_shift by exact Htz. reflexivity.
Qed.

Lemma clock_next (tz now dow : Z) :
  (- Clock.msPerDay < tz < Clock.msPerDay)%Z ->
  Clock.nextDowISO tz now dow
  = let r := Dashboard.nextDowISO (Clock.localDay tz now) dow in
    if (tz <=? 0)%Z then r else (r - 1)%Z.
Proof.
  intros Htz. unfold Clock.nextDowISO, Clock.getDay, Clock.setHours0, Clock.addDays.
  cbv zeta. rewrite localDay_midnight. unfold Clock.localMidnight.
  set (L := Clock.localDay tz now).
  set (diff := Z.rem (_ - Dashboard.getDay L + 7) 7).
  replace (L * Clock.msPerDay - tz + diff * Clock.msPerDay)%Z
    with ((L + diff) * Clock.msPerDay - tz)%Z by lia.
  rewrite toISODate_shift by exact Htz. reflexivity.
Qed.

Lemma week_start_days (tz now dow : Z) :
  (- Clock.msPerDay < tz < Clock.msPerDay)%Z -> (0 <= dow < 7)%Z ->
  let today := Clock.localDay tz now in
  let shift := if (tz <=? 0)%Z then 0%Z else 1%Z in
  let back := (Clock.mostRecentDowISO tz now dow + shift)%Z in
  let ahead := (Clock.nextDowISO tz now dow + shift)%Z in
  Dashboard.getDay back = dow /\ (today - 6 <= back <= today)%Z /\
  Dashboard.getDay ahead = dow /\ (today <= ahead <= today + 6)%Z.
Proof.
  intros Htz Hdow today shift back ahead.
  pose proof (clock_mostRecent tz now dow Htz) as Hb.
  pose proof (clock_next tz now dow Htz) as Ha.
  cbv zeta in Ha, Hb. fold today in Ha, Hb.
  destruct (mostRecent_days today dow Hdow) as [Hb1 Hb2].
  destruct (next_days today dow Hdow) as [Ha1 Ha2]. cbv zeta in Hb1, Hb2, Ha1, Ha2.
  assert (Hb' : back = Dashboard.mostRecentDowISO today dow)
    by (subst back; rewrite Hb; subst shift; destruct (tz <=? 0)%Z; lia).
  assert (Ha' : ahead = Dashboard.nextDowISO today dow)
    by (subst ahead; rewrite Ha; subst shift; destruct (tz <=? 0)%Z; lia).
  rewrite Hb', Ha'.
  split; [exact Hb1|]. split; [exact Hb2|]. split; [exact Ha1| exact Ha2].
Qed.

(** X4. With local time at or behind UTC, [mostRecentDowISO] returns the
    latest date up to the local day that falls on the wanted day of the
    week, and [nextDowISO] the earliest such date from the local day
    on; each is the local day itself when that day already falls on
    it.  With local time ahead of UTC both return the day before that
    date. *)
Theorem week_start_is_on_payday (tz now dow : Z) :
  (- Clock.msPerDay < tz < Clock.msPerDay)%Z -> (0 <= dow < 7)%Z ->
  let today := Clock.localDay tz now in
  let back := Clock.mostRecentDowISO tz now dow in
  let ahead := Clock.nextDowISO tz now dow in
  let shift := if (tz <=? 0)%Z then 0%Z else 1%Z in
  Dashboard.getDay (back + shift)%Z = dow /\ (today - 6 <= back + shift <= today)%Z /\
  Dashboard.getDay (ahead + shift)%Z = dow /\ (today <= ahead + shift <= today + 6)%Z /\
  (Clock.getDay tz now = dow -> (back + shift)%Z = today /\ (ahead + shift)%Z = today).
Proof.
  intros Htz Hdow today back ahead shift.
  destruct (week_start_days tz now dow Htz Hdow) as (Hb1 & Hb2 & Ha1 & Ha2).
  fold today shift back ahead in Hb1, Hb2, Ha1, Ha2.
  split; [exact Hb1|]. split; [exact Hb2|]. split; [exact Ha1|]. split; [exact Ha2|].
  unfold Clock.getDay. fold today. intros Hday.
  set (b := (back + shift)%Z) in *. set (a := (ahead + shift)%Z) in *.
  clearbody a b.
  unfold Dashboard.getDay in *. Z.div_mod_to_equations. lia.
Qed.

Lemma week_start_is_on_payday_witness :
  (- Clock.msPerDay < 0 < Clock.msPerDay)%Z /\ (0 <= 5 < 7)%Z /\
  Dashboard.getDay (Clock.mostRecentDowISO 0%Z (20 * Clock.msPerDay + 1000)%Z 5%Z) = 5%Z.
Proof.
  assert (Htz : (- Clock.msPerDay < 0 < Clock.msPerDay)%Z) by (vm_compute; split; reflexivity).
  assert (Hdow : (0 <= 5 < 7)%Z) by lia.
  split; [exact Htz|]. split; [exact Hdow|].
  pose proof (week_start_is_on_payday 0%Z (20 * Clock.msPerDay + 1000)%Z 5%Z Htz Hdow) as H.
  cbv zeta in H. destruct H as [H _].
  rewrite Z.add_0_r in H. exact H.
Defined.

(** X5. The week an income is booked to when no start date is chosen:
    it starts on a payday; an income entered on the notice day goes to
    the week that starts on the next payday, which is still ahead unless
    that day is itself the payday, and an income entered on any other
    day goes to the running week, which contains the day of entry.
    (With local time ahead of UTC the date returned is the day before
    that start.) *)
Theorem income_entry_week (tz entry payday : Z) (notice : option Z) :
  (- Clock.msPerDay < tz < Clock.msPerDay)%Z -> (0 <= payday < 7)%Z ->
  let today := Clock.localDay tz entry in
  let shift := if (tz <=? 0)%Z then 0%Z else 1%Z in
  let ws := (Clock.weekStartForIncomeEntryISO tz entry payday notice + shift)%Z in
  Dashboard.getDay ws = payday /\
  (notice = Some (Dashboard.getDay today) ->
   (today <= ws <= today + 6)%Z /\ (Dashboard.getDay today <> payday -> (today < ws)%Z)) /\
  (notice <> Some (Dashboard.getDay today) ->
   isISOInRange today ws (addDaysISO ws 6) = true).
Proof.
  intros Htz Hpay today shift ws.
  destruct (week_start_days tz entry payday Htz Hpay)
    as (Hb1 & Hb2 & Ha1 & Ha2). fold today shift in Hb1, Hb2, Ha1, Ha2.
  subst ws. unfold Clock.weekStartForIncomeEntryISO, Clock.getDay. fold today.
  destruct notice as [n|].
  - destruct (Z.eqb_spec (Dashboard.getDay today) n) as [Heq|Hne].
    + fold shift. split; [exact Ha1|]. split.
      * intros _. split; [exact Ha2|]. intros Hday.
        destruct (Z.eq_dec (Clock.nextDowISO tz entry payday + shift)%Z today)
          as [Hsame|Hdiff]; [|lia].
        rewrite Hsame in Ha1. contradiction.
      * intros Hno. exfalso. apply Hno. rewrite Heq. reflexivity.
    + fold shift. split; [exact Hb1|]. split.
      * intros [= Heq]. exfalso. apply Hne. symmetry. exact Heq.
      * intros _. unfold isISOInRange, addDaysISO.
        apply andb_true_intro. split; apply Z.leb_le; lia.
  - fold shift. split; [exact Hb1|]. split; [discriminate|].
    intros _. unfold isISOInRange, addDaysISO.
    apply andb_true_intro. split; apply Z.leb_le; lia.
Qed.

Lemma income_entry_week_witness :
  (- Clock.msPerDay < 0 < Clock.msPerDay)%Z /\ (0 <= 5 < 7)%Z /\
  Dashboard.getDay (Clock.weekStartForIncomeEntryISO 0%Z 1000%Z 5%Z (Some 4%Z) + 0)%Z = 5%Z.
Proof.
  assert (Htz : (- Clock.msPerDay < 0 < Clock.msPerDay)%Z) by (vm_compute; split; reflexivity).
  assert (Hdow : (0 <= 5 < 7)%Z) by lia.
  split; [exact Htz|]. split; [exact Hdow|].
  apply (income_entry_week 0%Z 1000%Z 5%Z (Some 4%Z) Htz Hdow).
Defined.

(** ** Unmapped categories *)

Lemma Set_add_In (set : list string) (x y : string) :
  In y (Dashboard.Set_add set x) <-> In y set \/ y = x.
Proof.
  unfold Dashboard.Set_add. destruct (existsb (String.eqb x) set) eqn:Hex.
  - split; [intros H; left; exact H|]. intros [H| ->]; [exact H|].
    apply existsb_exists in Hex. destruct Hex as (z & Hz & Heq).
    apply String.eqb_eq in Heq. subst z. exact Hz.
  - rewrite in_app_iff. cbn [In]. split.
    + intros [H|[<-|[]]]; [left; exact H | right; reflexivity].
    + intros [H| ->]; [left; exact H | right; left; reflexivity].
Qed.

Lemma NoDup_snoc {A : Type} (l : list A) (x : A) :
  ~ In x l -> List.NoDup l -> List.NoDup (l ++ [x])%list.
Proof.
  induction l as [|y l IH]; intros Hx Hnd; cbn [app].
  - constructor; [intros []|constructor].
  - inversion Hnd as [|? ? Hy Hl]; subst. constructor.
    + rewrite in_app_iff. cbn [In].
      intros [H|[H|[]]]; [exact (Hy H) | apply Hx; left; symmetry; exact H].
    + apply IH; [intros H; apply Hx; right; exact H | exact Hl].
Qed.

Lemma Set_add_NoDup (set : list string) (x : string) :
  List.NoDup set -> List.NoDup (Dashboard.Set_add set x).
Proof.
  intros Hnd. unfold Dashboard.Set_add.
  destruct (existsb (String.eqb x) set) eqn:Hex; [exact Hnd|].
  apply NoDup_snoc; [|exact Hnd]. intros Hy.
  assert (existsb (String.eqb x) set = true) as Htrue
    by (apply existsb_exists; exists x; split; [exact Hy | apply String.eqb_refl]).
  congruence.
Qed.

Lemma sortInsert_In (x y : string) (l : list string) :
  In y (Dashboard.sortInsert x l) <-> y = x \/ In y l.
Proof.
  induction l as [|z l IH]; cbn [Dashboard.sortInsert In].
  - split; [intros [<-|[]]; left; reflexivity | intros [-> |[]]; left; reflexivity].
  - destruct (String.leb x z); cbn [In]; [split; intros [<-|H]; auto|].
    rewrite IH. split; [intros [H|[H|H]] | intros [H|[H|H]]]; auto.
Qed.

Lemma sort_In (y : string) (l : list string) : In y (Dashboard.sort l) <-> In y l.
Proof.
  induction l as [|x l IH]; [reflexivity|].
  unfold Dashboard.sort in *. cbn [fold_right In]. rewrite sortInsert_In, IH.
  split; intros [H|H]; auto.
Qed.

Lemma sortInsert_NoDup (x : string) (l : list string) :
  ~ In x l -> List.NoDup l -> List.NoDup (Dashboard.sortInsert x l).
Proof.
  induction l as [|z l IH]; intros Hx Hnd; cbn [Dashboard.sortInsert].
  - constructor; [intros []|constructor].
  - destruct (String.leb x z); [constructor; assumption|].
    inversion Hnd as [|? ? Hz Hl]; subst.
    constructor.
    + rewrite sortInsert_In. intros [-> |H]; [apply Hx; left; reflexivity | exact (Hz H)].
    + apply IH; [intros H; apply Hx; right; exact H | exact Hl].
Qed.

Lemma sort_NoDup (l : list string) : List.NoDup l -> List.NoDup (Dashboard.sort l).
Proof.
  induction l as [|x l IH]; intros Hnd; [constructor|].
  inversion Hnd as [|? ? Hx Hl]; subst.
  unfold Dashboard.sort in *. cbn [fold_right].
  apply sortInsert_NoDup; [rewrite (sort_In x l); exact Hx | apply IH, Hl].
Qed.

Lemma sortInsert_Sorted (x : string) (l : list string) :
  Sorted (fun a b => String.leb a b = true) l ->
  Sorted (fun a b => String.leb a b = true) (Dashboard.sortInsert x l).
Proof.
  induction l as [|z l IH]; intros Hs; cbn [Dashboard.sortInsert].
  - repeat constructor.
  - destruct (String.leb x z) eqn:Hle.
    + constructor; [exact Hs | constructor; exact Hle].
    + inversion Hs as [|? ? Hl Hhd]; subst. constructor; [apply IH, Hl|].
      assert (Hzx : String.leb z x = true)
        by (destruct (String.leb_total x z) as [H|H]; [congruence | exact H]).
      destruct l as [|y l]; cbn [Dashboard.sortInsert]; [constructor; exact Hzx|].
      destruct (String.leb x y); constructor; [exact Hzx|].
      inversion Hhd; subst. assumption.
Qed.

Lemma sort_Sorted (l : list string) :
  Sorted (fun a b => String.leb a b = true) (Dashboard.sort l).
Proof.
  induction l as [|x l IH]; [constructor|].
  unfold Dashboard.sort in *. cbn [fold_right]. apply sortInsert_Sorted, IH.
Qed.

(** X6. The list of unmapped categories holds exactly the categories of
    the week's transactions that are neither locked to a bucket nor in
    the category map, each once and in ascending order; a transaction
    with one of them counts for no bucket. *)
Theorem unmapped_categories_listed
    (transactions : list Transaction.t) (md : gmap string string) :
  let l := Dashboard.unmappedCategories transactions md in
  (forall c : string,
     In c l <->
     exists t, In t transactions /\ Transaction.category t = c /\
               Dashboard.Parsed.bucket (Dashboard.splitStoredCategory c) = None /\
               md !! c = None) /\
  List.NoDup l /\
  Sorted (fun a b => String.leb a b = true) l /\
  (forall t, In t transactions -> In (Transaction.category t) l -> spec_bucket md t = None).
Proof.
  intros l. subst l. unfold Dashboard.unmappedCategories.
  set (f := fun (set : list string) (t : Transaction.t) => _).
  assert (Hgen : forall txs init,
            List.NoDup init ->
            List.NoDup (fold_left f txs init) /\
            forall c, In c (fold_left f txs init) <->
                      In c init \/
                      exists t, In t txs /\ Transaction.category t = c /\
                        Dashboard.Parsed.bucket (Dashboard.splitStoredCategory c) = None /\
                        md !! c = None).
  { induction txs as [|t txs IH]; intros init Hnd; cbn [fold_left].
    - split; [exact Hnd|]. intros c. split; [intros H; left; exact H|].
      intros [H|(t & [] & _)]. exact H.
    - assert (Hstep : List.NoDup (f init t) /\
                forall c, In c (f init t) <->
                  In c init \/
                  (Transaction.category t = c /\
                   Dashboard.Parsed.bucket (Dashboard.splitStoredCategory c) = None /\
                   md !! c = None)).
      { subst f. cbv beta zeta.
        destruct (Dashboard.Parsed.bucket
                    (Dashboard.splitStoredCategory (Transaction.category t))) as [b|] eqn:Hb.
        - split; [exact Hnd|]. intros c. split; [intros H; left; exact H|].
          intros [H|(<- & Hn & _)]; [exact H | congruence].
        - destruct (md !! Transaction.category t) as [v|] eqn:Hm.
          + split; [exact Hnd|]. intros c. split; [intros H; left; exact H|].
            intros [H|(<- & _ & Hn)]; [exact H | congruence].
          + split; [apply Set_add_NoDup, Hnd|]. intros c. rewrite Set_add_In.
            split; [intros [H| ->]; [left; exact H | right; auto]|].
            intros [H|(<- & _)]; [left; exact H | right; reflexivity]. }
      destruct Hstep as [Hnd1 Hin1].
      destruct (IH (f init t) Hnd1) as [Hnd2 Hin2].
      split; [exact Hnd2|]. intros c. rewrite Hin2, Hin1. cbn [In]. split.
      + intros [[H|H]|(t' & Ht' & H)];
          [left; exact H | right; exists t; split; [left; reflexivity | exact H]
          | right; exists t'; split; [right; exact Ht' | exact H]].
      + intros [H|(t' & [<-|Ht'] & H)];
          [left; left; exact H | left; right; exact H
          | right; exists t'; split; [exact Ht' | exact H]]. }
  destruct (Hgen transactions [] (List.NoDup_nil _)) as [Hnd Hin].
  assert (Hmem : forall c : string,
            In c (Dashboard.sort (fold_left f transactions [])) <->
            exists t, In t transactions /\ Transaction.category t = c /\
                      Dashboard.Parsed.bucket (Dashboard.splitStoredCategory c) = None /\
                      md !! c = None).
  { intros c. rewrite sort_In, Hin. cbn [In]. split; [intros [[]|H]; exact H | intros H; right; exact H]. }
  split; [exact Hmem|]. split; [apply sort_NoDup, Hnd|]. split; [apply sort_Sorted|].
  intros t _ Hc. apply Hmem in Hc. destruct Hc as (t' & _ & Heq & Hb & Hm).
  unfold spec_bucket. rewrite Hb. exact Hm.
Qed.

(** ** Totals of the week *)

Lemma fold_left_sum {A : Type} (f : A -> Q) (l : list A) (a : Q) :
  fold_left (fun s r => s + f r) l a == a + sumQ (map f l).
Proof.
  revert a. induction l as [|x l IH]; intros a; cbn [fold_left map].
  - change (sumQ []) with 0. ring.
  - rewrite IH, sumQ_cons. ring.
Qed.

Lemma rows_cents
    (budgets : list (Budget.t Q)) (transactions : list Transaction.t)
    (md : gmap string string) (transfers : list BucketTransfer.t) :
  let rws := Dashboard.rows budgets transactions md transfers in
  Forall whole_cents (map Dashboard.Row.budgeted rws) /\
  Forall whole_cents (map Dashboard.Row.spent rws) /\
  Forall whole_cents (map Dashboard.Row.variance rws).
Proof.
  unfold Dashboard.rows. cbv zeta. rewrite !map_map.
  cbn [Dashboard.Row.budgeted Dashboard.Row.spent Dashboard.Row.variance].
  split; [|split]; apply Forall_map, Forall_forall; intros b _; apply whole_cents_clamp2.
Qed.

Lemma sumQ_minus {A : Type} (f g : A -> Q) (l : list A) :
  sumQ (map (fun x => f x - g x) l) == sumQ (map f l) - sumQ (map g l).
Proof.
  induction l as [|x l IH]; cbn [map]; [reflexivity|].
  rewrite !sumQ_cons, IH. ring.
Qed.

Lemma sumQ_ext {A : Type} (f g : A -> Q) (l : list A) :
  (forall x, In x l -> f x == g x) -> sumQ (map f l) == sumQ (map g l).
Proof.
  induction l as [|x l IH]; intros H; cbn [map]; [reflexivity|].
  rewrite !sumQ_cons, (H x) by (left; reflexivity).
  rewrite IH; [reflexivity|]. intros y Hy. apply H. right. exact Hy.
Qed.

Lemma totals_sums
    (budgets : list (Budget.t Q)) (transactions : list Transaction.t)
    (md : gmap string string) (transfers : list BucketTransfer.t) :
  let rws := Dashboard.rows budgets transactions md transfers in
  let t := Dashboard.totals rws in
  Dashboard.Totals.totalBudgeted t == sumQ (map Dashboard.Row.budgeted rws) /\
  Dashboard.Totals.totalSpent t == sumQ (map Dashboard.Row.spent rws) /\
  Dashboard.Totals.totalVariance t
  == Dashboard.Totals.totalBudgeted t - Dashboard.Totals.totalSpent t /\
  Dashboard.Totals.totalVariance t == sumQ (map Dashboard.Row.variance rws).
Proof.
  intros rws t.
  destruct (rows_cents budgets transactions md transfers) as (Hb & Hs & Hv).
  fold rws in Hb, Hs, Hv.
  pose proof (whole_cents_sumQ _ Hb) as Hbs. pose proof (whole_cents_sumQ _ Hs) as Hss.
  unfold whole_cents in Hbs, Hss.
  subst t. unfold Dashboard.totals.
  cbn [Dashboard.Totals.totalBudgeted Dashboard.Totals.totalSpent
       Dashboard.Totals.totalVariance].
  assert (HB : fold_left (fun s r => s + Dashboard.Row.budgeted r) rws 0
               == sumQ (map Dashboard.Row.budgeted rws))
    by (rewrite fold_left_sum; ring).
  assert (HS : fold_left (fun s r => s + Dashboard.Row.spent r) rws 0
               == sumQ (map Dashboard.Row.spent rws))
    by (rewrite fold_left_sum; ring).
  rewrite HB, HS, Hbs, Hss.
  assert (Hd : whole_cents (sumQ (map Dashboard.Row.budgeted rws)
                            - sumQ (map Dashboard.Row.spent rws))).
  { apply whole_cents_minus; apply whole_cents_sumQ; assumption. }
  unfold whole_cents in Hd. rewrite Hd.
  split; [reflexivity|]. split; [reflexivity|]. split; [reflexivity|].
  rewrite <- sumQ_minus. apply sumQ_ext. intros r Hr.
  subst rws. unfold Dashboard.rows in Hr. cbv zeta in Hr.
  apply in_map_iff in Hr. destruct Hr as (b & <- & _).
  cbn [Dashboard.Row.budgeted Dashboard.Row.spent Dashboard.Row.variance].
  symmetry. apply whole_cents_minus; apply whole_cents_clamp2.
Qed.

(** X7. The totals under the cards add up: the total budgeted and the
    total spent are the sums of the five rows, and the total variance is
    their difference, which is also the sum of the five variances.
    Rounding changes nothing there, the rows being in whole cents. *)
Theorem totals_add_up
    (budgets : list (Budget.t Q)) (transactions : list Transaction.t)
    (md : gmap string string) (transfers : list BucketTransfer.t) :
  let rws := Dashboard.rows budgets transactions md transfers in
  let t := Dashboard.totals rws in
  Dashboard.Totals.totalBudgeted t == sumQ (map Dashboard.Row.budgeted rws) /\
  Dashboard.Totals.totalSpent t == sumQ (map Dashboard.Row.spent rws) /\
  Dashboard.Totals.totalVariance t
  == Dashboard.Totals.totalBudgeted t - Dashboard.Totals.totalSpent t /\
  Dashboard.Totals.totalVariance t == sumQ (map Dashboard.Row.variance rws).
Proof. exact (totals_sums budgets transactions md transfers). Qed.

Lemma budgeted_of_rows
    (budgets : list (Budget.t Q)) (transactions : list Transaction.t)
    (md : gmap string string) (transfers : list BucketTransfer.t) :
  sumQ (map Dashboard.Row.budgeted (Dashboard.rows budgets transactions md transfers))
  == sumQ (map (fun b => clamp2 (spec_budgeted budgets transfers b)) Dashboard.BUCKETS).
Proof.
  unfold Dashboard.rows. cbv zeta. rewrite map_map.
  cbn [Dashboard.Row.budgeted]. apply sumQ_ext. intros b _.
  apply clamp2_comp. unfold Dashboard.baseBudgetByBucket, Dashboard.deltaByBucket.
  rewrite base_lookup, delta_lookup, !get0_empty. unfold spec_budgeted. ring.
Qed.

(** What flows into the five buckets and what flows out of them. *)
Lemma inflow_total (transfers : list BucketTransfer.t) :
  Forall (fun t => In (BucketTransfer.to_bucket t) Dashboard.BUCKETS) transfers ->
  sumQ (map (fun b =>
               sumQ (map BucketTransfer.amount
                       (List.filter (fun tr => String.eqb (BucketTransfer.to_bucket tr) b)
                          transfers)))
          Dashboard.BUCKETS)
  == sumQ (map BucketTransfer.amount transfers).
Proof.
  change Dashboard.BUCKETS with ["save"; "wants"; "emergency"; "student loans"; "expenses"].
  induction 1 as [|t ts Ht _ IH]; [reflexivity|].
  cbn [map] in IH |- *. rewrite !sumQ_cons in IH. rewrite !sumQ_cons.
  change (sumQ []) with 0 in IH |- *.
  cbn [List.filter]. cbn in Ht.
  destruct Ht as [Ht|[Ht|[Ht|[Ht|[Ht|[]]]]]]; rewrite <- Ht;
    cbn [String.eqb Ascii.eqb Bool.eqb map]; rewrite ?sumQ_cons; lra.
Qed.

Lemma outflow_total (transfers : list BucketTransfer.t) :
  Forall (fun t => In (BucketTransfer.from_bucket t) Dashboard.BUCKETS) transfers ->
  sumQ (map (fun b =>
               sumQ (map BucketTransfer.amount
                       (List.filter (fun tr => String.eqb (BucketTransfer.from_bucket tr) b)
                          transfers)))
          Dashboard.BUCKETS)
  == sumQ (map BucketTransfer.amount transfers).
Proof.
  change Dashboard.BUCKETS with ["save"; "wants"; "emergency"; "student loans"; "expenses"].
  induction 1 as [|t ts Ht _ IH]; [reflexivity|].
  cbn [map] in IH |- *. rewrite !sumQ_cons in IH. rewrite !sumQ_cons.
  change (sumQ []) with 0 in IH |- *.
  cbn [List.filter]. cbn in Ht.
  destruct Ht as [Ht|[Ht|[Ht|[Ht|[Ht|[]]]]]]; rewrite <- Ht;
    cbn [String.eqb Ascii.eqb Bool.eqb map]; rewrite ?sumQ_cons; lra.
Qed.

Lemma base_total (budgets : list (Budget.t Q)) :
  Forall (fun b => In (Budget.category b) Dashboard.BUCKETS) budgets ->
  sumQ (map (fun b =>
               sumQ (map Budget.amount
                       (List.filter (fun x => String.eqb (Budget.category x) b) budgets)))
          Dashboard.BUCKETS)
  == sumQ (map Budget.amount budgets).
Proof.
  change Dashboard.BUCKETS with ["save"; "wants"; "emergency"; "student loans"; "expenses"].
  induction 1 as [|t ts Ht _ IH]; [reflexivity|].
  cbn [map] in IH |- *. rewrite !sumQ_cons in IH. rewrite !sumQ_cons.
  change (sumQ []) with 0 in IH |- *.
  cbn [List.filter]. cbn in Ht.
  destruct Ht as [Ht|[Ht|[Ht|[Ht|[Ht|[]]]]]]; rewrite <- Ht;
    cbn [String.eqb Ascii.eqb Bool.eqb map]; rewrite ?sumQ_cons; lra.
Qed.

Lemma sumQ_plus {A : Type} (f g : A -> Q) (l : list A) :
  sumQ (map (fun x => f x + g x) l) == sumQ (map f l) + sumQ (map g l).
Proof.
  induction l as [|x l IH]; cbn [map]; [reflexivity|].
  rewrite !sumQ_cons, IH. ring.
Qed.

Lemma total_budgeted_conserved
    (budgets : list (Budget.t Q)) (transactions : list Transaction.t)
    (md : gmap string string) (transfers : list BucketTransfer.t) :
  Forall (fun b => whole_cents (Budget.amount b)) budgets ->
  Forall (fun t => whole_cents (BucketTransfer.amount t)) transfers ->
  Forall (fun t => In (BucketTransfer.from_bucket t) Dashboard.BUCKETS /\
                   In (BucketTransfer.to_bucket t) Dashboard.BUCKETS) transfers ->
  Dashboard.Totals.totalBudgeted
    (Dashboard.totals (Dashboard.rows budgets transactions md transfers))
  == sumQ (map (fun b =>
                  sumQ (map Budget.amount
                          (List.filter (fun x => String.eqb (Budget.category x) b) budgets)))
             Dashboard.BUCKETS).
Proof.
  intros Hb Ht Hk.
  destruct (totals_sums budgets transactions md transfers) as (-> & _).
  rewrite budgeted_of_rows.
  rewrite (sumQ_ext _ (fun b => spec_budgeted budgets transfers b))
    by (intros b _; apply (spec_budgeted_cents _ _ b Hb Ht)).
  unfold spec_budgeted.
  rewrite (sumQ_minus
             (fun b => sumQ (map Budget.amount
                               (List.filter (fun x => String.eqb (Budget.category x) b) budgets))
                       + sumQ (map BucketTransfer.amount
                                 (List.filter
                                    (fun tr => String.eqb (BucketTransfer.to_bucket tr) b)
                                    transfers)))
             (fun b => sumQ (map BucketTransfer.amount
                               (List.filter
                                  (fun tr => String.eqb (BucketTransfer.from_bucket tr) b)
                                  transfers)))).
  rewrite sumQ_plus, inflow_total, outflow_total; [ring| |].
  - eapply Forall_impl; [exact Hk|]. intros t [H _]. exact H.
  - eapply Forall_impl; [exact Hk|]. intros t [_ H]. exact H.
Qed.

(** X8. Transfers between the five buckets move money without creating
    any: with budgets and transfers in whole cents, the total budgeted
    is what it would be without the transfers, and it is the sum of the
    week's budget rows when each of them is for one of the five
    buckets. *)
Theorem transfers_keep_total_budgeted
    (budgets : list (Budget.t Q)) (transactions : list Transaction.t)
    (md : gmap string string) (transfers : list BucketTransfer.t) :
  Forall (fun b => whole_cents (Budget.amount b)) budgets ->
  Forall (fun t => whole_cents (BucketTransfer.amount t)) transfers ->
  Forall (fun t => In (BucketTransfer.from_bucket t) Dashboard.BUCKETS /\
                   In (BucketTransfer.to_bucket t) Dashboard.BUCKETS) transfers ->
  let total trs :=
    Dashboard.Totals.totalBudgeted
      (Dashboard.totals (Dashboard.rows budgets transactions md trs)) in
  total transfers == total [] /\
  (Forall (fun b => In (Budget.category b) Dashboard.BUCKETS) budgets ->
   total transfers == sumQ (map Budget.amount budgets)).
Proof.
  intros Hb Ht Hk total. subst total. cbv beta.
  rewrite (total_budgeted_conserved budgets transactions md transfers Hb Ht Hk).
  rewrite (total_budgeted_conserved budgets transactions md [] Hb)
    by constructor.
  split; [reflexivity|]. intros Hcat. apply base_total, Hcat.
Qed.

Lemma transfers_keep_total_budgeted_witness :
  let budgets := Dashboard.buildBudgetInsertsExactTotal "u" 1%Z 100 in
  let transfers := [BucketTransfer.mk "u" 1%Z "wants" "expenses" 15] in
  Forall (fun b => whole_cents (Budget.amount b)) budgets /\
  Forall (fun t => whole_cents (BucketTransfer.amount t)) transfers /\
  Forall (fun t => In (BucketTransfer.from_bucket t) Dashboard.BUCKETS /\
                   In (BucketTransfer.to_bucket t) Dashboard.BUCKETS) transfers /\
  Dashboard.Totals.totalBudgeted
    (Dashboard.totals (Dashboard.rows budgets [] ∅ transfers))
  == Dashboard.Totals.totalBudgeted (Dashboard.totals (Dashboard.rows budgets [] ∅ [])).
Proof.
  cbv zeta.
  assert (Hb : Forall (fun b => whole_cents (Budget.amount b))
                 (Dashboard.buildBudgetInsertsExactTotal "u" 1%Z 100))
    by (repeat constructor; vm_compute; reflexivity).
  assert (Ht : Forall (fun t => whole_cents (BucketTransfer.amount t))
                 [BucketTransfer.mk "u" 1%Z "wants" "expenses" 15])
    by (repeat constructor; vm_compute; reflexivity).
  assert (Hk : Forall (fun t => In (BucketTransfer.from_bucket t) Dashboard.BUCKETS /\
                                In (BucketTransfer.to_bucket t) Dashboard.BUCKETS)
                 [BucketTransfer.mk "u" 1%Z "wants" "expenses" 15])
    by (repeat constructor; cbn; tauto).
  split; [exact Hb|]. split; [exact Ht|]. split; [exact Hk|].
  apply (transfers_keep_total_budgeted _ [] ∅ _ Hb Ht Hk).
Defined.

(** ** The cover menu *)

Lemma trim_bucket (b : string) :
  In b Dashboard.BUCKETS -> JS.trim b = b /\ JS.truthy b = true.
Proof.
  intros Hin. cbn in Hin.
  destruct Hin as [<-|[<-|[<-|[<-|[<-|[]]]]]]; split; reflexivity.
Qed.

Lemma coverOptions_In
    (rws : list Dashboard.Row.t) (cs : gset string) (r : Dashboard.Row.t) (b : string) :
  In b (Dashboard.coverOptions rws cs r) <->
  In b Dashboard.BUCKETS /\ b <> Dashboard.Row.category r /\
  0 < Dashboard.availableFromBucket rws cs b.
Proof.
  unfold Dashboard.coverOptions. rewrite filter_In, andb_true_iff, !negb_true_iff.
  rewrite String.eqb_neq.
  assert (Hq : Qle_bool (Dashboard.availableFromBucket rws cs b) 0 = false <->
               0 < Dashboard.availableFromBucket rws cs b).
  { split.
    - intros H. apply Qnot_le_lt. intros Hle. apply Qle_bool_iff in Hle. congruence.
    - intros H. destruct (Qle_bool _ 0) eqn:Hle; [|reflexivity].
      apply Qle_bool_iff in Hle. lra. }
  rewrite Hq. tauto.
Qed.



(** ** Adding a week again *)

Lemma sameWeek_refl (uid : string) (ws : date) : sameWeek uid ws uid ws = true.
Proof. unfold sameWeek. rewrite String.eqb_refl, Z.eqb_refl. reflexivity. Qed.

Lemma sameWeek_eq (uid : string) (ws : date) (uid' : string) (ws' : date) :
  sameWeek uid ws uid' ws' = true <-> uid' = uid /\ ws' = ws.
Proof.
  unfold sameWeek. rewrite andb_true_iff, String.eqb_eq, Z.eqb_eq. reflexivity.
Qed.

Lemma sameWeek_other (uid : string) (ws : date) (uid' : string) (ws' : date) :
  (uid', ws') <> (uid, ws) -> sameWeek uid' ws' uid ws = false.
Proof.
  intros Hne. destruct (sameWeek uid' ws' uid ws) eqn:H; [|reflexivity].
  apply sameWeek_eq in H. destruct H as [-> ->]. contradiction.
Qed.

Lemma build_week (uid : string) (ws : date) (income : JS.number) :
  Forall (fun b => Budget.user_id b = uid /\ Budget.week_start b = ws /\
                   In (Budget.category b) Dashboard.BUCKETS)
    (map stored (Dashboard.buildBudgetInsertsExactTotal uid ws income)).
Proof. rewrite build_shape. repeat constructor; cbn; tauto. Qed.

Lemma filter_all {A : Type} (f : A -> bool) (l : list A) :
  Forall (fun x => f x = true) l -> List.filter f l = l.
Proof.
  induction 1 as [|x l Hx _ IH]; [reflexivity|]. cbn [List.filter]. rewrite Hx, IH. reflexivity.
Qed.

Lemma filter_none {A : Type} (f : A -> bool) (l : list A) :
  Forall (fun x => f x = false) l -> List.filter f l = [].
Proof.
  induction 1 as [|x l Hx _ IH]; [reflexivity|]. cbn [List.filter]. rewrite Hx, IH. reflexivity.
Qed.

Lemma filter_filter_neg {A : Type} (f : A -> bool) (l : list A) :
  List.filter f (List.filter (fun x => negb (f x)) l) = [].
Proof.
  apply filter_none, List.Forall_forall. intros x Hx. apply filter_In in Hx.
  destruct Hx as [_ Hx]. apply negb_true_iff in Hx. exact Hx.
Qed.

Lemma filter_filter_other {A : Type} (f g : A -> bool) (l : list A) :
  (forall x, g x = true -> f x = false) ->
  List.filter g (List.filter (fun x => negb (f x)) l) = List.filter g l.
Proof.
  intros Hfg. induction l as [|x l IH]; [reflexivity|]. cbn [List.filter].
  destruct (f x) eqn:Hf; cbn [negb List.filter].
  - destruct (g x) eqn:Hg; [rewrite (Hfg x Hg) in Hf; discriminate | exact IH].
  - destruct (g x); [rewrite IH; reflexivity | exact IH].
Qed.

Lemma rebuild_accepted
    (env : Env.t) (uid : string) (ws : date) (income : JS.number)
    (w : World.t) (s : Dashboard.State.t) :
  Dashboard.ensureSignedIn env = true -> Env.user env = Some uid ->
  (forall r, Env.fails env r = false) ->
  exists log,
    Dashboard.rebuildBudgetsForWeek env ws income w s
    = (true, World.mk (rebuilt uid ws income (World.store w)) log, s).
Proof.
  intros Hsess Huser Hok. unfold Dashboard.rebuildBudgetsForWeek, request.
  rewrite Hsess, Huser. cbn [negb]. rewrite !Hok. cbn [World.store World.log].
  rewrite ?Hok. eexists. reflexivity.
Qed.

Lemma rebuilt_tables (uid : string) (ws : date) (income : JS.number) (st : Store.t) :
  let st' := rebuilt uid ws income st in
  Store.budgets st'
  = (List.filter (fun x => negb (sameWeek uid ws (Budget.user_id x) (Budget.week_start x)))
       (Store.budgets st)
     ++ map stored (Dashboard.buildBudgetInsertsExactTotal uid ws income))%list /\
  Store.bucket_transfers st'
  = List.filter
      (fun x => negb (sameWeek uid ws (BucketTransfer.user_id x) (BucketTransfer.week_start x)))
      (Store.bucket_transfers st) /\
  Store.transactions st' = Store.transactions st /\
  Store.category_map st' = Store.category_map st /\
  Store.bucket_collections st' = Store.bucket_collections st /\
  Store.collections st' = Store.collections st /\
  Store.weekly_income st'
  = Store.weekly_income (apply (UpsertWeeklyIncome uid ws (clamp2 income)) st).
Proof.
  destruct st as [wi bu tx cm tr bc co]. unfold rebuilt. cbn [apply].
  destruct (existsb _ wi); cbn [apply Store.budgets Store.bucket_transfers Store.transactions
    Store.category_map Store.bucket_collections Store.collections Store.weekly_income];
    repeat split; reflexivity.
Qed.

Lemma find_app_l {A : Type} (f : A -> bool) (l1 l2 : list A) :
  find f (l1 ++ l2)%list
  = match find f l1 with Some x => Some x | None => find f l2 end.
Proof.
  induction l1 as [|x l1 IH]; [reflexivity|]. cbn [app find].
  destruct (f x); [reflexivity | exact IH].
Qed.

Lemma upsert_find (uid : string) (ws : date) (amount : JS.number) (st : Store.t)
    (uid' : string) (ws' : date) :
  let hit u w x := sameWeek u w (WeeklyIncome.user_id x) (WeeklyIncome.week_start x) in
  find (hit uid' ws') (Store.weekly_income (apply (UpsertWeeklyIncome uid ws amount) st))
  = if sameWeek uid ws uid' ws'
    then Some (WeeklyIncome.mk uid ws (storedAmount amount))
    else find (hit uid' ws') (Store.weekly_income st).
Proof.
  intros hit. destruct st as [wi bu tx cm tr bc co]. cbn [apply].
  change (fun x => sameWeek uid ws (WeeklyIncome.user_id x) (WeeklyIncome.week_start x))
    with (hit uid ws).
  set (row := WeeklyIncome.mk uid ws (storedAmount amount)).
  assert (Hrow : forall u w, hit u w row = sameWeek u w uid ws) by reflexivity.
  assert (Hsym : sameWeek uid' ws' uid ws = sameWeek uid ws uid' ws').
  { unfold sameWeek. rewrite (String.eqb_sym uid uid'), (Z.eqb_sym ws ws'). reflexivity. }
  destruct (existsb (hit uid ws) wi) eqn:Hex; cbn [Store.weekly_income].
  - destruct (sameWeek uid ws uid' ws') eqn:Hsame.
    + apply sameWeek_eq in Hsame. destruct Hsame as [-> ->].
      induction wi as [|x wi IH]; [discriminate Hex|].
      cbn [existsb map find] in Hex |- *.
      change (sameWeek uid ws (WeeklyIncome.user_id x) (WeeklyIncome.week_start x))
        with (hit uid ws x).
      destruct (hit uid ws x) eqn:Hx.
      * rewrite Hrow, sameWeek_refl. reflexivity.
      * rewrite Hx. cbn [orb] in Hex. apply IH, Hex.
    + clear Hex. induction wi as [|x wi IH]; [reflexivity|].
      cbn [map find].
      change (sameWeek uid ws (WeeklyIncome.user_id x) (WeeklyIncome.week_start x))
        with (hit uid ws x).
      destruct (hit uid ws x) eqn:Hx.
      * rewrite Hrow, Hsym.
        assert (Hx' : hit uid' ws' x = false).
        { destruct (hit uid' ws' x) eqn:Hx'; [|reflexivity].
          apply sameWeek_eq in Hx, Hx'. destruct Hx as [H1 H2]. destruct Hx' as [H3 H4].
          assert (sameWeek uid ws uid' ws' = true)
            by (apply sameWeek_eq; split; congruence).
          congruence. }
        rewrite Hx'. exact IH.
      * destruct (hit uid' ws' x); [reflexivity | exact IH].
  - rewrite find_app_l.
    destruct (find (hit uid' ws') wi) as [y|] eqn:Hfind.
    + destruct (sameWeek uid ws uid' ws') eqn:Hsame; [|reflexivity].
      apply sameWeek_eq in Hsame. destruct Hsame as [-> ->].
      apply find_some in Hfind. destruct Hfind as [Hin Hy].
      assert (existsb (hit uid ws) wi = true)
        by (apply existsb_exists; exists y; split; assumption).
      congruence.
    + cbn [find]. rewrite Hrow, Hsym. destruct (sameWeek uid ws uid' ws'); reflexivity.
Qed.

Lemma rebuilt_week (uid : string) (ws : date) (income : JS.number) (st : Store.t) :
  let st' := rebuilt uid ws income st in
  let budgetsOf u w s :=
    List.filter (fun x => sameWeek u w (Budget.user_id x) (Budget.week_start x))
      (Store.budgets s) in
  let transfersOf u w s :=
    List.filter
      (fun x => sameWeek u w (BucketTransfer.user_id x) (BucketTransfer.week_start x))
      (Store.bucket_transfers s) in
  budgetsOf uid ws st' = map stored (Dashboard.buildBudgetInsertsExactTotal uid ws income) /\
  transfersOf uid ws st' = [] /\
  forall uid' ws',
    sameWeek uid ws uid' ws' = false ->
    budgetsOf uid' ws' st' = budgetsOf uid' ws' st /\
    transfersOf uid' ws' st' = transfersOf uid' ws' st.
Proof.
  intros st' budgetsOf transfersOf. subst budgetsOf transfersOf. cbv beta.
  destruct (rebuilt_tables uid ws income st) as (Hb & Ht & _). fold st' in Hb, Ht.
  rewrite Hb, Ht. clear Hb Ht.
  pose proof (build_week uid ws income) as Hrows.
  split; [|split].
  - rewrite List.filter_app,
      (filter_filter_neg
         (fun x => sameWeek uid ws (Budget.user_id x) (Budget.week_start x))).
    cbn [app]. apply filter_all. eapply Forall_impl; [exact Hrows|].
    intros b (Hu & Hw & _). cbv beta. rewrite Hu, Hw. apply sameWeek_refl.
  - apply (filter_filter_neg
             (fun x => sameWeek uid ws (BucketTransfer.user_id x)
                         (BucketTransfer.week_start x))).
  - intros uid' ws' Hother.
    assert (Hdisj : forall u w, sameWeek uid' ws' u w = true -> sameWeek uid ws u w = false).
    { intros u w H. apply sameWeek_eq in H. destruct H as [-> ->]. exact Hother. }
    split.
    + rewrite List.filter_app.
      rewrite (filter_filter_other
                 (fun x => sameWeek uid ws (Budget.user_id x) (Budget.week_start x))
                 (fun x => sameWeek uid' ws' (Budget.user_id x) (Budget.week_start x)))
        by (intros x; apply Hdisj).
      rewrite (filter_none _ (map stored _)); [apply app_nil_r|].
      eapply Forall_impl; [exact Hrows|].
      intros b (Hu & Hw & _). cbv beta. rewrite Hu, Hw.
      destruct (sameWeek uid' ws' uid ws) eqn:H; [|reflexivity].
      apply sameWeek_eq in H. destruct H as [-> ->].
      rewrite sameWeek_refl in Hother. discriminate Hother.
    + apply (filter_filter_other
               (fun x => sameWeek uid ws (BucketTransfer.user_id x)
                           (BucketTransfer.week_start x))
               (fun x => sameWeek uid' ws' (BucketTransfer.user_id x)
                           (BucketTransfer.week_start x))).
      intros x. apply Hdisj.
Qed.

(** What [loadWeekAll] puts on the page for a signed-in user. *)
Lemma load_fields
    (env : Env.t) (uid : string) (ws : date) (st : Store.t) (s : Dashboard.State.t) :
  Dashboard.ensureSignedIn env = true -> Env.user env = Some uid ->
  let l := Dashboard.loadWeekAll env ws st s in
  let budgets :=
    List.filter (fun x => sameWeek uid ws (Budget.user_id x) (Budget.week_start x))
      (Store.budgets st) in
  Dashboard.State.weekStart l = Some ws /\
  Dashboard.State.errorMsg l = None /\
  Dashboard.State.budgets l = budgets /\
  Dashboard.State.weeklyIncome l
  = find (fun x => sameWeek uid ws (WeeklyIncome.user_id x) (WeeklyIncome.week_start x))
      (Store.weekly_income st) /\
  Dashboard.State.transfers l
  = match budgets with
    | [] => []
    | _ => List.filter
             (fun x => sameWeek uid ws (BucketTransfer.user_id x)
                         (BucketTransfer.week_start x))
             (Store.bucket_transfers st)
    end /\
  Dashboard.State.incomeInput l = Dashboard.State.incomeInput s.
Proof.
  intros Hsess Huser l budgets. subst l budgets.
  unfold Dashboard.loadWeekAll. rewrite Hsess, Huser. cbn [negb].
  destruct (List.filter _ (Store.budgets st)); repeat split; reflexivity.
Qed.

Lemma add_week_accepted
    (env : Env.t) (uid : string) (w : World.t) (s : Dashboard.State.t) :
  Dashboard.ensureSignedIn env = true -> Env.user env = Some uid ->
  (forall r, Env.fails env r = false) ->
  let income := Input.asNumber (Dashboard.State.incomeInput s) in
  JS.truthy (Input.text (Dashboard.State.incomeInput s)) = true ->
  JS.isNaN income = false -> JS.le0 income = false ->
  let ws :=
    match Dashboard.State.newWeekStartDate s with
    | Some d => d
    | None => Dashboard.weekStartForIncomeEntryISO (Env.today env)
                (Dashboard.State.paydayDow s) (Dashboard.State.noticeDow s)
    end in
  let st' := rebuilt uid ws income (World.store w) in
  World.store (fst (Dashboard.addNewWeekFromIncome env w s)) = st' /\
  snd (Dashboard.addNewWeekFromIncome env w s)
  = Dashboard.loadWeekAll env ws st'
      (Dashboard.setIncomeInput Dashboard.blank (Dashboard.setErrorMsg None s)).
Proof.
  intros Hsess Huser Hok income Htext Hnan Hpos ws st'.
  unfold Dashboard.addNewWeekFromIncome.
  cbn [Dashboard.State.incomeInput Dashboard.setErrorMsg Dashboard.State.newWeekStartDate
       Dashboard.State.paydayDow Dashboard.State.noticeDow].
  fold income. rewrite Htext, Hnan, Hpos. cbn [negb orb]. fold ws.
  destruct (rebuild_accepted env uid ws income w (Dashboard.setErrorMsg None s)
              Hsess Huser Hok) as [log Hre].
  change (Dashboard.State.mk (Dashboard.State.weekStart s) (Dashboard.State.budgets s)
            (Dashboard.State.transactions s) (Dashboard.State.weeklyIncome s)
            (Dashboard.State.categoryMap s) (Dashboard.State.transfers s)
            (Dashboard.State.collectedSet s) None (Dashboard.State.coverSource s)
            (Dashboard.State.coverAmount s) (Dashboard.State.incomeInput s)
            (Dashboard.State.newWeekStartDate s) (Dashboard.State.paydayDow s)
            (Dashboard.State.noticeDow s))
    with (Dashboard.setErrorMsg None s).
  rewrite Hre. cbn [negb fst snd World.store]. split; reflexivity.
Qed.



(** ** The total budgeted and the income of the week *)

Lemma ledger_store_same (st st' : Store.t) :
  Store.budgets st' = Store.budgets st ->
  Store.bucket_transfers st' = Store.bucket_transfers st ->
  Store.weekly_income st' = Store.weekly_income st ->
  ledger_store st -> ledger_store st'.
Proof.
  intros Hb Ht Hw ([Hc1 Hc2] & Hk & Hwk).
  split; [split|split].
  - rewrite Hb. exact Hc1.
  - rewrite Ht. exact Hc2.
  - unfold known_transfers. rewrite Ht. exact Hk.
  - intros uid ws. rewrite Hb, Hw. apply Hwk.
Qed.

Lemma ledger_state_same (s s' : Dashboard.State.t) :
  Dashboard.State.budgets s' = Dashboard.State.budgets s ->
  Dashboard.State.transfers s' = Dashboard.State.transfers s ->
  Dashboard.State.weeklyIncome s' = Dashboard.State.weeklyIncome s ->
  ledger_state s -> ledger_state s'.
Proof.
  intros Hb Ht Hw ([Hc1 Hc2] & Hk & Hwk).
  split; [split|split].
  - rewrite Hb. exact Hc1.
  - rewrite Ht. exact Hc2.
  - unfold known_transfers. rewrite Ht. exact Hk.
  - rewrite Hb, Hw. exact Hwk.
Qed.

Lemma ledger_store_transfer (st : Store.t) (row : BucketTransfer.t) :
  whole_cents (BucketTransfer.amount row) ->
  In (BucketTransfer.from_bucket row) Dashboard.BUCKETS ->
  In (BucketTransfer.to_bucket row) Dashboard.BUCKETS ->
  ledger_store st -> ledger_store (apply (InsertTransfer row) st).
Proof.
  intros Hc Hf Ht (Hcs & Hk & Hwk).
  split; [apply apply_keeps_cents; assumption|].
  destruct st as [wi bu tx cm tr bc co]. cbn [apply Store.bucket_transfers
    Store.budgets Store.weekly_income] in *.
  split; [|exact Hwk].
  apply Forall_app. split; [exact Hk|]. constructor; [split; assumption | constructor].
Qed.

Lemma ledger_store_rebuilt (uid : string) (ws : date) (income : JS.number) (st : Store.t) :
  ledger_store st -> ledger_store (rebuilt uid ws income st).
Proof.
  intros (Hcs & Hk & Hwk).
  destruct (rebuilt_tables uid ws income st) as (Hb & Ht & _ & _ & _ & _ & Hwi).
  cbv zeta in Hb, Ht, Hwi.
  split; [|split].
  - destruct Hcs as [Hc1 Hc2]. split.
    + rewrite Hb. apply Forall_app. split; [apply Forall_filter_bool, Hc1|].
      apply Forall_map. apply (build_stored_cents uid ws income).
    + rewrite Ht. apply Forall_filter_bool, Hc2.
  - unfold known_transfers. rewrite Ht. apply Forall_filter_bool, Hk.
  - intros uid' ws'. rewrite Hwi, upsert_find.
    destruct (rebuilt_week uid ws income st) as (Hweek & _ & Hother).
    cbv zeta in Hweek, Hother.
    destruct (sameWeek uid ws uid' ws') eqn:Hsame.
    + apply sameWeek_eq in Hsame. destruct Hsame as [-> ->].
      rewrite Hweek. right. exists uid, ws, income. split; reflexivity.
    + destruct (Hother uid' ws' Hsame) as [-> _]. apply Hwk.
Qed.

Lemma ledger_load
    (env : Env.t) (ws : date) (st : Store.t) (s : Dashboard.State.t) :
  ledger_store st -> ledger_state s ->
  ledger_state (Dashboard.loadWeekAll env ws st s).
Proof.
  intros (Hcs & Hk & Hwk) Hs.
  destruct (Dashboard.ensureSignedIn env) eqn:Hsess;
    [|unfold Dashboard.loadWeekAll; rewrite Hsess; cbn [negb];
      revert Hs; apply ledger_state_same; reflexivity].
  destruct (Env.user env) as [uid|] eqn:Huser;
    [|unfold Dashboard.loadWeekAll; rewrite Hsess, Huser; cbn [negb];
      revert Hs; apply ledger_state_same; reflexivity].
  destruct (load_fields env uid ws st s Hsess Huser) as (_ & _ & Lb & Lw & Lt & _).
  cbv zeta in Lb, Lw, Lt.
  split; [apply loadWeekAll_cents; [exact Hcs | apply Hs]|].
  split.
  - unfold known_transfers. rewrite Lt.
    destruct (List.filter _ (Store.budgets st)); [constructor|].
    apply Forall_filter_bool, Hk.
  - rewrite Lb, Lw. apply Hwk.
Qed.

Lemma step_keeps_ledger
    (env : Env.t) (e : Dashboard.Event) (w : World.t) (s : Dashboard.State.t) :
  ledger_store (World.store w) -> ledger_state s ->
  ledger_store (World.store (fst (Dashboard.step env e (w, s)))) /\
  ledger_state (snd (Dashboard.step env e (w, s))).
Proof.
  intros Hst Hs. destruct e as [target value|target value|target|bucket|bucket];
    cbn [Dashboard.step].
  - split; [exact Hst|]. revert Hs. apply ledger_state_same; reflexivity.
  - split; [exact Hst|]. revert Hs. apply ledger_state_same; reflexivity.
  - destruct (coverOverspend_cases env target w s)
      as [[e ->]|(targetRow & ws & uid & requested & _ & _ & _ & Hfind & _ & Hcase)].
    { split; [exact Hst|]. revert Hs. apply ledger_state_same; reflexivity. }
    cbv zeta in Hcase. destruct Hcase as (_ & Hav & _ & _ & ->).
    destruct (findRow_cents s target targetRow Hfind) as (_ & Htarget & _).
    destruct (available_positive s _ Hav) as [Hfrom _].
    destruct (Env.fails env _); cbn [fst snd World.store].
    { split; [exact Hst|]. revert Hs. apply ledger_state_same; reflexivity. }
    match goal with
    | |- ledger_store (apply (InsertTransfer ?row) _) /\ _ =>
        assert (Hst' : ledger_store (apply (InsertTransfer row) (World.store w)))
    end.
    { apply ledger_store_transfer;
        [apply whole_cents_clamp2 | exact Hfrom | exact Htarget | exact Hst]. }
    split; [exact Hst'|]. apply ledger_load; [exact Hst'|].
    revert Hs. apply ledger_state_same; reflexivity.
  - destruct (clickCollect_cases env bucket w s)
      as [[e ->]|[->|(r & uid & ws & _ & _ & _ & _ & _ & _ & _ & ->)]].
    + split; [exact Hst|]. revert Hs. apply ledger_state_same; reflexivity.
    + split; [exact Hst | exact Hs].
    + destruct (Env.fails env _); cbn [fst snd World.store].
      * split; [exact Hst|]. revert Hs. apply ledger_state_same; reflexivity.
      * split; [|revert Hs; apply ledger_state_same; reflexivity].
        revert Hst. apply ledger_store_same;
          destruct (World.store w); reflexivity.
  - destruct (clickUndo_cases env bucket w s)
      as [[e ->]|[->|(uid & ws & _ & _ & _ & _ & ->)]].
    + split; [exact Hst|]. revert Hs. apply ledger_state_same; reflexivity.
    + split; [exact Hst | exact Hs].
    + destruct (Env.fails env _); cbn [fst snd World.store].
      * split; [exact Hst|]. revert Hs. apply ledger_state_same; reflexivity.
      * split; [|revert Hs; apply ledger_state_same; reflexivity].
        revert Hst. apply ledger_store_same;
          destruct (World.store w); reflexivity.
Qed.

Lemma add_week_keeps_ledger (env : Env.t) (w : World.t) (s : Dashboard.State.t) :
  (forall r, Env.fails env r = false) ->
  ledger_store (World.store w) -> ledger_state s ->
  ledger_store (World.store (fst (Dashboard.addNewWeekFromIncome env w s))) /\
  ledger_state (snd (Dashboard.addNewWeekFromIncome env w s)).
Proof.
  intros Hok Hst Hs.
  destruct (negb (JS.truthy (Input.text (Dashboard.State.incomeInput s)))
            || JS.isNaN (Input.asNumber (Dashboard.State.incomeInput s))
            || JS.le0 (Input.asNumber (Dashboard.State.incomeInput s))) eqn:Hgate.
  { unfold Dashboard.addNewWeekFromIncome.
    cbn [Dashboard.State.incomeInput Dashboard.setErrorMsg]. rewrite Hgate.
    split; [exact Hst|]. revert Hs. apply ledger_state_same; reflexivity. }
  apply orb_false_iff in Hgate. destruct Hgate as [Hgate Hpos].
  apply orb_false_iff in Hgate. destruct Hgate as [Htext Hnan].
  apply negb_false_iff in Htext.
  destruct (Dashboard.ensureSignedIn env) eqn:Hsess.
  2:{ unfold Dashboard.addNewWeekFromIncome, Dashboard.rebuildBudgetsForWeek.
      cbn [Dashboard.State.incomeInput Dashboard.setErrorMsg].
      rewrite Htext, Hnan, Hpos, Hsess. cbn [negb orb fst snd].
      split; [exact Hst|]. revert Hs. apply ledger_state_same; reflexivity. }
  destruct (Env.user env) as [uid|] eqn:Huser.
  2:{ unfold Dashboard.addNewWeekFromIncome, Dashboard.rebuildBudgetsForWeek.
      cbn [Dashboard.State.incomeInput Dashboard.setErrorMsg].
      rewrite Htext, Hnan, Hpos, Hsess, Huser. cbn [negb orb fst snd].
      split; [exact Hst|]. revert Hs. apply ledger_state_same; reflexivity. }
  destruct (add_week_accepted env uid w s Hsess Huser Hok Htext Hnan Hpos) as [-> ->].
  assert (Hst' : forall ws income, ledger_store (rebuilt uid ws income (World.store w)))
    by (intros ws income; apply ledger_store_rebuilt, Hst).
  split; [apply Hst'|]. apply ledger_load; [apply Hst'|].
  revert Hs. apply ledger_state_same; reflexivity.
Qed.

Lemma add_transaction_keeps_ledger
    (env : Env.t) (bucket : string) (form : Dashboard.TxForm.t)
    (w : World.t) (s : Dashboard.State.t) :
  ledger_store (World.store w) -> ledger_state s ->
  ledger_store (World.store (fst (Dashboard.addTransactionForBucket env bucket form w s))) /\
  ledger_state (snd (Dashboard.addTransactionForBucket env bucket form w s)).
Proof.
  intros Hst Hs.
  assert (Herr : forall e, ledger_state (Dashboard.setErrorMsg e (Dashboard.setErrorMsg None s)))
    by (intros e; revert Hs; apply ledger_state_same; reflexivity).
  assert (Hnone : ledger_state (Dashboard.setErrorMsg None s))
    by (revert Hs; apply ledger_state_same; reflexivity).
  unfold Dashboard.addTransactionForBucket.
  cbn [Dashboard.State.weekStart Dashboard.setErrorMsg].
  destruct (Dashboard.State.weekStart s) as [weekStart|]; [|split; [exact Hst | apply Herr]].
  destruct (Dashboard.ensureSignedIn env); cbn [negb]; [|split; [exact Hst | exact Hnone]].
  destruct (negb (JS.truthy _)); [split; [exact Hst | apply Herr]|].
  destruct (_ || _); [split; [exact Hst | apply Herr]|].
  destruct (Dashboard.TxForm.txDate form) as [txDate|]; [|split; [exact Hst | apply Herr]].
  destruct (negb (isISOInRange _ _ _)); [split; [exact Hst | apply Herr]|].
  destruct (Env.user env) as [uid|]; [|split; [exact Hst | apply Herr]].
  unfold request. destruct (Env.fails env _); cbn [fst snd World.store].
  - split; [exact Hst | apply Herr].
  - match goal with
    | |- ledger_store ?st' /\ _ => assert (Hst' : ledger_store st')
    end.
    { revert Hst. apply ledger_store_same; destruct (World.store w); reflexivity. }
    split; [exact Hst'|]. apply ledger_load; [exact Hst' | exact Hnone].
Qed.

Lemma act_keeps_ledger
    (env : Env.t) (a : Dashboard.Action) (w : World.t) (s : Dashboard.State.t) :
  (forall r, Env.fails env r = false) ->
  ledger_store (World.store w) -> ledger_state s ->
  ledger_store (World.store (fst (Dashboard.act env a (w, s)))) /\
  ledger_state (snd (Dashboard.act env a (w, s))).
Proof.
  intros Hok Hst Hs.
  destruct a as [e|value| |bucket form|viewWeekInput| ]; cbn [Dashboard.act].
  - apply step_keeps_ledger; assumption.
  - split; [exact Hst|]. revert Hs. apply ledger_state_same; reflexivity.
  - apply add_week_keeps_ledger; assumption.
  - apply add_transaction_keeps_ledger; assumption.
  - split; [exact Hst|]. apply ledger_load; assumption.
  - destruct (Dashboard.State.weekStart s) as [weekStart|];
      (split; [exact Hst|]; apply ledger_load; assumption).
Qed.

Lemma session_keeps_ledger
    (env : Env.t) (acts : list Dashboard.Action) (w : World.t) (s : Dashboard.State.t) :
  (forall r, Env.fails env r = false) ->
  ledger_store (World.store w) -> ledger_state s ->
  ledger_store (World.store (fst (Dashboard.session env acts (w, s)))) /\
  ledger_state (snd (Dashboard.session env acts (w, s))).
Proof.
  intros Hok. revert w s. induction acts as [|a acts IH]; intros w s Hst Hs.
  - split; [exact Hst | exact Hs].
  - unfold Dashboard.session. cbn [fold_left].
    destruct (act_keeps_ledger env a w s Hok Hst Hs) as [Hst' Hs'].
    destruct (Dashboard.act env a (w, s)) as [w1 s1]. cbn [fst snd] in Hst', Hs'.
    apply (IH w1 s1 Hst' Hs').
Qed.

Lemma built_sum (uid : string) (ws : date) (income : JS.number) :
  sumQ (map Budget.amount (map stored (Dashboard.buildBudgetInsertsExactTotal uid ws income)))
  == storedAmount (clamp2 income).
Proof.
  destruct income as [q| | |]; [|reflexivity|reflexivity|reflexivity].
  rewrite build_finite, !map_map. cbn [stored Budget.amount storedAmount].
  change (storedAmount (clamp2 (JS.Fin q))) with (clamp2 q).
  rewrite build_cents. cbn [map Budget.amount]. unfold sumQ. cbn [fold_right].
  unfold clamp2. cbn [JS.Math_round JS.mul JS.lit JS.div JS.Q_Arith].
  unfold JS.Qround at 1.
  set (n := Qfloor (q * 100 + (1 # 2))).
  unfold Z.sub. rewrite !inject_Z_plus, inject_Z_opp, !inject_Z_plus.
  field.
Qed.

Lemma ledger_store_fresh (st : Store.t) :
  Store.budgets st = [] -> Store.bucket_transfers st = [] -> ledger_store st.
Proof.
  intros Hb Ht. split; [apply cents_store_fresh; assumption|].
  split; [unfold known_transfers; rewrite Ht; constructor|].
  intros uid ws. rewrite Hb. left. reflexivity.
Qed.

Lemma ledger_state_initial (today : date) : ledger_state (Dashboard.State.initial today).
Proof.
  split; [apply cents_state_initial|]. split; [constructor|]. left. reflexivity.
Qed.




(** ** Totals by tracker *)

Lemma tally_get
    (classify : string -> TrackerBucket) (rows : list BucketCollectionRow.t)
    (t0 : TrackerTotals.t) (k : TrackerBucket) :
  TrackerTotals.get
    (fold_left
       (fun t r =>
          TrackerTotals.add t (classify (BucketCollectionRow.bucket r))
            (BucketCollectionRow.amount r))
       rows t0) k
  == TrackerTotals.get t0 k
     + sumQ (map BucketCollectionRow.amount
               (List.filter
                  (fun r => tracker_eqb (classify (BucketCollectionRow.bucket r)) k) rows)).
Proof.
  revert t0. induction rows as [|r rows IH]; intros t0; cbn [fold_left List.filter map].
  - change (sumQ []) with 0. ring.
  - rewrite IH.
    destruct (classify (BucketCollectionRow.bucket r)), k;
      cbn [tracker_eqb TrackerTotals.add TrackerTotals.get TrackerTotals.savings_
           TrackerTotals.student_loans_ TrackerTotals.emergency_
           TrackerTotals.extra_money_ map];
      rewrite ?sumQ_cons; ring.
Qed.

Lemma tally_all
    (classify : string -> TrackerBucket) (rows : list BucketCollectionRow.t) :
  let part k :=
    sumQ (map BucketCollectionRow.amount
            (List.filter
               (fun r => tracker_eqb (classify (BucketCollectionRow.bucket r)) k) rows)) in
  part savings + part student_loans + part emergency + part extra_money
  == sumQ (map BucketCollectionRow.amount rows).
Proof.
  cbv zeta. induction rows as [|r rows IH]; cbn [List.filter map].
  - change (sumQ []) with 0. ring.
  - rewrite sumQ_cons, <- IH.
    destruct (classify (BucketCollectionRow.bucket r));
      cbn [tracker_eqb map]; rewrite ?sumQ_cons; ring.
Qed.

(** X12. On the Home page and on the Savings page each of the four
    totals is the sum of the amounts of the collection rows that the
    page's classifier sends to that tracker, and the four totals add up
    to the sum of all the amounts: the two pages may split the rows
    differently, but their grand totals agree. *)
Theorem tracker_totals_partition (rows : list BucketCollectionRow.t) :
  let part classify k :=
    sumQ (map BucketCollectionRow.amount
            (List.filter
               (fun r => tracker_eqb (classify (BucketCollectionRow.bucket r)) k) rows)) in
  let grand t :=
    TrackerTotals.savings_ t + TrackerTotals.student_loans_ t
    + TrackerTotals.emergency_ t + TrackerTotals.extra_money_ t in
  (forall k, TrackerTotals.get (HomePage.totals rows) k == part Home.trackerForRawBucket k) /\
  (forall k,
     TrackerTotals.get (SavingsPage.totals rows) k == part Savings.trackerForRawBucket k) /\
  grand (HomePage.totals rows) == sumQ (map BucketCollectionRow.amount rows) /\
  grand (SavingsPage.totals rows) == grand (HomePage.totals rows).
Proof.
  intros part grand.
  assert (Hh : forall k,
            TrackerTotals.get (HomePage.totals rows) k == part Home.trackerForRawBucket k).
  { intros k. unfold HomePage.totals. rewrite tally_get.
    destruct k; cbn [TrackerTotals.get TrackerTotals.zero TrackerTotals.savings_
      TrackerTotals.student_loans_ TrackerTotals.emergency_ TrackerTotals.extra_money_];
      subst part; cbv beta; ring. }
  assert (Hs : forall k,
            TrackerTotals.get (SavingsPage.totals rows) k
            == part Savings.trackerForRawBucket k).
  { intros k. unfold SavingsPage.totals. rewrite tally_get.
    destruct k; cbn [TrackerTotals.get TrackerTotals.zero TrackerTotals.savings_
      TrackerTotals.student_loans_ TrackerTotals.emergency_ TrackerTotals.extra_money_];
      subst part; cbv beta; ring. }
  assert (Hgh : grand (HomePage.totals rows) == sumQ (map BucketCollectionRow.amount rows)).
  { subst grand. cbv beta.
    pose proof (Hh savings) as H1. pose proof (Hh student_loans) as H2.
    pose proof (Hh emergency) as H3. pose proof (Hh extra_money) as H4.
    cbn [TrackerTotals.get] in H1, H2, H3, H4. rewrite H1, H2, H3, H4.
    apply (tally_all Home.trackerForRawBucket rows). }
  assert (Hgs : grand (SavingsPage.totals rows) == sumQ (map BucketCollectionRow.amount rows)).
  { subst grand. cbv beta.
    pose proof (Hs savings) as H1. pose proof (Hs student_loans) as H2.
    pose proof (Hs emergency) as H3. pose proof (Hs extra_money) as H4.
    cbn [TrackerTotals.get] in H1, H2, H3, H4. rewrite H1, H2, H3, H4.
    apply (tally_all Savings.trackerForRawBucket rows). }
  split; [exact Hh|]. split; [exact Hs|]. split; [exact Hgh|].
  rewrite Hgs, Hgh. reflexivity.
Qed.

(** ** Adjustments on the Savings page *)

Lemma toLowerCase_app (a b : string) :
  JS.toLowerCase (a ++ b) = JS.toLowerCase a ++ JS.toLowerCase b.
Proof.
  induction a as [|c a IH]; [reflexivity|].
  change (String c a ++ b) with (String c (a ++ b)). cbn [JS.toLowerCase].
  rewrite IH. reflexivity.
Qed.

Lemma trimEnd_snoc (s : string) (c : ascii) :
  JS.is_white c = false -> JS.trimEnd (s ++ String c "") = s ++ String c "".
Proof.
  intros Hc. induction s as [|a s IH].
  - change ("" ++ String c "") with (String c ""). cbn [JS.trimEnd]. rewrite Hc. reflexivity.
  - change (String a s ++ String c "") with (String a (s ++ String c "")).
    cbn [JS.trimEnd]. rewrite IH.
    destruct s as [|b s]; reflexivity.
Qed.

(** The label of an adjustment with a note, lower-cased and trimmed. *)
Lemma noted_label (tracker : TrackerBucket) (note : string) :
  let base := Savings.rawBucketForTracker tracker in
  JS.trim (JS.toLowerCase (base ++ " (" ++ note ++ ")"))
  = base ++ " (" ++ JS.toLowerCase note ++ ")".
Proof.
  intros base.
  assert (Hlow : JS.toLowerCase (base ++ " (" ++ note ++ ")")
                 = base ++ " (" ++ JS.toLowerCase note ++ ")").
  { rewrite !toLowerCase_app. subst base. destruct tracker; reflexivity. }
  rewrite Hlow. unfold JS.trim.
  assert (Hstart : JS.trimStart (base ++ " (" ++ JS.toLowerCase note ++ ")")
                   = base ++ " (" ++ JS.toLowerCase note ++ ")")
    by (subst base; destruct tracker; reflexivity).
  rewrite Hstart.
  replace (base ++ " (" ++ JS.toLowerCase note ++ ")")
    with ((base ++ " (" ++ JS.toLowerCase note) ++ ")")
    by (rewrite !string_app_assoc; reflexivity).
  apply trimEnd_snoc. reflexivity.
Qed.

Lemma adjustment_on_home (tracker : TrackerBucket) (adjNote : string) :
  Home.trackerForRawBucket (Savings.adjustmentBucket tracker adjNote) = tracker.
Proof.
  unfold Savings.adjustmentBucket.
  destruct (JS.truthy (JS.trim adjNote)); [|destruct tracker; reflexivity].
  unfold Home.trackerForRawBucket. rewrite noted_label.
  destruct tracker; reflexivity.
Qed.

Lemma adjustment_on_savings (tracker : TrackerBucket) (adjNote : string) :
  Savings.trackerForRawBucket (Savings.adjustmentBucket tracker adjNote)
  = if JS.truthy (JS.trim adjNote) then extra_money else tracker.
Proof.
  unfold Savings.adjustmentBucket.
  destruct (JS.truthy (JS.trim adjNote)); [|destruct tracker; reflexivity].
  unfold Savings.trackerForRawBucket. rewrite noted_label.
  destruct tracker; reflexivity.
Qed.

Lemma orderInsert_perm (x : BucketCollectionRow.t) (l : list BucketCollectionRow.t) :
  Permutation (SavingsPage.orderInsert x l) (x :: l).
Proof.
  induction l as [|y l IH]; cbn [SavingsPage.orderInsert]; [reflexivity|].
  destruct (_ <=? _)%Z; [reflexivity|].
  rewrite IH. apply perm_swap.
Qed.

Lemma ordered_perm (l : list BucketCollectionRow.t) :
  Permutation (SavingsPage.ordered l) l.
Proof.
  unfold SavingsPage.ordered. rewrite (Permutation_rev l) at 2.
  induction (rev l) as [|x r IH]; cbn [fold_right]; [reflexivity|].
  rewrite orderInsert_perm, IH. reflexivity.
Qed.

Lemma sum_filter_perm {A : Type} (f : A -> Q) (p : A -> bool) (l l' : list A) :
  Permutation l l' ->
  sumQ (map f (List.filter p l)) == sumQ (map f (List.filter p l')).
Proof.
  induction 1 as [|x l l' _ IH|x y l|l l' l'' _ IH1 _ IH2]; cbn [List.filter].
  - reflexivity.
  - destruct (p x); cbn [map]; rewrite ?sumQ_cons, IH; reflexivity.
  - destruct (p x), (p y); cbn [map]; rewrite ?sumQ_cons; ring.
  - rewrite IH1. exact IH2.
Qed.

Lemma savings_totals_perm (l l' : list BucketCollectionRow.t) (k : TrackerBucket) :
  Permutation l l' ->
  TrackerTotals.get (SavingsPage.totals l) k == TrackerTotals.get (SavingsPage.totals l') k.
Proof.
  intros Hp. unfold SavingsPage.totals. rewrite !tally_get.
  rewrite (sum_filter_perm _ _ l l' Hp). reflexivity.
Qed.

Lemma savings_totals_snoc
    (rows : list BucketCollectionRow.t) (row : BucketCollectionRow.t) (k : TrackerBucket) :
  TrackerTotals.get (SavingsPage.totals (rows ++ [row])) k
  == TrackerTotals.get (SavingsPage.totals rows) k
     + (if tracker_eqb (Savings.trackerForRawBucket (BucketCollectionRow.bucket row)) k
        then BucketCollectionRow.amount row else 0).
Proof.
  unfold SavingsPage.totals. rewrite !tally_get, List.filter_app, List.map_app, sumQ_app.
  cbn [List.filter]. destruct (tracker_eqb _ k); cbn [map];
    rewrite ?sumQ_cons; change (sumQ []) with 0; ring.
Qed.

(** X13. An adjustment with a selected week and an amount above zero,
    signed in and accepted by the store, adds one collection row for
    that week, with the amount negated for a subtraction, and the page
    reloads.  On the Home page the row counts for the chosen tracker,
    with or without a note.  On the Savings page it counts for the
    chosen tracker when the note is blank and for Extra Money when a
    note is given, and the total shown there moves by the signed
    amount. *)
Theorem adjustment_lands
    (env : Env.t) (w : World.t) (s : SavingsPage.State.t)
    (uid : string) (ws : date) (amt : Q) :
  Env.session env = true -> Env.user env = Some uid ->
  SavingsPage.State.selectedWeek s = Some ws ->
  JS.truthy (Input.text (SavingsPage.State.adjAmount s)) = true ->
  Input.asNumber (SavingsPage.State.adjAmount s) = JS.Fin amt -> 0 < amt ->
  let tracker := SavingsPage.State.adjTracker s in
  let signed := if SavingsPage.State.subtract s then - amt else amt in
  let row :=
    BucketCollectionRow.mk uid ws
      (Savings.adjustmentBucket tracker (SavingsPage.State.adjNote s)) signed in
  Env.fails env (InsertBucketCollection row) = false ->
  let before := Store.bucket_collections (World.store w) in
  let w' := fst (SavingsPage.adjustTrackerTotal env w s) in
  let s' := snd (SavingsPage.adjustTrackerTotal env w s) in
  let shown :=
    if JS.truthy (JS.trim (SavingsPage.State.adjNote s)) then extra_money else tracker in
  Store.bucket_collections (World.store w') = (before ++ [row])%list /\
  SavingsPage.State.errorMsg s' = None /\
  Home.trackerForRawBucket (BucketCollectionRow.bucket row) = tracker /\
  Savings.trackerForRawBucket (BucketCollectionRow.bucket row) = shown /\
  forall k,
    TrackerTotals.get (SavingsPage.totals (SavingsPage.State.rows s')) k
    == TrackerTotals.get (SavingsPage.totals before) k
       + (if tracker_eqb shown k then signed else 0).
Proof.
  intros Hsess Huser Hweek Htext Hnum Hpos tracker signed row Hok before w' s' shown.
  assert (Hrun : SavingsPage.adjustTrackerTotal env w s
                 = (World.mk (apply (InsertBucketCollection row) (World.store w))
                      (World.log w ++ [InsertBucketCollection row]),
                    SavingsPage.load env (apply (InsertBucketCollection row) (World.store w))
                      (SavingsPage.State.mk (SavingsPage.State.rows s) None (Some ws) false
                         tracker (SavingsPage.State.subtract s)
                         (Input.mk "" (JS.Fin 0)) ""))).
  { unfold SavingsPage.adjustTrackerTotal.
    cbn [SavingsPage.withError SavingsPage.State.selectedWeek SavingsPage.State.adjAmount
         SavingsPage.State.subtract SavingsPage.State.adjTracker SavingsPage.State.adjNote
         SavingsPage.State.rows SavingsPage.State.errorMsg].
    rewrite Hsess, Hweek, Hnum, Htext, Huser. cbn [negb orb].
    assert (Hq : Qle_bool amt 0 = false) by (apply Qle_bool_false, Hpos).
    rewrite Hq. unfold request. fold tracker signed row. rewrite Hok.
    cbn [World.store]. reflexivity. }
  subst w' s'. rewrite Hrun. cbn [fst snd World.store].
  assert (Hst : Store.bucket_collections (apply (InsertBucketCollection row) (World.store w))
                = (before ++ [row])%list)
    by (subst before; destruct (World.store w); reflexivity).
  split; [exact Hst|].
  unfold SavingsPage.load. rewrite Hsess. cbn [negb SavingsPage.State.errorMsg
    SavingsPage.State.rows].
  split; [reflexivity|].
  split; [apply adjustment_on_home|].
  split; [apply adjustment_on_savings|].
  intros k. rewrite Hst.
  rewrite (savings_totals_perm _ _ k (ordered_perm (before ++ [row]))).
  rewrite savings_totals_snoc. subst row.
  cbn [BucketCollectionRow.bucket BucketCollectionRow.amount].
  rewrite adjustment_on_savings. reflexivity.
Qed.

Lemma adjustment_lands_witness :
  let s :=
    SavingsPage.State.mk [] None (Some 1%Z) true savings true (Input.mk "20" (JS.Fin 20))
      "gift" in
  let row := BucketCollectionRow.mk "u" 1%Z "save (gift)" (- (20)) in
  Env.session env_u = true /\ Env.user env_u = Some "u" /\
  SavingsPage.State.selectedWeek s = Some 1%Z /\
  JS.truthy (Input.text (SavingsPage.State.adjAmount s)) = true /\
  Input.asNumber (SavingsPage.State.adjAmount s) = JS.Fin 20 /\ 0 < 20 /\
  Env.fails env_u (InsertBucketCollection row) = false /\
  Store.bucket_collections
    (World.store (fst (SavingsPage.adjustTrackerTotal env_u (World.mk Store.empty []) s)))
  = [row] /\
  Savings.trackerForRawBucket (BucketCollectionRow.bucket row) = extra_money /\
  Home.trackerForRawBucket (BucketCollectionRow.bucket row) = savings.
Proof.
  cbv zeta.
  split; [reflexivity|]. split; [reflexivity|]. split; [reflexivity|].
  split; [reflexivity|]. split; [reflexivity|]. split; [reflexivity|].
  split; [reflexivity|].
  pose proof (adjustment_lands env_u (World.mk Store.empty [])
                (SavingsPage.State.mk [] None (Some 1%Z) true savings true
                   (Input.mk "20" (JS.Fin 20)) "gift")
                "u" 1%Z 20 eq_refl eq_refl eq_refl eq_refl eq_refl eq_refl eq_refl) as H.
  cbv zeta in H. destruct H as (H1 & _ & H3 & H4 & _).
  split; [exact H1|]. split; [exact H4 | exact H3].
Defined.

(** ** Weeks of the Savings page *)

Lemma Map_push_spec
    (m : list (date * list BucketCollectionRow.t)) (k : date) (r : BucketCollectionRow.t) :
  List.NoDup (map fst m) ->
  List.NoDup (map fst (SavingsPage.Map_push m k r)) /\
  (forall k', In k' (map fst (SavingsPage.Map_push m k r)) <-> In k' (map fst m) \/ k' = k) /\
  (forall k' l',
     In (k', l') (SavingsPage.Map_push m k r) <->
     (k' <> k /\ In (k', l') m) \/
     (k' = k /\ ((exists l, In (k, l) m /\ l' = (l ++ [r])%list) \/
                 (~ In k (map fst m) /\ l' = [r])))).
Proof.
  induction m as [|[k0 l0] m IH]; intros Hnd; cbn [SavingsPage.Map_push map fst].
  - split; [constructor; [intros []|constructor]|]. split.
    + intros k'. cbn [In]. split; [intros [<-|[]]; right; reflexivity|].
      intros [[]| ->]. left. reflexivity.
    + intros k' l'. cbn [In]. split.
      * intros [[= <- <-]|[]]. right. split; [reflexivity|]. right.
        split; [intros []|reflexivity].
      * intros [[_ []]|[-> [(l & [] & _)|[_ ->]]]]. left. reflexivity.
  - inversion Hnd as [|? ? Hk0 Hnd']; subst.
    destruct (Z.eqb_spec k0 k) as [->|Hne]; cbn [map fst].
    + split; [exact Hnd|]. split.
      * intros k'. cbn [In]. split; [intros H; left; exact H|].
        intros [H| ->]; [exact H | left; reflexivity].
      * intros k' l'. cbn [In]. split.
        -- intros [[= <- <-]|Hin].
           ++ right. split; [reflexivity|]. left. exists l0. split; [left|]; reflexivity.
           ++ left. split; [|right; exact Hin].
              intros ->. apply Hk0. apply in_map_iff. exists (k, l'). split; [reflexivity | exact Hin].
        -- intros [[Hne [[= -> ->]|Hin]]|[-> [(l & [[= ->]|Hin] & ->)|[Hnot _]]]].
           ++ contradiction.
           ++ right. exact Hin.
           ++ left. reflexivity.
           ++ exfalso. apply Hk0. apply in_map_iff. exists (k, l). split; [reflexivity | exact Hin].
           ++ exfalso. apply Hnot. left. reflexivity.
    + destruct (IH Hnd') as (IH1 & IH2 & IH3).
      split; [|split].
      * constructor; [|exact IH1]. rewrite IH2. intros [H|H]; [exact (Hk0 H) | exact (Hne H)].
      * intros k'. cbn [In]. rewrite IH2. tauto.
      * intros k' l'. cbn [In]. rewrite IH3. split.
        -- intros [[= <- <-]|[[Hn Hin]|[-> [(l & Hin & ->)|[Hnot ->]]]]].
           ++ left. split; [exact Hne | left; reflexivity].
           ++ left. split; [exact Hn | right; exact Hin].
           ++ right. split; [reflexivity|]. left. exists l. split; [right; exact Hin | reflexivity].
           ++ right. split; [reflexivity|]. right. split; [|reflexivity].
              intros [H|H]; [exact (Hne H) | exact (Hnot H)].
        -- intros [[Hn [[= <- <-]|Hin]]|[-> [(l & [[= -> _]|Hin] & ->)|[Hnot ->]]]].
           ++ left. reflexivity.
           ++ right. left. split; assumption.
           ++ contradiction.
           ++ right. right. split; [reflexivity|]. left. exists l. split; [exact Hin | reflexivity].
           ++ right. right. split; [reflexivity|]. right. split; [|reflexivity].
              intros H. apply Hnot. right. exact H.
Qed.

(** The map built by [byWeek]: one entry per week that occurs, holding
    the rows of that week in their order. *)
Lemma weeks_map (rows : list BucketCollectionRow.t) :
  let m := fold_left (fun m r => SavingsPage.Map_push m (BucketCollectionRow.week_start r) r)
             rows [] in
  List.NoDup (map fst m) /\
  (forall k, In k (map fst m) <-> exists r, In r rows /\ BucketCollectionRow.week_start r = k) /\
  (forall k l, In (k, l) m ->
     l = List.filter (fun r => (BucketCollectionRow.week_start r =? k)%Z) rows).
Proof.
  induction rows as [|r rows IH] using rev_ind.
  - cbn [fold_left map]. split; [constructor|]. split.
    + intros k. split; [intros [] | intros (r & [] & _)].
    + intros k l [].
  - rewrite fold_left_app. cbn [fold_left]. cbv zeta in IH |- *.
    set (m := fold_left _ rows []) in *.
    destruct IH as (Hnd & Hkeys & Hent).
    destruct (Map_push_spec m (BucketCollectionRow.week_start r) r Hnd) as (P1 & P2 & P3).
    split; [exact P1|]. split.
    + intros k. rewrite P2, Hkeys. split.
      * intros [(x & Hx & Hk)| ->].
        -- exists x. split; [apply in_or_app; left; exact Hx | exact Hk].
        -- exists r. split; [apply in_or_app; right; left; reflexivity | reflexivity].
      * intros (x & Hx & Hk). apply in_app_or in Hx. destruct Hx as [Hx|[<-|[]]].
        -- left. exists x. split; assumption.
        -- right. symmetry. exact Hk.
    + intros k l Hin. apply P3 in Hin. rewrite List.filter_app. cbn [List.filter].
      destruct Hin as [[Hne Hin]|[-> [(l0 & Hin & ->)|[Hnot ->]]]].
      * rewrite (Hent k l Hin).
        destruct (Z.eqb_spec (BucketCollectionRow.week_start r) k) as [Heq|_];
          [symmetry in Heq; contradiction | symmetry; apply app_nil_r].
      * rewrite (Hent _ l0 Hin), Z.eqb_refl. reflexivity.
      * rewrite Z.eqb_refl.
        rewrite filter_none; [reflexivity|]. apply List.Forall_forall. intros x Hx.
        destruct (Z.eqb_spec (BucketCollectionRow.week_start x)
                    (BucketCollectionRow.week_start r)) as [Heq|_]; [|reflexivity].
        exfalso. apply Hnot. apply Hkeys. exists x. split; assumption.
Qed.

Lemma week_sortInsert_In (x y : SavingsPage.Week.t) (l : list SavingsPage.Week.t) :
  In y (SavingsPage.sortInsert x l) <-> y = x \/ In y l.
Proof.
  induction l as [|z l IH]; cbn [SavingsPage.sortInsert In].
  - split; [intros [<-|[]]; left; reflexivity | intros [ ->|[]]; left; reflexivity].
  - destruct (_ <=? _)%Z; cbn [In]; [split; intros [<-|H]; auto|].
    rewrite IH. split; [intros [H|[H|H]] | intros [H|[H|H]]]; auto.
Qed.

Lemma week_sort_In (y : SavingsPage.Week.t) (l : list SavingsPage.Week.t) :
  In y (SavingsPage.sortLatestFirst l) <-> In y l.
Proof.
  induction l as [|x l IH]; [reflexivity|].
  unfold SavingsPage.sortLatestFirst in *. cbn [fold_right In].
  rewrite week_sortInsert_In, IH. split; intros [H|H]; auto.
Qed.

Lemma week_sortInsert_Sorted (x : SavingsPage.Week.t) (l : list SavingsPage.Week.t) :
  ~ In (SavingsPage.Week.weekStart x) (map SavingsPage.Week.weekStart l) ->
  Sorted (fun a b => (b < a)%Z) (map SavingsPage.Week.weekStart l) ->
  Sorted (fun a b => (b < a)%Z)
    (map SavingsPage.Week.weekStart (SavingsPage.sortInsert x l)).
Proof.
  induction l as [|z l IH]; intros Hx Hs; cbn [SavingsPage.sortInsert map].
  - repeat constructor.
  - cbn [map In] in Hx.
    destruct (Z.leb_spec (SavingsPage.Week.weekStart z) (SavingsPage.Week.weekStart x))
      as [Hle|Hgt]; cbn [map].
    + constructor; [exact Hs|]. constructor.
      assert (SavingsPage.Week.weekStart z <> SavingsPage.Week.weekStart x)
        by (intros H; apply Hx; left; exact H).
      lia.
    + inversion Hs as [|? ? Hl Hhd]; subst.
      constructor; [apply IH; [intros H; apply Hx; right; exact H | exact Hl]|].
      destruct l as [|y l]; cbn [SavingsPage.sortInsert map]; [constructor; exact Hgt|].
      destruct (_ <=? _)%Z; cbn [map]; constructor; [exact Hgt|].
      inversion Hhd; subst. assumption.
Qed.

Lemma week_sort_keys (l : list SavingsPage.Week.t) (k : date) :
  In k (map SavingsPage.Week.weekStart (SavingsPage.sortLatestFirst l))
  <-> In k (map SavingsPage.Week.weekStart l).
Proof.
  rewrite !in_map_iff. split; intros (w & Hk & Hw); exists w; (split; [exact Hk|]);
    apply week_sort_In; exact Hw.
Qed.

Lemma week_sort_Sorted (l : list SavingsPage.Week.t) :
  List.NoDup (map SavingsPage.Week.weekStart l) ->
  Sorted (fun a b => (b < a)%Z)
    (map SavingsPage.Week.weekStart (SavingsPage.sortLatestFirst l)).
Proof.
  induction l as [|x l IH]; intros Hnd; [constructor|].
  cbn [map] in Hnd. inversion Hnd as [|? ? Hx Hl]; subst.
  unfold SavingsPage.sortLatestFirst in *. cbn [fold_right].
  apply week_sortInsert_Sorted; [|apply IH, Hl].
  intros H. apply Hx. apply (week_sort_keys l). exact H.
Qed.

Lemma week_sort_sum (g : SavingsPage.Week.t -> Q) (l : list SavingsPage.Week.t) :
  sumQ (map g (SavingsPage.sortLatestFirst l)) == sumQ (map g l).
Proof.
  assert (Hins : forall x l, sumQ (map g (SavingsPage.sortInsert x l)) == g x + sumQ (map g l)).
  { intros x l0. induction l0 as [|y l0 IH]; cbn [SavingsPage.sortInsert map].
    - reflexivity.
    - destruct (_ <=? _)%Z; cbn [map]; rewrite ?sumQ_cons; [reflexivity|].
      rewrite IH. ring. }
  induction l as [|x l IH]; [reflexivity|].
  unfold SavingsPage.sortLatestFirst in *. cbn [fold_right map].
  rewrite Hins, sumQ_cons, IH. reflexivity.
Qed.

(** Sums over the rows of each week add up to the sum over all rows. *)
Lemma sum_by_week
    (f : BucketCollectionRow.t -> Q) (keys : list date) (rows : list BucketCollectionRow.t) :
  List.NoDup keys ->
  (forall r, In r rows -> In (BucketCollectionRow.week_start r) keys) ->
  sumQ (map (fun k =>
               sumQ (map f (List.filter
                              (fun r => (BucketCollectionRow.week_start r =? k)%Z) rows)))
          keys)
  == sumQ (map f rows).
Proof.
  intros Hnd. induction rows as [|r rows IH]; intros Hcover.
  - cbn [List.filter map]. clear Hnd Hcover. induction keys as [|k keys IHk]; [reflexivity|].
    cbn [map] in IHk |- *. rewrite sumQ_cons, IHk.
    change (sumQ []) with 0. ring.
  - cbn [map]. rewrite sumQ_cons, <- IH by (intros x Hx; apply Hcover; right; exact Hx).
    assert (Hr : In (BucketCollectionRow.week_start r) keys) by (apply Hcover; left; reflexivity).
    clear IH Hcover. revert Hr. 
    induction keys as [|k keys IHk]; intros Hr; [destruct Hr|].
    inversion Hnd as [|? ? Hk Hnd']; subst.
    cbn [map List.filter]. rewrite !sumQ_cons.
    destruct (Z.eqb_spec (BucketCollectionRow.week_start r) k) as [Heq|Hne].
    + cbn [map]. rewrite sumQ_cons.
      assert (Hrest :
                sumQ (map (fun k0 =>
                             sumQ (map f (List.filter
                                            (fun r0 => (BucketCollectionRow.week_start r0 =? k0)%Z)
                                            (r :: rows)))) keys)
                == sumQ (map (fun k0 =>
                                sumQ (map f (List.filter
                                               (fun r0 =>
                                                  (BucketCollectionRow.week_start r0 =? k0)%Z)
                                               rows))) keys)).
      { apply sumQ_ext. intros k0 Hk0. cbn [List.filter].
        destruct (Z.eqb_spec (BucketCollectionRow.week_start r) k0) as [Heq0|_];
          [|reflexivity].
        exfalso. apply Hk. rewrite <- Heq, Heq0. exact Hk0. }
      rewrite Hrest. ring.
    + destruct Hr as [Hr|Hr]; [symmetry in Hr; contradiction|].
      rewrite (IHk Hnd' Hr). ring.
Qed.

(** X14. The week list of the Savings page has one entry for each week
    that has a collection row, the latest week first and none twice.
    An entry holds exactly the rows of its week, in their order, with
    their totals by tracker; over all weeks these add up to the totals
    of the page.  The selected week is the entry of that week, if it has
    a row. *)
Theorem savings_weeks_grouped (rows : list BucketCollectionRow.t) :
  let weeks := SavingsPage.byWeek rows in
  let rowsOf ws :=
    List.filter (fun r => (BucketCollectionRow.week_start r =? ws)%Z) rows in
  (forall w, In w weeks ->
     SavingsPage.Week.list_ w = rowsOf (SavingsPage.Week.weekStart w) /\
     SavingsPage.Week.list_ w <> [] /\
     SavingsPage.Week.sums w = SavingsPage.totals (SavingsPage.Week.list_ w)) /\
  (forall ws, In ws (SavingsPage.weekOptions rows) <-> rowsOf ws <> []) /\
  Sorted (fun a b => (b < a)%Z) (SavingsPage.weekOptions rows) /\
  (forall k,
     sumQ (map (fun w => TrackerTotals.get (SavingsPage.Week.sums w) k) weeks)
     == TrackerTotals.get (SavingsPage.totals rows) k) /\
  (forall ws,
     match SavingsPage.selected rows (Some ws) with
     | Some w => SavingsPage.Week.weekStart w = ws /\ In w weeks
     | None => rowsOf ws = []
     end).
Proof.
  intros weeks rowsOf.
  destruct (weeks_map rows) as (Hnd & Hkeys & Hent). cbv zeta in Hnd, Hkeys, Hent.
  unfold SavingsPage.weekOptions.
  subst weeks. unfold SavingsPage.byWeek. cbv zeta.
  set (m := fold_left _ rows []) in *.
  set (mk := fun '(weekStart, list) =>
               SavingsPage.Week.mk weekStart list (SavingsPage.totals list)).
  assert (Hkeys' : map SavingsPage.Week.weekStart (map mk m) = map fst m).
  { rewrite map_map. apply map_ext. intros [k l]. reflexivity. }
  assert (Hnonempty : forall ws, In ws (map fst m) <-> rowsOf ws <> []).
  { intros ws. rewrite Hkeys. subst rowsOf. cbv beta. split.
    - intros (r & Hr & Hk) Hnil.
      assert (Hin : In r (List.filter
                            (fun r => (BucketCollectionRow.week_start r =? ws)%Z) rows))
        by (apply filter_In; split; [exact Hr | apply Z.eqb_eq, Hk]).
      rewrite Hnil in Hin. destruct Hin.
    - intros Hne.
      destruct (List.filter (fun r => (BucketCollectionRow.week_start r =? ws)%Z) rows)
        as [|r l] eqn:Hf; [contradiction|].
      assert (Hin : In r (List.filter
                            (fun r => (BucketCollectionRow.week_start r =? ws)%Z) rows))
        by (rewrite Hf; left; reflexivity).
      apply filter_In in Hin. destruct Hin as [Hr Hk]. exists r.
      split; [exact Hr | apply Z.eqb_eq, Hk]. }
  assert (Hweek : forall w, In w (SavingsPage.sortLatestFirst (map mk m)) ->
            SavingsPage.Week.list_ w = rowsOf (SavingsPage.Week.weekStart w) /\
            SavingsPage.Week.list_ w <> [] /\
            SavingsPage.Week.sums w = SavingsPage.totals (SavingsPage.Week.list_ w)).
  { intros w Hw. apply (proj1 (week_sort_In w (map mk m))) in Hw. apply in_map_iff in Hw.
    destruct Hw as ([k l] & <- & Hin). cbn [SavingsPage.Week.list_ SavingsPage.Week.weekStart
      SavingsPage.Week.sums mk].
    pose proof (Hent k l Hin) as Hl. split; [exact Hl|]. split; [|reflexivity].
    rewrite Hl. apply Hnonempty. apply in_map_iff. exists (k, l). split; [reflexivity | exact Hin]. }
  split; [exact Hweek|].
  split.
  { intros ws. rewrite week_sort_keys, Hkeys'. apply Hnonempty. }
  split.
  { apply week_sort_Sorted. rewrite Hkeys'. exact Hnd. }
  split.
  { intros k. rewrite week_sort_sum, map_map.
    unfold SavingsPage.totals. rewrite tally_get.
    cbn [TrackerTotals.get TrackerTotals.zero].
    assert (H0 : TrackerTotals.get TrackerTotals.zero k == 0) by (destruct k; reflexivity).
    rewrite H0, Qplus_0_l.
    set (p := fun r : BucketCollectionRow.t =>
                tracker_eqb (Savings.trackerForRawBucket (BucketCollectionRow.bucket r)) k).
    set (f := fun r : BucketCollectionRow.t =>
                if p r then BucketCollectionRow.amount r else 0).
    assert (Hf : forall l, sumQ (map BucketCollectionRow.amount (List.filter p l))
                           == sumQ (map f l)).
    { induction l as [|r l IH]; [reflexivity|]. cbn [List.filter map]. subst f. cbv beta.
      destruct (p r); cbn [map]; rewrite ?sumQ_cons, IH; [reflexivity | ring]. }
    rewrite Hf.
    rewrite <- (sum_by_week f (map fst m) rows Hnd)
      by (intros r Hr; apply Hkeys; exists r; split; [exact Hr | reflexivity]).
    rewrite map_map. apply sumQ_ext. intros [k0 l] Hin. cbn [fst mk SavingsPage.Week.sums].
    unfold SavingsPage.totals. rewrite tally_get, H0, Qplus_0_l.
    fold p. rewrite Hf, (Hent k0 l Hin). reflexivity. }
  intros ws. unfold SavingsPage.selected, SavingsPage.byWeek. cbv zeta. fold m. fold mk.
  destruct (find _ (SavingsPage.sortLatestFirst (map mk m))) as [w|] eqn:Hfind.
  - apply find_some in Hfind. destruct Hfind as [Hin Heq].
    split; [apply Z.eqb_eq, Heq | exact Hin].
  - destruct (rowsOf ws) as [|r l] eqn:Hrows; [reflexivity|]. exfalso.
    assert (Hk : In ws (map fst m)) by (apply Hnonempty; rewrite Hrows; discriminate).
    rewrite <- Hkeys' in Hk. apply (proj2 (week_sort_keys (map mk m) ws)) in Hk.
    apply in_map_iff in Hk. destruct Hk as (w & Hw & Hin).
    pose proof (find_none _ _ Hfind w Hin) as Hno. cbv beta in Hno.
    rewrite Hw, Z.eqb_refl in Hno. discriminate Hno.
Qed.


(** ** Goal cards of the Home page *)

Lemma goal_sortInsert_perm (g : HomePage.UserGoalRow.t) (l : list HomePage.UserGoalRow.t) :
  Permutation (HomePage.sortInsert g l) (g :: l).
Proof.
  induction l as [|h l IH]; cbn [HomePage.sortInsert]; [reflexivity|].
  destruct (_ <=? _)%Z; [reflexivity|]. rewrite IH. apply perm_swap.
Qed.

Lemma goal_sort_perm (l : list HomePage.UserGoalRow.t) :
  Permutation (HomePage.sortBySortOrder l) l.
Proof.
  unfold HomePage.sortBySortOrder.
  induction l as [|g l IH]; cbn [fold_right]; [reflexivity|].
  rewrite goal_sortInsert_perm, IH. reflexivity.
Qed.

Lemma goal_sortInsert_Sorted (g : HomePage.UserGoalRow.t) (l : list HomePage.UserGoalRow.t) :
  Sorted (fun a b => (HomePage.UserGoalRow.sort_order a
                      <= HomePage.UserGoalRow.sort_order b)%Z) l ->
  Sorted (fun a b => (HomePage.UserGoalRow.sort_order a
                      <= HomePage.UserGoalRow.sort_order b)%Z) (HomePage.sortInsert g l).
Proof.
  induction l as [|h l IH]; intros Hs; cbn [HomePage.sortInsert].
  - repeat constructor.
  - destruct (Z.leb_spec (HomePage.UserGoalRow.sort_order g)
                (HomePage.UserGoalRow.sort_order h)) as [Hle|Hgt].
    + constructor; [exact Hs | constructor; exact Hle].
    + inversion Hs as [|? ? Hl Hhd]; subst. constructor; [apply IH, Hl|].
      destruct l as [|y l]; cbn [HomePage.sortInsert]; [constructor; lia|].
      destruct (_ <=? _)%Z; constructor; [lia|].
      inversion Hhd; subst. assumption.
Qed.

Lemma goalByKey_snoc (goals : list HomePage.UserGoalRow.t) (g : HomePage.UserGoalRow.t)
    (k : TrackerBucket) :
  HomePage.goalByKey (goals ++ [g]) k
  = if tracker_eqb k (HomePage.UserGoalRow.key g) then Some g else HomePage.goalByKey goals k.
Proof. unfold HomePage.goalByKey. rewrite fold_left_app. reflexivity. Qed.

Lemma tracker_eqb_eq (a b : TrackerBucket) : tracker_eqb a b = true <-> a = b.
Proof. destruct a, b; cbn; split; intros H; congruence. Qed.

(** The goal the map holds for a key: the last row with that key. *)
Lemma goalByKey_last (goals : list HomePage.UserGoalRow.t) (k : TrackerBucket) :
  HomePage.goalByKey goals k
  = last (List.filter (fun g => tracker_eqb k (HomePage.UserGoalRow.key g)) goals).
Proof.
  induction goals as [|g goals IH] using rev_ind; [reflexivity|].
  rewrite goalByKey_snoc, List.filter_app. cbn [List.filter].
  destruct (tracker_eqb k (HomePage.UserGoalRow.key g)).
  - rewrite last_snoc. reflexivity.
  - rewrite app_nil_r. exact IH.
Qed.

(** X15. The extra goal cards of the Home page are the active goals
    whose key is neither savings nor student loans, each once, in
    ascending sort order.  The two fixed cards take their target from
    the last goal row with their key, and fall back to 500 for savings
    and 2000 for student loans when there is no such row. *)
Theorem home_goal_cards (goals : list HomePage.UserGoalRow.t) :
  let cards := HomePage.extraGoals goals in
  let rowsFor k :=
    List.filter (fun g => tracker_eqb k (HomePage.UserGoalRow.key g)) goals in
  Permutation cards
    (List.filter
       (fun g => HomePage.UserGoalRow.is_active g
                 && negb (tracker_eqb (HomePage.UserGoalRow.key g) savings)
                 && negb (tracker_eqb (HomePage.UserGoalRow.key g) student_loans))
       goals) /\
  (forall g, In g cards ->
     In g goals /\ HomePage.UserGoalRow.is_active g = true /\
     HomePage.UserGoalRow.key g <> savings /\ HomePage.UserGoalRow.key g <> student_loans) /\
  Sorted (fun a b => (HomePage.UserGoalRow.sort_order a
                      <= HomePage.UserGoalRow.sort_order b)%Z) cards /\
  HomePage.savingsTarget goals
  = match last (rowsFor savings) with
    | Some g => HomePage.UserGoalRow.target g
    | None => 500
    end /\
  HomePage.loansTarget goals
  = match last (rowsFor student_loans) with
    | Some g => HomePage.UserGoalRow.target g
    | None => 2000
    end.
Proof.
  intros cards rowsFor.
  assert (Hfilter : List.filter HomePage.UserGoalRow.is_active
                      (List.filter HomePage.notFixedGoal goals)
                    = List.filter
                        (fun g => HomePage.UserGoalRow.is_active g
                                  && negb (tracker_eqb (HomePage.UserGoalRow.key g) savings)
                                  && negb (tracker_eqb (HomePage.UserGoalRow.key g)
                                             student_loans))
                        goals).
  { induction goals as [|g goals IH]; [reflexivity|]. cbn [List.filter].
    unfold HomePage.notFixedGoal at 1.
    destruct (tracker_eqb (HomePage.UserGoalRow.key g) savings),
      (tracker_eqb (HomePage.UserGoalRow.key g) student_loans);
      cbn [negb andb List.filter]; rewrite ?andb_false_r, ?andb_true_r; try exact IH.
    destruct (HomePage.UserGoalRow.is_active g); [rewrite IH; reflexivity | exact IH]. }
  assert (Hperm : Permutation cards
                    (List.filter
                       (fun g => HomePage.UserGoalRow.is_active g
                                 && negb (tracker_eqb (HomePage.UserGoalRow.key g) savings)
                                 && negb (tracker_eqb (HomePage.UserGoalRow.key g)
                                            student_loans))
                       goals)).
  { subst cards. unfold HomePage.extraGoals. rewrite Hfilter. apply goal_sort_perm. }
  split; [exact Hperm|]. split; [|split; [|split]].
  - intros g Hg. apply (Permutation_in _ Hperm) in Hg. apply filter_In in Hg.
    destruct Hg as [Hin Hg]. apply andb_true_iff in Hg. destruct Hg as [Hg Hl].
    apply andb_true_iff in Hg. destruct Hg as [Ha Hs].
    apply negb_true_iff in Hs, Hl.
    split; [exact Hin|]. split; [exact Ha|].
    split; intros Hk; [rewrite Hk in Hs; cbn in Hs; discriminate Hs
                      |rewrite Hk in Hl; cbn in Hl; discriminate Hl].
  - subst cards. unfold HomePage.extraGoals, HomePage.sortBySortOrder.
    generalize (List.filter HomePage.UserGoalRow.is_active
                  (List.filter HomePage.notFixedGoal goals)).
    intros l. induction l as [|g l IH]; cbn [fold_right];
      [constructor | apply goal_sortInsert_Sorted, IH].
  - unfold HomePage.savingsTarget. rewrite goalByKey_last. reflexivity.
  - unfold HomePage.loansTarget. rewrite goalByKey_last. reflexivity.
Qed.


(** ** Undoing in the collections library *)

Lemma last_filter_split {A : Type} (p : A -> bool) (l : list A) (r : A) :
  last (List.filter p l) = Some r ->
  exists l1 l2, l = (l1 ++ r :: l2)%list /\ p r = true /\ List.filter p l2 = [].
Proof.
  induction l as [|x l IH] using rev_ind; [discriminate|].
  rewrite List.filter_app. cbn [List.filter].
  destruct (p x) eqn:Hx.
  - rewrite last_snoc. intros [= <-]. exists l, []. split; [reflexivity|].
    split; [exact Hx | reflexivity].
  - rewrite app_nil_r. intros Hlast. destruct (IH Hlast) as (l1 & l2 & -> & Hr & Hl2).
    exists l1, (l2 ++ [x])%list. split; [rewrite <- app_assoc; reflexivity|].
    split; [exact Hr|]. rewrite List.filter_app, Hl2. cbn [List.filter]. rewrite Hx. reflexivity.
Qed.

(** Marking one id leaves the rows with another id as they are. *)
Lemma mark_others (id : nat) (at_ : Z) (l : list CollectionRow.t) :
  ~ In id (map CollectionRow.id l) ->
  map (fun x =>
         if (CollectionRow.id x =? id)%nat
         then CollectionRow.mk (CollectionRow.id x) (CollectionRow.user_id x)
                (CollectionRow.week_id x) (CollectionRow.category x)
                (CollectionRow.bucket x) (CollectionRow.amount x) (Some at_)
         else x) l = l.
Proof.
  induction l as [|x l IH]; intros Hid; [reflexivity|]. cbn [map] in Hid |- *.
  destruct (Nat.eqb_spec (CollectionRow.id x) id) as [Heq|_].
  - exfalso. apply Hid. left. exact Heq.
  - rewrite IH; [reflexivity|]. intros H. apply Hid. right. exact H.
Qed.

(** X16. [undoCollect] of the library, for a signed-in user: when the
    week and category have no collection that is still active it
    returns null and writes nothing; otherwise it marks the most recent
    active one as undone, and only that one: the other active rows of
    the week and category stay active, the rows of every other user,
    week or category are untouched and no row is deleted.  (Ids are
    taken to be unique.) *)
Theorem undo_marks_latest_active
    (env : Env.t) (userId weekId category : string) (w : World.t) :
  Env.user env = Some userId ->
  List.NoDup (map CollectionRow.id (Store.collections (World.store w))) ->
  let act st := Collections.active userId weekId category (Store.collections st) in
  let out := fst (Collections.undoCollect env weekId category w) in
  let w' := snd (Collections.undoCollect env weekId category w) in
  match last (act (World.store w)) with
  | None => out = Collections.Returned None /\ w' = w
  | Some row =>
      let req := MarkCollectionUndone (CollectionRow.id row) (Env.now env) in
      World.log w' = (World.log w ++ [req])%list /\
      (Env.fails env req = false ->
       (exists undone,
          out = Collections.Returned (Some undone) /\
          CollectionRow.id undone = CollectionRow.id row /\
          CollectionRow.amount undone = CollectionRow.amount row /\
          CollectionRow.undone_at undone = Some (Env.now env)) /\
       act (World.store w') = removelast (act (World.store w)) /\
       List.length (Store.collections (World.store w'))
       = List.length (Store.collections (World.store w)) /\
       forall u wk c,
         (u, wk, c) <> (userId, weekId, category) ->
         Collections.active u wk c (Store.collections (World.store w'))
         = Collections.active u wk c (Store.collections (World.store w)))
  end.
Proof.
  intros Huser Hnd act out w'. subst act out w'. cbv beta.
  unfold Collections.undoCollect, Collections.getUserIdOrThrow. rewrite Huser.
  destruct (last (Collections.active userId weekId category
                    (Store.collections (World.store w)))) as [row|] eqn:Hlast;
    [|split; reflexivity].
  cbv zeta. unfold request.
  destruct (Env.fails env _) eqn:Hf; cbn [fst snd World.log World.store];
    (split; [reflexivity|]); [discriminate|]. intros _.
  unfold Collections.active in Hlast.
  destruct (last_filter_split _ _ _ Hlast) as (l1 & l2 & Hco & Hrow & Hl2).
  destruct (World.store w) as [wi bu tx cm tr bc co]. cbn [Store.collections] in *.
  cbn [apply Store.collections]. subst co.
  rewrite map_app in Hnd. cbn [map] in Hnd.
  apply NoDup_remove in Hnd. destruct Hnd as [_ Hnotin].
  assert (Hn1 : ~ In (CollectionRow.id row) (map CollectionRow.id l1))
    by (intros H; apply Hnotin, in_or_app; left; exact H).
  assert (Hn2 : ~ In (CollectionRow.id row) (map CollectionRow.id l2))
    by (intros H; apply Hnotin, in_or_app; right; exact H).
  rewrite List.map_app. cbn [map]. rewrite Nat.eqb_refl.
  rewrite (mark_others _ _ l1 Hn1), (mark_others _ _ l2 Hn2).
  split; [eexists; split; [reflexivity|]; repeat split; reflexivity|].
  apply andb_true_iff in Hrow. destruct Hrow as [Hrow Hundone].
  apply andb_true_iff in Hrow. destruct Hrow as [Hrow Hcat].
  apply andb_true_iff in Hrow. destruct Hrow as [Hu Hwk].
  apply String.eqb_eq in Hu, Hwk, Hcat.
  set (row' := CollectionRow.mk (CollectionRow.id row) (CollectionRow.user_id row)
                 (CollectionRow.week_id row) (CollectionRow.category row)
                 (CollectionRow.bucket row) (CollectionRow.amount row) (Some (Env.now env))).
  assert (Hr' : Collections.active userId weekId category [row'] = []).
  { unfold Collections.active, row'.
    cbn [List.filter CollectionRow.user_id CollectionRow.week_id CollectionRow.category
         CollectionRow.undone_at].
    rewrite andb_false_r. reflexivity. }
  assert (Hr : Collections.active userId weekId category [row] = [row]).
  { unfold Collections.active. cbn [List.filter].
    rewrite Hu, Hwk, Hcat, !String.eqb_refl, Hundone. reflexivity. }
  change (l1 ++ row' :: l2)%list with (l1 ++ [row'] ++ l2)%list.
  change (l1 ++ row :: l2)%list with (l1 ++ [row] ++ l2)%list.
  split; [|split].
  - rewrite !active_app, Hr, Hr'. fold (Collections.active userId weekId category l2) in Hl2.
    rewrite Hl2. cbn [app]. rewrite app_nil_r. symmetry. apply removelast_last.
  - rewrite !List.length_app. reflexivity.
  - intros u wk c Hne. rewrite !active_app. f_equal. f_equal.
    unfold Collections.active, row'.
    cbn [List.filter CollectionRow.user_id CollectionRow.week_id CollectionRow.category
         CollectionRow.undone_at].
    rewrite Hu, Hwk, Hcat.
    assert (Hno : String.eqb userId u && String.eqb weekId wk && String.eqb category c = false).
    { destruct (String.eqb_spec userId u) as [ ->|]; [|reflexivity].
      destruct (String.eqb_spec weekId wk) as [ ->|]; [|reflexivity].
      destruct (String.eqb_spec category c) as [ ->|]; [|reflexivity].
      contradiction. }
    rewrite Hno. cbn [andb]. reflexivity.
Qed.

Lemma undo_marks_latest_active_witness :
  let co := [CollectionRow.mk 0 "u" "w1" "wants" extra_money 5 None;
             CollectionRow.mk 1 "u" "w1" "wants" extra_money 7 None] in
  let w := World.mk (Store.mk [] [] [] [] [] [] co) [] in
  Env.user env_u = Some "u" /\
  List.NoDup (map CollectionRow.id (Store.collections (World.store w))) /\
  Collections.active "u" "w1" "wants"
    (Store.collections (World.store (snd (Collections.undoCollect env_u "w1" "wants" w))))
  = [CollectionRow.mk 0 "u" "w1" "wants" extra_money 5 None].
Proof.
  cbv zeta.
  set (w := World.mk (Store.mk [] [] [] [] [] []
                        [CollectionRow.mk 0 "u" "w1" "wants" extra_money 5 None;
                         CollectionRow.mk 1 "u" "w1" "wants" extra_money 7 None]) []).
  assert (H1 : Env.user env_u = Some "u") by reflexivity.
  assert (H2 : List.NoDup (map CollectionRow.id (Store.collections (World.store w)))).
  { cbn. constructor; [cbn; intros [H|[]]; discriminate H|].
    constructor; [intros []|constructor]. }
  split; [exact H1|]. split; [exact H2|].
  pose proof (undo_marks_latest_active env_u "u" "w1" "wants" w H1 H2) as H.
  cbv zeta in H.
  change (last (Collections.active "u" "w1" "wants" (Store.collections (World.store w))))
    with (Some (CollectionRow.mk 1 "u" "w1" "wants" extra_money 7 None)) in H.
  destruct H as [_ H]. destruct (H eq_refl) as (_ & Hact & _).
  rewrite Hact. reflexivity.
Defined.

(** ** The collect button *)

(** X17. The collect button through one cycle, signed in and with the
    store accepting the writes: the first click, with something
    remaining, records one active collection of exactly the remaining
    amount and turns the button into Undo; the second click marks that
    collection as undone and turns the button back, leaving active the
    rows that were active before the cycle. *)
Theorem collect_button_cycle
    (env : Env.t) (userId weekId category : string) (remaining : Q)
    (w : World.t) (st : CollectButton.State) :
  Env.user env = Some userId ->
  (forall r, Env.fails env r = false) ->
  0 < remaining ->
  CollectButton.loading st = false -> CollectButton.isCollected st = false ->
  Forall (fun x => (CollectionRow.id x < List.length (Store.collections (World.store w)))%nat)
    (Store.collections (World.store w)) ->
  let act x := Collections.active userId weekId category (Store.collections (World.store x)) in
  let c1 := CollectButton.onClick env weekId category remaining w st in
  let c2 := CollectButton.onClick env weekId category remaining (fst c1) (snd c1) in
  CollectButton.isCollected (snd c1) = true /\
  act (fst c1)
  = (act w ++ [CollectionRow.mk (List.length (Store.collections (World.store w)))
                 userId weekId category (Collections.bucketForCategory category)
                 remaining None])%list /\
  CollectButton.isCollected (snd c2) = false /\
  act (fst c2) = act w.
Proof.
  intros Huser Hok Hpos Hload Hcol Hids act c1 c2.
  assert (Hl : Qle_bool remaining 0 = false) by (apply Qle_bool_false, Hpos).
  assert (Hz : Qeq_bool remaining 0 = false).
  { destruct (Qeq_bool remaining 0) eqn:E; [|reflexivity]. apply Qeq_bool_iff in E. lra. }
  pose proof (lib_collect_then_undo env userId weekId category remaining w
                Huser Hok Hpos Hids) as Hcycle. cbv zeta in Hcycle.
  destruct (collectLeftover_guard env weekId category remaining w) as [_ Hcollect].
  cbv zeta in Hcollect.
  destruct (Hcollect Hpos userId Huser) as [_ Hrows]. specialize (Hrows (Hok _)).
  assert (Hc1 : c1 = (snd (Collections.collectLeftover env weekId category remaining w),
                      CollectButton.mk false true)).
  { subst c1. unfold CollectButton.onClick, CollectButton.disabled.
    rewrite Hload, Hcol, Hl. cbn [negb andb orb].
    unfold Collections.collectLeftover, Collections.getUserIdOrThrow.
    rewrite Hz, Hl, Huser. cbn [orb]. unfold request. rewrite Hok. reflexivity. }
  assert (Hc2 : c2 = (snd (Collections.undoCollect env weekId category (fst c1)),
                      CollectButton.mk false false)).
  { subst c2. rewrite Hc1. cbn [fst snd].
    unfold CollectButton.onClick, CollectButton.disabled. cbn [CollectButton.loading
      CollectButton.isCollected negb andb orb].
    destruct (Collections.undoCollect env weekId category _) as [[o|msg] w2] eqn:Hundo;
      [reflexivity|].
    exfalso. revert Hundo.
    unfold Collections.undoCollect, Collections.getUserIdOrThrow. rewrite Huser.
    destruct (last _); [|discriminate].
    unfold request. rewrite Hok. discriminate. }
  rewrite Hc2, Hc1. cbn [fst snd CollectButton.isCollected].
  split; [reflexivity|]. split; [|split; [reflexivity | exact Hcycle]].
  subst act. cbv beta. rewrite Hrows, active_app. f_equal.
  unfold Collections.active.
  cbn [List.filter CollectionRow.user_id CollectionRow.week_id CollectionRow.category
       CollectionRow.undone_at].
  rewrite !String.eqb_refl. reflexivity.
Qed.

Lemma collect_button_cycle_witness :
  let w := World.mk Store.empty [] in
  let st := CollectButton.mk false false in
  let c1 := CollectButton.onClick env_u "w1" "wants" 12 w st in
  let c2 := CollectButton.onClick env_u "w1" "wants" 12 (fst c1) (snd c1) in
  Env.user env_u = Some "u" /\ (forall r, Env.fails env_u r = false) /\ 0 < 12 /\
  Forall (fun x => (CollectionRow.id x < List.length (Store.collections (World.store w)))%nat)
    (Store.collections (World.store w)) /\
  CollectButton.isCollected (snd c1) = true /\
  CollectButton.isCollected (snd c2) = false /\
  Collections.active "u" "w1" "wants" (Store.collections (World.store (fst c2))) = [].
Proof.
  cbv zeta.
  assert (H1 : Env.user env_u = Some "u") by reflexivity.
  assert (H2 : forall r, Env.fails env_u r = false) by (intros r; reflexivity).
  assert (H3 : 0 < 12) by reflexivity.
  assert (H4 : Forall (fun x => (CollectionRow.id x
                                 < List.length (Store.collections
                                                  (World.store (World.mk Store.empty []))))%nat)
                 (Store.collections (World.store (World.mk Store.empty []))))
    by constructor.
  split; [exact H1|]. split; [exact H2|]. split; [exact H3|]. split; [exact H4|].
  pose proof (collect_button_cycle env_u "u" "w1" "wants" 12 (World.mk Store.empty [])
                (CollectButton.mk false false) H1 H2 H3 eq_refl eq_refl H4) as H.
  cbv zeta in H. destruct H as (Ha & _ & Hb & Hc).
  split; [exact Ha|]. split; [exact Hb | exact Hc].
Defined.


(** ** A week without budgets *)

Lemma rows_blank (md : gmap string string) :
  Forall (fun r => Dashboard.Row.budgeted r == 0 /\ Dashboard.Row.spent r == 0 /\
                   Dashboard.Row.variance r == 0)
    (Dashboard.rows [] [] md []).
Proof. repeat constructor. Qed.

(** X18. A week for which the signed-in user has no budgets is shown
    empty whatever else the store holds for it: the week is selected,
    but no transaction, transfer or collection of that week is loaded,
    and every card reads zero.  A transaction submitted on such a week
    does not appear either, since the week still has no budgets when
    the page reloads. *)
Theorem week_without_budgets_is_blank
    (env : Env.t) (uid : string) (ws : date) (w : World.t) (s : Dashboard.State.t) :
  Dashboard.ensureSignedIn env = true -> Env.user env = Some uid ->
  List.filter (fun x => sameWeek uid ws (Budget.user_id x) (Budget.week_start x))
    (Store.budgets (World.store w)) = [] ->
  let l := Dashboard.loadWeekAll env ws (World.store w) s in
  (Dashboard.State.weekStart l = Some ws /\
   Dashboard.State.budgets l = [] /\ Dashboard.State.transactions l = [] /\
   Dashboard.State.transfers l = [] /\ Dashboard.State.collectedSet l = ∅ /\
   Forall (fun r => Dashboard.Row.budgeted r == 0 /\ Dashboard.Row.spent r == 0 /\
                    Dashboard.Row.variance r == 0) (Dashboard.rowsOf l)) /\
  forall bucket form,
    let after := Dashboard.addTransactionForBucket env bucket form w l in
    Dashboard.State.transactions (snd after) = [] /\
    Dashboard.State.budgets (snd after) = [].
Proof.
  intros Hsess Huser Hnone l.
  assert (Hl : forall st s0,
            List.filter (fun x => sameWeek uid ws (Budget.user_id x) (Budget.week_start x))
              (Store.budgets st) = [] ->
            let l0 := Dashboard.loadWeekAll env ws st s0 in
            Dashboard.State.weekStart l0 = Some ws /\
            Dashboard.State.budgets l0 = [] /\ Dashboard.State.transactions l0 = [] /\
            Dashboard.State.transfers l0 = [] /\ Dashboard.State.collectedSet l0 = ∅).
  { intros st s0 Hf. unfold Dashboard.loadWeekAll. rewrite Hsess, Huser. cbn [negb].
    rewrite Hf. repeat split; reflexivity. }
  destruct (Hl (World.store w) s Hnone) as (L1 & L2 & L3 & L4 & L5). fold l in L1, L2, L3, L4, L5.
  split.
  { split; [exact L1|]. split; [exact L2|]. split; [exact L3|]. split; [exact L4|].
    split; [exact L5|]. unfold Dashboard.rowsOf. rewrite L2, L3, L4. apply rows_blank. }
  intros bucket form after. subst after.
  unfold Dashboard.addTransactionForBucket.
  cbn [Dashboard.State.weekStart Dashboard.setErrorMsg]. rewrite L1, Hsess. cbn [negb].
  destruct (negb (JS.truthy _)); [split; assumption|].
  destruct (_ || _); [split; assumption|].
  destruct (Dashboard.TxForm.txDate form) as [txDate|]; [|split; assumption].
  destruct (negb (isISOInRange _ _ _)); [split; assumption|].
  rewrite Huser. unfold request.
  destruct (Env.fails env _); cbn [fst snd World.store]; [split; assumption|].
  match goal with
  | |- context [Dashboard.loadWeekAll env ws ?st ?s0] =>
      destruct (Hl st s0) as (_ & M2 & M3 & _)
  end.
  { destruct (World.store w); exact Hnone. }
  split; [exact M3 | exact M2].
Qed.

Lemma week_without_budgets_is_blank_witness :
  let w :=
    World.mk (Store.mk [] [] [Transaction.mk "u" 2%Z (-50) "expenses::rent"] [] [] [] []) [] in
  Dashboard.ensureSignedIn env_u = true /\ Env.user env_u = Some "u" /\
  List.filter (fun x => sameWeek "u" 1%Z (Budget.user_id x) (Budget.week_start x))
    (Store.budgets (World.store w)) = [] /\
  Dashboard.State.transactions
    (Dashboard.loadWeekAll env_u 1%Z (World.store w) (Dashboard.State.initial 1%Z)) = [].
Proof.
  cbv zeta.
  split; [reflexivity|]. split; [reflexivity|]. split; [reflexivity|].
  pose proof (week_without_budgets_is_blank env_u "u" 1%Z
                (World.mk (Store.mk [] [] [Transaction.mk "u" 2%Z (-50) "expenses::rent"]
                             [] [] [] []) [])
                (Dashboard.State.initial 1%Z) eq_refl eq_refl eq_refl) as H.
  cbv zeta in H. destruct H as ((_ & _ & H & _) & _). exact H.
Defined.


(** ** A rejected insert when adding a week *)



(** ** A transaction and the spent of its card *)

Lemma trimEnd_idem (s : string) : JS.trimEnd (JS.trimEnd s) = JS.trimEnd s.
Proof.
  induction s as [|c s IH]; [reflexivity|]. cbn [JS.trimEnd].
  destruct (JS.trimEnd s) as [|c' r'] eqn:Hs.
  - destruct (JS.is_white c) eqn:Hc; [reflexivity|]. cbn [JS.trimEnd]. rewrite Hc. reflexivity.
  - cbn [JS.trimEnd] in IH |- *.
    destruct (JS.trimEnd r') as [|c2 r2] eqn:Hr'.
    + destruct (JS.is_white c') eqn:Hc'; [discriminate IH|].
      inversion IH; subst. reflexivity.
    + rewrite IH. reflexivity.
Qed.

Lemma trimStart_head (s : string) :
  match JS.trimStart s with
  | EmptyString => True
  | String c _ => JS.is_white c = false
  end.
Proof.
  induction s as [|c s IH]; [exact I|]. cbn [JS.trimStart].
  destruct (JS.is_white c) eqn:Hc; [exact IH | exact Hc].
Qed.

Lemma trimEnd_head (c : ascii) (s : string) :
  JS.is_white c = false -> exists r, JS.trimEnd (String c s) = String c r.
Proof.
  intros Hc. cbn [JS.trimEnd]. destruct (JS.trimEnd s) as [|c' r'].
  - rewrite Hc. exists "". reflexivity.
  - exists (String c' r'). reflexivity.
Qed.

Lemma trim_idem (s : string) : JS.trim (JS.trim s) = JS.trim s.
Proof.
  unfold JS.trim. pose proof (trimStart_head s) as Hhead.
  destruct (JS.trimStart s) as [|c t] eqn:Ht; [reflexivity|].
  destruct (trimEnd_head c t Hhead) as [r Hr].
  assert (Hst : JS.trimStart (JS.trimEnd (String c t)) = JS.trimEnd (String c t)).
  { rewrite Hr. cbn [JS.trimStart]. rewrite Hhead. reflexivity. }
  rewrite Hst. apply trimEnd_idem.
Qed.

Lemma insertByDateDesc_perm (t : Transaction.t) (l : list Transaction.t) :
  Permutation (Dashboard.insertByDateDesc t l) (t :: l).
Proof.
  induction l as [|x l IH]; cbn [Dashboard.insertByDateDesc]; [reflexivity|].
  destruct (_ <? _)%Z; [reflexivity|]. rewrite IH. apply perm_swap.
Qed.

Lemma orderByDateDesc_perm (l : list Transaction.t) :
  Permutation (Dashboard.orderByDateDesc l) l.
Proof.
  unfold Dashboard.orderByDateDesc.
  induction l as [|t l IH]; cbn [fold_right]; [reflexivity|].
  rewrite insertByDateDesc_perm, IH. reflexivity.
Qed.

Lemma spec_spent_perm (l l' : list Transaction.t) (md : gmap string string) (b : string) :
  Permutation l l' -> spec_spent l md b == spec_spent l' md b.
Proof. intros Hp. unfold spec_spent. apply sum_filter_perm, Hp. Qed.

Lemma spec_spent_snoc (l : list Transaction.t) (t : Transaction.t)
    (md : gmap string string) (b : string) :
  spec_spent (l ++ [t]) md b
  == spec_spent l md b + (if is_expense_of md b t then Qabs (Transaction.amount t) else 0).
Proof.
  unfold spec_spent. rewrite List.filter_app, List.map_app, sumQ_app. cbn [List.filter].
  destruct (is_expense_of md b t); cbn [map]; rewrite ?sumQ_cons;
    change (sumQ []) with 0; ring.
Qed.

(** Loading after a transaction was added to the displayed week. *)
Lemma load_after_transaction
    (env : Env.t) (uid : string) (ws : date) (st : Store.t)
    (d : date) (amount : JS.number) (category : string) (s : Dashboard.State.t) :
  Dashboard.ensureSignedIn env = true ->
  Env.user env = Some uid ->
  isISOInRange d ws (addDaysISO ws 6) = true ->
  let row := Transaction.mk uid d (storedAmount amount) category in
  let l := Dashboard.loadWeekAll env ws st s in
  let l' := Dashboard.loadWeekAll env ws (apply (InsertTransaction uid d amount category) st) s in
  Dashboard.State.budgets l <> [] ->
  Dashboard.State.budgets l' = Dashboard.State.budgets l /\
  Permutation (Dashboard.State.transactions l') (Dashboard.State.transactions l ++ [row]) /\
  Dashboard.State.categoryMap l' = Dashboard.State.categoryMap l /\
  Dashboard.State.transfers l' = Dashboard.State.transfers l /\
  Dashboard.State.collectedSet l' = Dashboard.State.collectedSet l /\
  Dashboard.State.weekStart l' = Some ws.
Proof.
  intros Hsess Huser Hrange. cbv zeta.
  destruct st as [wi bu tx cm tr bc co].
  unfold Dashboard.loadWeekAll. rewrite Hsess, Huser.
  cbn [negb apply Store.budgets Store.transactions Store.category_map
       Store.bucket_transfers Store.bucket_collections Store.weekly_income].
  destruct (List.filter _ bu) as [|b0 bs]; [intros Hne; exfalso; apply Hne; reflexivity|].
  intros _.
  cbn [Dashboard.State.budgets Dashboard.State.transactions Dashboard.State.categoryMap
       Dashboard.State.transfers Dashboard.State.collectedSet Dashboard.State.weekStart
       Dashboard.setTransfers Dashboard.setCollectedSet Dashboard.setTransactions
       Dashboard.setBudgets Dashboard.setWeekStart Dashboard.setWeeklyIncome
       Dashboard.setCategoryMap Dashboard.setErrorMsg].
  split; [reflexivity|]. split; [|repeat split; reflexivity].
  rewrite List.filter_app. cbn [List.filter Transaction.user_id Transaction.date_].
  rewrite String.eqb_refl, Hrange. cbn [andb].
  rewrite !orderByDateDesc_perm. reflexivity.
Qed.



(** ** Loading the Savings page *)

Lemma orderInsert_filter
    (k : date) (x : BucketCollectionRow.t) (l : list BucketCollectionRow.t) :
  List.filter (fun r => (BucketCollectionRow.week_start r =? k)%Z) (SavingsPage.orderInsert x l)
  = List.filter (fun r => (BucketCollectionRow.week_start r =? k)%Z) (x :: l).
Proof.
  induction l as [|y l IH]; [reflexivity|].
  cbn [SavingsPage.orderInsert].
  destruct (BucketCollectionRow.week_start y <=? BucketCollectionRow.week_start x)%Z eqn:Hle;
    [reflexivity|].
  apply Z.leb_gt in Hle.
  change (List.filter ?f (y :: ?r)) with (if f y then y :: List.filter f r else List.filter f r).
  rewrite IH. cbn [List.filter].
  destruct (BucketCollectionRow.week_start x =? k)%Z eqn:Hx; [|reflexivity].
  apply Z.eqb_eq in Hx.
  assert (Hy : (BucketCollectionRow.week_start y =? k)%Z = false) by (apply Z.eqb_neq; lia).
  rewrite Hy. reflexivity.
Qed.

Lemma ordered_filter (k : date) (l : list BucketCollectionRow.t) :
  List.filter (fun r => (BucketCollectionRow.week_start r =? k)%Z) (SavingsPage.ordered l)
  = rev (List.filter (fun r => (BucketCollectionRow.week_start r =? k)%Z) l).
Proof.
  unfold SavingsPage.ordered. rewrite <- List.filter_rev.
  induction (rev l) as [|x r IH]; [reflexivity|].
  cbn [fold_right]. rewrite orderInsert_filter. cbn [List.filter]. rewrite IH. reflexivity.
Qed.

Lemma orderInsert_Sorted (x : BucketCollectionRow.t) (l : list BucketCollectionRow.t) :
  Sorted (fun a b => (BucketCollectionRow.week_start b <= BucketCollectionRow.week_start a)%Z) l ->
  Sorted (fun a b => (BucketCollectionRow.week_start b <= BucketCollectionRow.week_start a)%Z)
    (SavingsPage.orderInsert x l).
Proof.
  induction l as [|y l IH]; intros Hs; cbn [SavingsPage.orderInsert].
  - constructor; constructor.
  - destruct (BucketCollectionRow.week_start y <=? BucketCollectionRow.week_start x)%Z eqn:Hle.
    + apply Z.leb_le in Hle. constructor; [exact Hs | constructor; exact Hle].
    + apply Z.leb_gt in Hle. inversion Hs as [|? ? Hs' Hhd]; subst.
      constructor; [apply IH, Hs'|].
      destruct l as [|z l]; cbn [SavingsPage.orderInsert].
      * constructor. lia.
      * destruct (BucketCollectionRow.week_start z <=? BucketCollectionRow.week_start x)%Z.
        -- constructor. lia.
        -- inversion Hhd; subst. constructor. assumption.
Qed.

Lemma ordered_Sorted (l : list BucketCollectionRow.t) :
  Sorted (fun a b => (BucketCollectionRow.week_start b <= BucketCollectionRow.week_start a)%Z)
    (SavingsPage.ordered l).
Proof.
  unfold SavingsPage.ordered. induction (rev l) as [|x r IH]; [constructor|].
  cbn [fold_right]. apply orderInsert_Sorted, IH.
Qed.

Lemma sorted_head_max (x : BucketCollectionRow.t) (l : list BucketCollectionRow.t) :
  Sorted (fun a b => (BucketCollectionRow.week_start b <= BucketCollectionRow.week_start a)%Z)
    (x :: l) ->
  forall r, In r (x :: l) ->
    (BucketCollectionRow.week_start r <= BucketCollectionRow.week_start x)%Z.
Proof.
  intros Hs. apply Sorted_StronglySorted in Hs; [|intros a b c Hab Hbc; lia].
  inversion Hs as [|? ? _ Hall]; subst.
  intros r [<-|Hr]; [lia|].
  exact (proj1 (List.Forall_forall _ _) Hall r Hr).
Qed.

Lemma strict_head_max (k : date) (l : list date) :
  Sorted (fun a b => (b < a)%Z) (k :: l) -> forall k', In k' (k :: l) -> (k' <= k)%Z.
Proof.
  intros Hs. apply Sorted_StronglySorted in Hs; [|intros a b c Hab Hbc; lia].
  inversion Hs as [|? ? _ Hall]; subst.
  intros k' [<-|Hk]; [lia|].
  pose proof (proj1 (List.Forall_forall _ _) Hall k' Hk) as Hlt. cbv beta in Hlt. lia.
Qed.

Lemma week_options (rows : list BucketCollectionRow.t) :
  Sorted (fun a b => (b < a)%Z) (SavingsPage.weekOptions rows) /\
  forall k, In k (SavingsPage.weekOptions rows)
            <-> exists r, In r rows /\ BucketCollectionRow.week_start r = k.
Proof.
  destruct (weeks_map rows) as (Hnd & Hkeys & _). cbv zeta in Hnd, Hkeys.
  unfold SavingsPage.weekOptions, SavingsPage.byWeek. cbv zeta.
  set (m := fold_left _ rows []) in *.
  set (mk := fun '(weekStart, list) =>
               SavingsPage.Week.mk weekStart list (SavingsPage.totals list)).
  assert (Hkeys' : map SavingsPage.Week.weekStart (map mk m) = map fst m).
  { rewrite map_map. apply map_ext. intros [k l]. reflexivity. }
  split.
  - apply week_sort_Sorted. rewrite Hkeys'. exact Hnd.
  - intros k. rewrite week_sort_keys, Hkeys'. apply Hkeys.
Qed.

(** X21. Loading the Savings page, signed in: the page holds every
    collection row of the store, the latest week first and, within a
    week, the row created last first.  A week that was selected stays
    selected.  With no week selected and at least one row, the latest
    week that has a row becomes the selected week; it heads the week
    menu and its entry is the one displayed. *)
Theorem savings_page_opens_on_latest_week
    (env : Env.t) (st : Store.t) (s : SavingsPage.State.t) :
  Env.session env = true ->
  let all := Store.bucket_collections st in
  let s' := SavingsPage.load env st s in
  let shown := SavingsPage.State.rows s' in
  let inWeek k := fun r => (BucketCollectionRow.week_start r =? k)%Z in
  Permutation shown all /\
  Sorted (fun a b => (BucketCollectionRow.week_start b <= BucketCollectionRow.week_start a)%Z)
    shown /\
  (forall k, List.filter (inWeek k) shown = rev (List.filter (inWeek k) all)) /\
  (forall ws, SavingsPage.State.selectedWeek s = Some ws ->
              SavingsPage.State.selectedWeek s' = Some ws) /\
  (SavingsPage.State.selectedWeek s = None -> all <> [] ->
   exists ws w,
     SavingsPage.State.selectedWeek s' = Some ws /\
     (forall r, In r all -> (BucketCollectionRow.week_start r <= ws)%Z) /\
     (exists r, In r all /\ BucketCollectionRow.week_start r = ws) /\
     head (SavingsPage.weekOptions shown) = Some ws /\
     SavingsPage.selected shown (Some ws) = Some w /\
     SavingsPage.Week.weekStart w = ws).
Proof.
  intros Hsess all s' shown inWeek.
  assert (Hshown : shown = SavingsPage.ordered all).
  { subst shown s'. unfold SavingsPage.load. rewrite Hsess. reflexivity. }
  assert (Hperm : Permutation shown all) by (rewrite Hshown; apply ordered_perm).
  split; [exact Hperm|].
  split; [rewrite Hshown; apply ordered_Sorted|].
  split; [intros k; rewrite Hshown; apply ordered_filter|].
  split.
  { intros ws Hsel. subst s'. unfold SavingsPage.load. rewrite Hsess, Hsel. reflexivity. }
  intros Hsel Hne.
  pose proof (ordered_Sorted all) as Hsorted. rewrite <- Hshown in Hsorted.
  destruct shown as [|r0 rest] eqn:Hrows.
  { apply Permutation_nil in Hperm. congruence. }
  exists (BucketCollectionRow.week_start r0).
  assert (Hmax : forall r, In r all ->
            (BucketCollectionRow.week_start r <= BucketCollectionRow.week_start r0)%Z).
  { intros r Hr. apply (sorted_head_max r0 rest Hsorted).
    apply (Permutation_in r (Permutation_sym Hperm) Hr). }
  assert (Hr0 : In r0 all) by (apply (Permutation_in r0 Hperm); left; reflexivity).
  destruct (week_options (r0 :: rest)) as (Hopt & Hkeys).
  assert (Hin0 : In (BucketCollectionRow.week_start r0) (SavingsPage.weekOptions (r0 :: rest))).
  { apply Hkeys. exists r0. split; [left; reflexivity | reflexivity]. }
  unfold SavingsPage.selected.
  unfold SavingsPage.weekOptions in Hopt, Hkeys, Hin0 |- *.
  destruct (SavingsPage.byWeek (r0 :: rest)) as [|w0 ws] eqn:Hby; [destruct Hin0|].
  cbn [map] in Hopt, Hkeys, Hin0.
  assert (Hw0 : SavingsPage.Week.weekStart w0 = BucketCollectionRow.week_start r0).
  { pose proof (strict_head_max _ _ Hopt _ Hin0) as Hle.
    assert (Hk : In (SavingsPage.Week.weekStart w0)
                   (SavingsPage.Week.weekStart w0 :: map SavingsPage.Week.weekStart ws))
      by (left; reflexivity).
    apply Hkeys in Hk. destruct Hk as (r & Hr & Hk).
    pose proof (Hmax r (Permutation_in r Hperm Hr)) as Hge. lia. }
  exists w0.
  split.
  { subst s'. unfold SavingsPage.load. rewrite Hsess, Hsel.
    cbn [negb SavingsPage.State.selectedWeek]. fold all. rewrite <- Hshown. reflexivity. }
  split; [exact Hmax|].
  split; [exists r0; split; [exact Hr0 | reflexivity]|].
  split; [cbn [map head]; rewrite Hw0; reflexivity|].
  split; [|exact Hw0].
  cbn [find]. rewrite Hw0, Z.eqb_refl. reflexivity.
Qed.

Lemma savings_page_opens_on_latest_week_witness :
  let st := Store.mk [] [] [] [] []
              [BucketCollectionRow.mk "u" 1%Z "save" 5;
               BucketCollectionRow.mk "u" 8%Z "emergency" 3;
               BucketCollectionRow.mk "u" 1%Z "save" 2] [] in
  let s := SavingsPage.State.mk [] None None false savings false Dashboard.blank "" in
  let s' := SavingsPage.load env_u st s in
  Env.session env_u = true /\
  exists ws w,
    SavingsPage.State.selectedWeek s' = Some ws /\
    head (SavingsPage.weekOptions (SavingsPage.State.rows s')) = Some ws /\
    SavingsPage.selected (SavingsPage.State.rows s') (Some ws) = Some w.
Proof.
  cbv zeta. split; [reflexivity|].
  pose proof (savings_page_opens_on_latest_week env_u
                (Store.mk [] [] [] [] []
                   [BucketCollectionRow.mk "u" 1%Z "save" 5;
                    BucketCollectionRow.mk "u" 8%Z "emergency" 3;
                    BucketCollectionRow.mk "u" 1%Z "save" 2] [])
                (SavingsPage.State.mk [] None None false savings false Dashboard.blank "")
                eq_refl) as H.
  cbv zeta in H. destruct H as (_ & _ & _ & _ & H).
  destruct (H eq_refl ltac:(discriminate)) as (ws & w & H1 & _ & _ & H2 & H3 & _).
  exists ws, w. split; [exact H1|]. split; [exact H2 | exact H3].
Defined.
